(** * MovinetClassifier: the video-classification wrapper of movinet_model.py

    A shallow embedding of [src/model/movinet_model.py]: the class
    [MovinetClassifier] (constructor, [checkpoint_items], [backbone],
    [get_config], [from_config]) and the registered builder
    [build_movinet_model].

    Python objects that the code mutates or shares (dicts) live in a store
    and are handled through references; framework objects (the backbone,
    regularizers, initializers) are opaque and known by their identity;
    the collaborators the file calls (the backbone, the layer deserializer,
    the backbone factory) are parameters, and the model registry is a
    finite map. *)

From Stdlib Require Import ZArith String List Floats.SpecFloat.
From stdpp Require Import base option list gmap strings fin_maps.

Local Open Scope string_scope.

(** ** Values *)

(** A dimension of a shape: [None] is Python's [None] (unknown size). *)
Definition dim := option Z.

(** [tf.keras.layers.InputSpec]: its [dtype], [shape] and [ndim]. A spec
    built without a shape, such as [InputSpec(ndim=5)], has [shape = None];
    one built with a shape has the length of the shape as [ndim]. *)
Record InputSpec := mkInputSpec {
  spec_dtype : option string;
  spec_shape : option (list dim);
  spec_ndim : option Z
}.

(** References to dict objects in the store, and identities of opaque
    framework objects. *)
Abbreviation loc := positive (only parsing).
Abbreviation objid := positive (only parsing).

Inductive value :=
| VNone
| VBool (b : bool)
| VInt (z : Z)
| VFloat (f : spec_float)
| VStr (s : string)
| VSpec (sp : InputSpec)
| VRef (l : loc)
| VObj (o : objid)
| VShape (dims : list dim).   (* a tuple or list of dimensions *)

(** A Python dict with string keys, in insertion order. *)
Abbreviation odict A := (list (string * A)) (only parsing).
Abbreviation pydict := (list (string * value)) (only parsing).

Fixpoint dict_get {A} (k : string) (d : odict A) : option A :=
  match d with
  | [] => None
  | (k', v) :: d' => if String.eqb k k' then Some v else dict_get k d'
  end.

(** [d[k] = v]: an existing key keeps its position, a new one is appended. *)
Fixpoint dict_set {A} (k : string) (v : A) (d : odict A) : odict A :=
  match d with
  | [] => [(k, v)]
  | (k', v') :: d' =>
      if String.eqb k k' then (k', v) :: d' else (k', v') :: dict_set k v d'
  end.

(** [d.get(k, default)] *)
Definition dict_get_or {A} (k : string) (default : A) (d : odict A) : A :=
  match dict_get k d with
  | Some v => v
  | None => default
  end.

Definition dict_keys {A} (d : odict A) : list string := map fst d.

(** ** Symbolic tensors *)

(** Keyword arguments of [movinet_layers.ClassifierHead]. *)
Record head_args := mkHeadArgs {
  head_filters : value;
  head_num_classes : value;
  head_dropout_rate : value;
  head_kernel_initializer : value;
  head_kernel_regularizer : value;
  head_conv_type : value
}.

Inductive tensor :=
| Placeholder (shape : list dim) (name : string)
    (* tf.keras.Input(shape=shape, name=name) *)
| Feature (shape : list dim) (tag : positive)
    (* a tensor computed by a collaborator *)
| ClassifierOut (args : head_args) (x : tensor).
    (* movinet_layers.ClassifierHead(head_filters=..., ...)(x) *)

Definition dim_of_value (v : value) : dim :=
  match v with VInt n => Some n | _ => None end.

Definition batch_dim (s : list dim) : dim :=
  match s with d :: _ => d | [] => None end.

(** Modelled from the spec: [movinet_layers.ClassifierHead] is defined in
    another module, which this file imports; the spec gives its result as
    a classification tensor of shape [(num_classes,)] per input example,
    so the output of the head keeps the batch dimension of its input and
    has [num_classes] as its only other dimension. [tf.keras.Input]
    prepends the batch dimension to the shape it is given. *)
Fixpoint tensor_shape (t : tensor) : list dim :=
  match t with
  | Placeholder shape _ => None :: shape
  | Feature shape _ => shape
  | ClassifierOut args x =>
      [batch_dim (tensor_shape x); dim_of_value (head_num_classes args)]
  end.

(** An entry of the [inputs] mapping handed to [tf.keras.Model]: a tensor, or
    a nested mapping of tensors (the [states] entry). *)
Inductive input_entry :=
| ITensor (t : tensor)
| IStates (d : odict tensor).

(** The output structure handed to [tf.keras.Model]. *)
Inductive model_outputs :=
| OutTensor (x : tensor)
| OutWithStates (x : tensor) (states : odict tensor).

(** ** Errors, events, the store *)

Inductive pyerr :=
| KeyError (k : string)
| AttributeError (a : string)
| TypeError (msg : string)
| IndexError (msg : string)
| External (code : positive).   (* raised inside a collaborator *)

Inductive res (A : Type) :=
| Ok (a : A)
| Raise (e : pyerr).
Arguments Ok {A} a.
Arguments Raise {A} e.

(** Calls that leave this file, in the order they are made. *)
Inductive event :=
| EvBackboneCall (b : value) (image : input_entry) (states : input_entry)
| EvClassifierHead (args : head_args) (x : tensor)
| EvDeserialize (d : pydict)
| EvBuildBackbone (input_specs backbone_config norm_activation l2 : value)
| EvLogInfo (msg : string) (arg : value).

Record world := mkWorld {
  heap : gmap loc pydict;
  trace : list event
}.

#[global] Instance res_ret : MRet res := @Ok.
#[global] Instance res_bind : MBind res :=
  fun A B f r => match r with Ok a => f a | Raise e => Raise e end.

Fixpoint map_res {A B} (f : A -> res B) (xs : list A) : res (list B) :=
  match xs with
  | [] => Ok []
  | x :: xs' => y ← f x; ys ← map_res f xs'; Ok (y :: ys)
  end.

(** Code that reads or changes the store, calls out, or raises. An
    exception keeps the changes made before it. *)
Definition M (A : Type) := world -> res A * world.

Definition ret {A} (a : A) : M A := fun w => (Ok a, w).
Definition raise {A} (e : pyerr) : M A := fun w => (Raise e, w).
Definition bind {A B} (m : M A) (f : A -> M B) : M B :=
  fun w => match m w with
           | (Ok a, w') => f a w'
           | (Raise e, w') => (Raise e, w')
           end.

#[global] Instance M_ret : MRet M := @ret.
#[global] Instance M_bind : MBind M := fun A B f m => bind m f.

Definition lift_res {A} (r : res A) : M A := fun w => (r, w).

Definition emit (e : event) : M unit :=
  fun w => (Ok tt, mkWorld (heap w) (trace w ++ [e])).

Definition read_heap : M (gmap loc pydict) := fun w => (Ok (heap w), w).

(** A dict literal or comprehension: a new object in the store. *)
Definition alloc (d : pydict) : M value :=
  fun w => let l := fresh (dom (heap w)) in
           (Ok (VRef l), mkWorld (<[l := d]> (heap w)) (trace w)).

Definition store (l : loc) (d : pydict) : M unit :=
  fun w => (Ok tt, mkWorld (<[l := d]> (heap w)) (trace w)).

Fixpoint for_each {A} (xs : list A) (body : A -> M unit) : M unit :=
  match xs with
  | [] => ret tt
  | x :: xs' => body x ;; for_each xs' body
  end.

(** ** Python primitives *)

(** The dict a value refers to, if it is one. *)
Definition dict_of (h : gmap loc pydict) (v : value) : option pydict :=
  match v with
  | VRef l => h !! l
  | _ => None
  end.

Definition float_is_zero (f : spec_float) : bool :=
  match f with S754_zero _ => true | _ => false end.

(** Truth value of an object, as [if v:] and [not v] take it. Specs and
    opaque framework objects define neither [__bool__] nor [__len__]; a
    tuple is true unless it is empty. A reference to no object has
    none. *)
Definition is_truthy (h : gmap loc pydict) (v : value) : option bool :=
  match v with
  | VNone => Some false
  | VBool b => Some b
  | VInt z => Some (negb (Z.eqb z 0))
  | VFloat f => Some (negb (float_is_zero f))
  | VStr s => Some (negb (String.eqb s ""))
  | VSpec _ => Some true
  | VObj _ => Some true
  | VShape dims => Some (match dims with [] => false | _ => true end)
  | VRef l =>
      match h !! l with
      | Some d => Some (match d with [] => false | _ => true end)
      | None => None
      end
  end.

Definition truthy (v : value) : M bool :=
  h ← read_heap;
  match is_truthy h v with
  | Some b => ret b
  | None => raise (TypeError "reference to no object")
  end.

(** [isinstance(v, dict)] *)
Definition isinstance_dict (v : value) : M bool :=
  h ← read_heap;
  ret (match dict_of h v with Some _ => true | None => false end).

(** The dict behind a value that has to be one; [err] is what the
    operation raises on anything else. *)
Definition as_dict (err : pyerr) (v : value) : M pydict :=
  h ← read_heap;
  match dict_of h v with
  | Some d => ret d
  | None => raise err
  end.

(** [v[k]] *)
Definition getitem (v : value) (k : string) : M value :=
  d ← as_dict (TypeError "object is not subscriptable") v;
  match dict_get k d with
  | Some x => ret x
  | None => raise (KeyError k)
  end.

(** [v[k] = x] *)
Definition setitem (v : value) (k : string) (x : value) : M unit :=
  d ← as_dict (TypeError "object does not support item assignment") v;
  match v with
  | VRef l => store l (dict_set k x d)
  | _ => ret tt
  end.

(** [v.items()] *)
Definition items (v : value) : M pydict :=
  as_dict (AttributeError "items") v.

(** [for name in v] over a dict: its keys. *)
Definition iter_keys (v : value) : M (list string) :=
  d ← as_dict (TypeError "object is not iterable") v;
  ret (dict_keys d).

(** [t[i]] for a tuple [t] of dimensions and one of them as index. *)
Definition tuple_getitem (t : list dim) (i : dim) : res dim :=
  match i with
  | None =>
      Raise (TypeError
               "tuple indices must be integers or slices, not NoneType")
  | Some z =>
      let n := Z.of_nat (length t) in
      let j := if (z <? 0)%Z then (z + n)%Z else z in
      if ((0 <=? j)%Z && (j <? n)%Z)%bool
      then Ok (nth (Z.to_nat j) t None)
      else Raise (IndexError "tuple index out of range")
  end.

(** [v[1:]] as the [shape] that [tf.keras.Input] is given. The rest of a
    tuple of dimensions is the shape. A str can be sliced too, and
    [tf.keras.Input] takes the rest for the sequence of its characters:
    the empty rest is the empty shape, and no character is a dimension.
    Nothing else can be sliced: numbers, [None] and specs are not
    subscriptable, a slice is no key of a dict, and an opaque object is no
    sequence. *)
Definition slice_tail (v : value) : res (list dim) :=
  match v with
  | VShape dims => Ok (drop 1 dims)
  | VStr s =>
      if (String.length s <=? 1)%nat then Ok []
      else Raise (TypeError "Dimension value must be integer or None")
  | VNone => Raise (TypeError "'NoneType' object is not subscriptable")
  | VRef _ => Raise (TypeError "unhashable type: 'slice'")
  | _ => Raise (TypeError "object is not subscriptable")
  end.

(** [d[k]] on a local mapping. *)
Definition lookup_local {A} (k : string) (d : odict A) : M A :=
  match dict_get k d with
  | Some x => ret x
  | None => raise (KeyError k)
  end.

(** A mapping of names to shape specs: every entry is an [InputSpec] that
    carries a shape. *)
Definition is_shape_spec (v : value) : bool :=
  match v with
  | VSpec sp => match spec_shape sp with Some _ => true | None => false end
  | _ => false
  end.

Definition shape_specs (specs : pydict) : bool :=
  forallb (fun kv => is_shape_spec kv.2) specs.

(** ** The model configuration *)

Module cfg.
(** Modelled from the spec: [cfg.MovinetModel] is defined in another
    module, which this file imports; the spec describes it as a
    configuration object exposing [backbone], [norm_activation] and
    [dropout_rate]. *)
Record MovinetModel := mkMovinetModel {
  backbone : value;
  norm_activation : value;
  dropout_rate : value
}.
End cfg.

(** ** The classifier *)

(** The attributes the constructor sets, and what it hands to the
    constructor of [tf.keras.Model]. ([_self_setattr_tracking], set after
    the first seven, tells Keras not to track what is set from then on:
    the backbone.) *)
Record MovinetClassifier := mkMovinetClassifier {
  _backbone : value;
  _num_classes : value;
  _input_specs : value;
  _dropout_rate : value;
  _kernel_initializer : value;
  _kernel_regularizer : value;
  _bias_regularizer : value;
  _output_states : value;
  (* what [tf.keras.Model.__init__] received *)
  keras_inputs : odict input_entry;
  keras_outputs : model_outputs;
  keras_kwargs : pydict
}.

(** [InputSpec(shape=[None, None, None, None, 3])] *)
Definition default_image_spec : InputSpec :=
  mkInputSpec None (Some [None; None; None; None; Some 3%Z]) (Some 5%Z).

Section Collaborators.

(** Calling a backbone object on [dict(image=..., states=...)]: the
    endpoints and the updated states, or what it raises. *)
Variable backbone_call :
  objid -> input_entry -> input_entry -> res (odict tensor * odict tensor).
(** Attributes of framework objects ([_head_filters], [_conv_type],
    [shape]). *)
Variable obj_attr : objid -> string -> option value.
(** [tf.keras.layers.deserialize] on the contents of a dict. *)
Variable deserialize : pydict -> res value.
(** [backbones.factory.build_backbone]. *)
Variable build_backbone : value -> value -> value -> value -> res value.
(** [v.get_config()] on a value that may have the method: a framework
    object (a regularizer has it) or an input spec. *)
Variable regularizer_get_config : value -> res value.

Definition getattr (v : value) (a : string) : M value :=
  match v with
  | VObj o =>
      match obj_attr o a with
      | Some x => ret x
      | None => raise (AttributeError a)
      end
  | _ => raise (AttributeError a)
  end.

(** [state.shape]: the [shape] of an input spec ([None] when it was built
    without one), or the attribute of that name of a framework object. *)
Definition shape_attr (state : value) : res value :=
  match state with
  | VSpec sp =>
      Ok (match spec_shape sp with Some s => VShape s | None => VNone end)
  | VObj o =>
      match obj_attr o "shape" with
      | Some x => Ok x
      | None => Raise (AttributeError "shape")
      end
  | _ => Raise (AttributeError "shape")
  end.

(** [state.shape[1:]] for an entry of [input_specs]. *)
Definition spec_shape_tail (state : value) : res (list dim) :=
  shape ← shape_attr state;
  slice_tail shape.

(** [backbone(dict(image=image, states=states))] *)
Definition call_backbone (backbone : value) (image states : input_entry)
  : M (odict tensor * odict tensor) :=
  match backbone with
  | VObj o =>
      emit (EvBackboneCall backbone image states) ;;
      lift_res (backbone_call o image states)
  | _ => raise (TypeError "object is not callable")
  end.

(** [{name: tf.keras.Input(shape=state.shape[1:], name=f'states/{name}')
     for name, state in input_specs.items()}] *)
Definition input_placeholder (entry : string * value)
  : res (string * input_entry) :=
  let '(name, state) := entry in
  shape ← spec_shape_tail state;
  Ok (name, ITensor (Placeholder shape ("states/" ++ name))).

(** [{k: tf.keras.Input(shape=v.shape[1:], name=k)
     for k, v in states.items()}] *)
Definition state_placeholders (states : odict tensor) : odict tensor :=
  map (fun '(k, v) => (k, Placeholder (drop 1 (tensor_shape v)) k)) states.

(** The constructor. What Keras itself checks on the way (the tracking
    of the attributes set in lines 64-70, the graph and the keyword
    arguments that its base constructor receives) belongs to the
    framework and is taken to pass. *)
Definition __init__
    (backbone num_classes input_specs dropout_rate kernel_initializer
     kernel_regularizer bias_regularizer output_states : value)
    (kwargs : pydict) : M MovinetClassifier :=
  given ← truthy input_specs;
  input_specs ←
    (if given : bool then ret input_specs
     else alloc [("image", VSpec default_image_spec)]);
  specs ← items input_specs;
  inputs ← lift_res (map_res input_placeholder specs);
  let states := dict_get_or "states" (IStates []) inputs in
  image ← lookup_local "image" inputs;
  '(endpoints, states) ← call_backbone backbone image states;
  x ← lookup_local "head" endpoints;
  hf ← getattr backbone "_head_filters";
  ct ← getattr backbone "_conv_type";
  let args := mkHeadArgs hf num_classes dropout_rate kernel_initializer
                         kernel_regularizer ct in
  emit (EvClassifierHead args x) ;;
  let x := ClassifierOut args x in
  with_states ← truthy output_states;
  let inputs :=
    if with_states : bool
    then dict_set "states" (IStates (state_placeholders states)) inputs
    else inputs in
  with_states' ← truthy output_states;
  let outputs :=
    if with_states' : bool then OutWithStates x states else OutTensor x in
  ret (mkMovinetClassifier backbone num_classes input_specs dropout_rate
         kernel_initializer kernel_regularizer bias_regularizer
         output_states inputs outputs kwargs).

(** The [backbone] property. *)
Definition backbone (self : MovinetClassifier) : value := _backbone self.

(** The [checkpoint_items] property: [dict(backbone=self.backbone)]. *)
Definition checkpoint_items (self : MovinetClassifier) : M value :=
  alloc [("backbone", backbone self)].

Definition get_config (self : MovinetClassifier) : M value :=
  alloc [("backbone", _backbone self);
         ("num_classes", _num_classes self);
         ("input_specs", _input_specs self);
         ("dropout_rate", _dropout_rate self);
         ("kernel_initializer", _kernel_initializer self);
         ("kernel_regularizer", _kernel_regularizer self);
         ("bias_regularizer", _bias_regularizer self);
         ("output_states", _output_states self)].

(** One round of the loop of [from_config]:
    [if isinstance(config['input_specs'][name], dict):
       config['input_specs'][name] = tf.keras.layers.deserialize(
           config['input_specs'][name])]
    The right-hand side is evaluated before the target. *)
Definition deserialize_entry (config : value) (name : string) : M unit :=
  specs ← getitem config "input_specs";
  entry ← getitem specs name;
  is_dict ← isinstance_dict entry;
  if is_dict : bool then
    specs ← getitem config "input_specs";
    entry ← getitem specs name;
    d ← as_dict (TypeError "not a serialized object") entry;
    emit (EvDeserialize d) ;;
    spec ← lift_res (deserialize d);
    target ← getitem config "input_specs";
    setitem target name spec
  else ret tt.

(** One round of the loop when [config['input_specs']] is a tuple: the
    name is one of its elements, and [config['input_specs'][name]] is the
    tuple indexed by it; what it finds there is a dimension, no dict. *)
Definition index_entry (config : value) (dims : list dim) (name : dim)
  : M unit :=
  getitem config "input_specs" ;;
  lift_res (tuple_getitem dims name) ;;
  ret tt.

(** The part of [from_config] before the constructor is called. The loop
    goes through the keys of a dict and the elements of a tuple; the
    characters of a str are no indices of it, so that its first round
    raises. *)
Definition deserialize_input_specs (config : value) : M unit :=
  specs ← getitem config "input_specs";
  given ← truthy specs;
  if given : bool then
    match specs with
    | VShape dims => for_each dims (index_entry config dims)
    | VStr _ =>
        getitem config "input_specs" ;;
        raise (TypeError "string indices must be integers")
    | _ =>
        names ← iter_keys specs;
        for_each names (deserialize_entry config)
    end
  else ret tt.

Definition init_params : list string :=
  ["backbone"; "num_classes"; "input_specs"; "dropout_rate";
   "kernel_initializer"; "kernel_regularizer"; "bias_regularizer";
   "output_states"].

Definition required (k : string) (kw : pydict) : M value :=
  match dict_get k kw with
  | Some v => ret v
  | None => raise (TypeError "missing required positional argument")
  end.

(** The call of [cls] with [config] unpacked into keyword arguments: its
    entries are bound to the parameters of the constructor, with its
    defaults; the others are the extra keyword arguments. *)
Definition call_cls (config : value) : M MovinetClassifier :=
  kw ← as_dict (TypeError "argument after ** must be a mapping") config;
  backbone ← required "backbone" kw;
  num_classes ← required "num_classes" kw;
  __init__ backbone num_classes
    (dict_get_or "input_specs" VNone kw)
    (dict_get_or "dropout_rate" (VFloat (S754_zero false)) kw)
    (dict_get_or "kernel_initializer" (VStr "HeNormal") kw)
    (dict_get_or "kernel_regularizer" VNone kw)
    (dict_get_or "bias_regularizer" VNone kw)
    (dict_get_or "output_states" (VBool false) kw)
    (filter (fun kv => negb (existsb (String.eqb kv.1) init_params)) kw).

(** [custom_objects] is not used by the method and is left out. *)
Definition from_config (config : value) : M MovinetClassifier :=
  deserialize_input_specs config ;;
  call_cls config.

(** ** The builder *)

Definition build_movinet_model
    (input_specs : value) (model_config : cfg.MovinetModel)
    (num_classes : value) (l2_regularizer : value)
  : M MovinetClassifier :=
  emit (EvLogInfo "Building movinet model with num classes: %s"
                  num_classes) ;;
  match l2_regularizer with
  | VNone => ret tt
  | VObj _ | VSpec _ =>
      c ← lift_res (regularizer_get_config l2_regularizer);
      emit (EvLogInfo "Building movinet model with regularizer: %s" c)
  | _ => raise (AttributeError "get_config")
  end ;;
  input_specs_dict ← alloc [("image", input_specs)];
  emit (EvBuildBackbone input_specs (cfg.backbone model_config)
          (cfg.norm_activation model_config) l2_regularizer) ;;
  backbone ← lift_res
    (build_backbone input_specs (cfg.backbone model_config)
       (cfg.norm_activation model_config) l2_regularizer);
  __init__ backbone num_classes input_specs_dict
    (cfg.dropout_rate model_config) (VStr "HeNormal") l2_regularizer
    VNone (VBool false) [].

(** ** The model factory *)

Definition builder : Type :=
  value -> cfg.MovinetModel -> value -> value -> M MovinetClassifier.

(** Modelled from the spec: the registry of [factory_3d] belongs to the
    model factory, which this file imports; the spec describes it as an
    external mapping from string name to model-builder function, and
    registration as exposing the builder to the factory under its key. *)
Definition register_model_builder (key : string) (fn : builder)
    (registry : gmap string builder) : gmap string builder :=
  <[key := fn]> registry.

(** What importing the module does to the registry: the decorator
    [@model_factory.register_model_builder('movinet')] applied to
    [build_movinet_model]. *)
Definition import_module (registry : gmap string builder)
  : gmap string builder :=
  register_model_builder "movinet" build_movinet_model registry.

(** ** Notions for the properties *)

(** The store and the value of [input_specs] once the constructor has
    replaced a missing or empty mapping by its default. *)
Definition resolved_specs (h : gmap loc pydict) (input_specs : value)
    (given : bool) : value * gmap loc pydict :=
  if given then (input_specs, h)
  else (VRef (fresh (dom h)),
        <[fresh (dom h) := [("image", VSpec default_image_spec)]]> h).

(** A construction that returns: everything it computed on the way. *)
Inductive constructed
    (bb nc ispecs0 dr ki kr br os : value) (kw : pydict) (w : world)
  : MovinetClassifier → world → Prop :=
| Constructed given ispecs h1 specs inputs image o endpoints states feat
              hf ct ws :
    is_truthy (heap w) ispecs0 = Some given →
    resolved_specs (heap w) ispecs0 given = (ispecs, h1) →
    dict_of h1 ispecs = Some specs →
    map_res input_placeholder specs = Ok inputs →
    dict_get "image" inputs = Some image →
    bb = VObj o →
    backbone_call o image (dict_get_or "states" (IStates []) inputs)
      = Ok (endpoints, states) →
    dict_get "head" endpoints = Some feat →
    obj_attr o "_head_filters" = Some hf →
    obj_attr o "_conv_type" = Some ct →
    is_truthy h1 os = Some ws →
    constructed bb nc ispecs0 dr ki kr br os kw w
      (mkMovinetClassifier bb nc ispecs dr ki kr br os
         (if ws
          then dict_set "states" (IStates (state_placeholders states)) inputs
          else inputs)
         (if ws
          then OutWithStates
                 (ClassifierOut (mkHeadArgs hf nc dr ki kr ct) feat) states
          else OutTensor (ClassifierOut (mkHeadArgs hf nc dr ki kr ct) feat))
         kw)
      (mkWorld h1
         (trace w ++
          [EvBackboneCall bb image
             (dict_get_or "states" (IStates []) inputs);
           EvClassifierHead (mkHeadArgs hf nc dr ki kr ct) feat])).

Definition is_backbone_call (e : event) : bool :=
  match e with EvBackboneCall _ _ _ => true | _ => false end.

(** The classification tensor among the outputs of a model. *)
Definition classification (out : model_outputs) : tensor :=
  match out with
  | OutTensor x => x
  | OutWithStates x _ => x
  end.

(** Events only accumulate: what [m] leaves of the trace extends what it
    found. *)
Definition grows {A} (m : M A) : Prop :=
  ∀ w r w', m w = (r, w') → ∃ evs, trace w' = (trace w ++ evs)%list.

(** The construction got past [inputs['image']]: it has invoked the
    backbone on the placeholder [image], or has found that [bb] cannot
    be called. *)
Definition past_image_lookup (bb : value) (image : input_entry)
    (w : world) (out : res MovinetClassifier * world) : Prop :=
  (∃ states_in rest,
      trace out.2 =
        (trace w ++ EvBackboneCall bb image states_in :: rest)%list) ∨
  (out.1 = Raise (TypeError "object is not callable") ∧
   trace out.2 = trace w).

(** A config as a caller hands it to [from_config]: object [c] of the
    store, with entries [cfgd], whose [input_specs] entry is another
    object [s], with entries [specs] under distinct keys. *)
Definition config_at (h : gmap loc pydict) (c s : loc)
    (cfgd specs : pydict) : Prop :=
  h !! c = Some cfgd ∧
  dict_get "input_specs" cfgd = Some (VRef s) ∧
  h !! s = Some specs ∧
  c ≠ s ∧
  NoDup (dict_keys specs).

(** What the loop of [from_config] leaves under a name that held [v] in
    the store [h]: [v] itself unless it was a dict, and what the
    deserializer made of that dict otherwise (a mapping that is its own
    entry is left out). *)
Definition entry_after (h : gmap loc pydict) (s : loc) (v : value)
    (r : option value) : Prop :=
  match dict_of h v with
  | None => r = Some v
  | Some d => v ≠ VRef s → ∃ v', deserialize d = Ok v' ∧ r = Some v'
  end.

(** ** Notions for the further properties *)

(** An action that leaves the store as it found it, whatever its
    outcome. *)
Definition keeps_heap {A} (m : M A) : Prop :=
  ∀ w r w', m w = (r, w') → heap w' = heap w.

(** The placeholder the constructor builds under the name [name] for an
    entry whose [shape[1:]] is [tail]. *)
Definition named_placeholder (name : string) (tail : list dim)
  : input_entry :=
  ITensor (Placeholder tail ("states/" ++ name)).

(** [hasattr(v, 'shape')] *)
Definition has_shape (v : value) : bool :=
  match shape_attr v with Ok _ => true | Raise _ => false end.

(** An entry of [input_specs] after the loop of [from_config], in the
    store [h] the loop started from: a dict that the deserializer accepts
    is replaced by what it returns. *)
Definition deserialized_entry (h : gmap loc pydict) (kv : string * value)
  : string * value :=
  match dict_of h kv.2 with
  | Some d =>
      match deserialize d with
      | Ok v' => (kv.1, v')
      | Raise _ => kv
      end
  | None => kv
  end.

(** The calls of the deserializer that the loop makes on [specs]: one for
    each entry that is a dict, in the order of the entries. *)
Definition deserialize_events (h : gmap loc pydict) (specs : pydict)
  : list event :=
  flat_map (λ kv, match dict_of h kv.2 with
                  | Some d => [EvDeserialize d]
                  | None => []
                  end) specs.

(** Every entry of [specs] that is a dict is another object than the
    mapping [s] itself, and the deserializer accepts it. *)
Definition deserializable (h : gmap loc pydict) (s : loc) (specs : pydict)
  : Prop :=
  ∀ n v d, (n, v) ∈ specs → dict_of h v = Some d →
           v ≠ VRef s ∧ ∃ v', deserialize d = Ok v'.

(** A number, a bool, a str, a dict or a tuple: neither [None] nor an
    object of the framework. *)
Definition is_plain (v : value) : bool :=
  match v with
  | VBool _ | VInt _ | VFloat _ | VStr _ | VRef _ | VShape _ => true
  | VNone | VSpec _ | VObj _ => false
  end.

(** The defaults of the optional parameters of the constructor. *)
Definition init_default (k : string) : value :=
  if String.eqb k "dropout_rate" then VFloat (S754_zero false)
  else if String.eqb k "kernel_initializer" then VStr "HeNormal"
  else if String.eqb k "output_states" then VBool false
  else VNone.

(** What the builder logs about the regularizer: nothing for [None], the
    config of a framework object or of a spec otherwise; anything else
    has no [get_config]. *)
Definition regularizer_log (l2_regularizer : value) : res (list event) :=
  match l2_regularizer with
  | VNone => Ok []
  | VObj _ | VSpec _ =>
      c ← regularizer_get_config l2_regularizer;
      Ok [EvLogInfo "Building movinet model with regularizer: %s" c]
  | _ => Raise (AttributeError "get_config")
  end.

End Collaborators.

(** ** A concrete setting *)

(** One backbone object with a head endpoint and one stream state, an
    object that is no spec but has a [shape], another whose [shape] is
    [None], a deserializer that rebuilds serialized input specs, and a
    backbone factory that hands out that backbone. *)
Module Demo.

Definition the_backbone : objid := 1%positive.

Definition the_tensor_spec : objid := 5%positive.

Definition the_unshaped : objid := 6%positive.

Definition head_features : tensor :=
  Feature [None; Some 1; Some 1; Some 1; Some 480]%Z 1%positive.

Definition stream_state : tensor :=
  Feature [None; Some 2; Some 8; Some 8; Some 16]%Z 2%positive.

Definition backbone_call (o : objid) (image states : input_entry)
  : res (odict tensor * odict tensor) :=
  if Pos.eqb o the_backbone
  then Ok ([("head", head_features)], [("state_block0", stream_state)])
  else Raise (External 1%positive).

Definition obj_attr (o : objid) (a : string) : option value :=
  if Pos.eqb o the_backbone then
    if String.eqb a "_head_filters" then Some (VInt 2048)
    else if String.eqb a "_conv_type" then Some (VStr "3d")
    else None
  else if Pos.eqb o the_tensor_spec then
    if String.eqb a "shape"
    then Some (VShape [None; Some 16; Some 16; Some 3]%Z)
    else None
  else if Pos.eqb o the_unshaped then
    if String.eqb a "shape" then Some VNone else None
  else None.

Definition clip_spec : InputSpec :=
  mkInputSpec (Some "float32")
              (Some [Some 1; Some 8; Some 172; Some 172; Some 3]%Z)
              (Some 5%Z).

Definition deserialize (d : pydict) : res value :=
  match dict_get "class_name" d with
  | Some (VStr "InputSpec") => Ok (VSpec clip_spec)
  | _ => Raise (External 2%positive)
  end.

Definition build_backbone (input_specs backbone_config norm_activation
                           l2 : value) : res value :=
  Ok (VObj the_backbone).

Definition regularizer_get_config (v : value) : res value :=
  Ok (VStr "l2").

Definition empty_world : world := mkWorld ∅ [].

(** A config as [load_model] hands it over: the spec of [image] is still
    a plain dict. Objects 1, 2 and 3 of the store are the config, its
    [input_specs] and the serialized spec. *)
Definition saved_world : world :=
  mkWorld
    (<[1%positive :=
         [("backbone", VObj the_backbone); ("num_classes", VInt 600);
          ("input_specs", VRef 2%positive);
          ("output_states", VBool true)]]>
     (<[2%positive := [("image", VRef 3%positive)]]>
     (<[3%positive := [("class_name", VStr "InputSpec")]]> ∅)))
    [].

Definition state_spec : InputSpec :=
  mkInputSpec (Some "float32") (Some [Some 1; Some 2; Some 8]%Z) (Some 3%Z).

(** A store whose object 1 is an [input_specs] without the key [image]. *)
Definition clip_world : world :=
  mkWorld (<[1%positive := [("clip", VSpec clip_spec)]]> ∅) [].

(** A store whose object 1 is an [input_specs] with the key [image], next
    to a [states] spec. *)
Definition image_world : world :=
  mkWorld (<[1%positive := [("image", VSpec clip_spec);
                            ("states", VSpec state_spec)]]> ∅) [].

(** A store whose object 1 is [{'clip': InputSpec(ndim=5)}]: one spec,
    which gives a rank and no shape. *)
Definition rank_spec : InputSpec := mkInputSpec None None (Some 5%Z).

Definition rank_world : world :=
  mkWorld (<[1%positive := [("clip", VSpec rank_spec)]]> ∅) [].

(** The constructor on this backbone, with 600 classes and the defaults
    of the other parameters. *)
Definition construct (input_specs output_states : value) (w : world)
  : res MovinetClassifier * world :=
  __init__ backbone_call obj_attr (VObj the_backbone) (VInt 600)
    input_specs (VFloat (S754_zero false)) (VStr "HeNormal") VNone VNone
    output_states [] w.

Definition model_config : cfg.MovinetModel :=
  cfg.mkMovinetModel (VStr "movinet") (VStr "batch_norm")
                     (VFloat (S754_zero false)).

(** A store whose object 1 is an [input_specs] with the key [image] and,
    after it, a spec that gives no shape. *)
Definition mixed_world : world :=
  mkWorld (<[1%positive := [("image", VSpec clip_spec);
                            ("clip", VSpec rank_spec)]]> ∅) [].

(** A saved config whose second spec, [clip], is a dict that the
    deserializer does not know (object 4). *)
Definition broken_world : world :=
  mkWorld
    (<[1%positive :=
         [("backbone", VObj the_backbone); ("num_classes", VInt 600);
          ("input_specs", VRef 2%positive)]]>
     (<[2%positive := [("image", VRef 3%positive);
                       ("clip", VRef 4%positive)]]>
     (<[3%positive := [("class_name", VStr "InputSpec")]]>
     (<[4%positive := [("class_name", VStr "Dense")]]> ∅))))
    [].

(** Configs without the key [input_specs], with [None] under it, and
    without the arguments that the constructor requires. *)
Definition bare_world : world :=
  mkWorld
    (<[1%positive :=
         [("backbone", VObj the_backbone); ("num_classes", VInt 600)]]> ∅)
    [].

Definition none_world : world :=
  mkWorld
    (<[1%positive :=
         [("backbone", VObj the_backbone); ("num_classes", VInt 600);
          ("input_specs", VNone)]]> ∅)
    [].

Definition specs_only_world : world :=
  mkWorld
    (<[1%positive := [("input_specs", VRef 2%positive)]]>
     (<[2%positive := [("image", VRef 3%positive)]]>
     (<[3%positive := [("class_name", VStr "InputSpec")]]> ∅)))
    [].

(** A config whose [input_specs] holds a spec object under [image] and,
    after it, a serialized spec under [clip]; and the same [input_specs]
    in a config without the arguments that the constructor requires. *)
Definition partly_saved_world : world :=
  mkWorld
    (<[1%positive :=
         [("backbone", VObj the_backbone); ("num_classes", VInt 600);
          ("input_specs", VRef 2%positive)]]>
     (<[2%positive := [("image", VSpec clip_spec);
                       ("clip", VRef 3%positive)]]>
     (<[3%positive := [("class_name", VStr "InputSpec")]]> ∅)))
    [].

Definition partly_saved_specs_world : world :=
  mkWorld
    (<[1%positive := [("input_specs", VRef 2%positive)]]>
     (<[2%positive := [("image", VSpec clip_spec);
                       ("clip", VRef 3%positive)]]>
     (<[3%positive := [("class_name", VStr "InputSpec")]]> ∅)))
    [].

(** Stores whose object 1 is an [input_specs] with the key [image] and,
    after it, an entry that is no spec: a str, which has no [shape], an
    object that has one, and an object whose [shape] is [None]. *)
Definition plain_world : world :=
  mkWorld (<[1%positive := [("image", VSpec clip_spec);
                            ("clip", VStr "video")]]> ∅) [].

Definition duck_world : world :=
  mkWorld (<[1%positive := [("image", VSpec clip_spec);
                            ("clip", VObj the_tensor_spec)]]> ∅) [].

Definition unshaped_world : world :=
  mkWorld (<[1%positive := [("image", VSpec clip_spec);
                            ("clip", VObj the_unshaped)]]> ∅) [].

End Demo.

(** Collaborators that fail: backbone 1 raises, backbone 2 returns no
    [head] endpoint, backbone 3 returns one but, like the others, has no
    attributes; the backbone factory raises, and so does the [get_config]
    of every regularizer. *)
Module Faulty.

Definition backbone_call (o : objid) (image states : input_entry)
  : res (odict tensor * odict tensor) :=
  if Pos.eqb o 1 then Raise (External 7%positive)
  else if Pos.eqb o 2 then Ok ([("block0", Demo.head_features)], [])
  else Ok ([("head", Demo.head_features)], []).

Definition obj_attr (o : objid) (a : string) : option value := None.

Definition build_backbone (input_specs backbone_config norm_activation
                           l2 : value) : res value :=
  Raise (External 9%positive).

Definition regularizer_get_config (v : value) : res value :=
  Raise (External 8%positive).

Definition construct (o : objid) : res MovinetClassifier * world :=
  __init__ backbone_call obj_attr (VObj o) (VInt 600) (VRef 1%positive)
    (VFloat (S754_zero false)) (VStr "HeNormal") VNone VNone (VBool false)
    [] Demo.image_world.

End Faulty.

(** * Properties *)

(** ** Dicts *)

Lemma dict_get_set_eq {A} (k : string) (v : A) (d : odict A) :
  dict_get k (dict_set k v d) = Some v.
Proof.
  induction d as [|[k' v'] d IH]; simpl.
  - by rewrite String.eqb_refl.
  - destruct (String.eqb k k') eqn:E; simpl; rewrite E; [done | exact IH].
Qed.

Lemma dict_get_set_ne {A} (k k' : string) (v : A) (d : odict A) :
  k ≠ k' → dict_get k' (dict_set k v d) = dict_get k' d.
Proof.
  intros Hne. induction d as [|[k0 v0] d IH]; simpl.
  - destruct (String.eqb k' k) eqn:E; [|done].
    apply String.eqb_eq in E. congruence.
  - destruct (String.eqb k k0) eqn:E; simpl.
    + apply String.eqb_eq in E. subst k0.
      destruct (String.eqb k' k) eqn:E'; [|done].
      apply String.eqb_eq in E'. congruence.
    + by rewrite IH.
Qed.

Lemma dict_keys_set {A} (k : string) (v : A) (d : odict A) :
  is_Some (dict_get k d) → dict_keys (dict_set k v d) = dict_keys d.
Proof.
  unfold dict_keys. induction d as [|[k0 v0] d IH]; simpl.
  - intros [? ?]. discriminate.
  - destruct (String.eqb k k0) eqn:E; simpl; [done|].
    intros H. by rewrite IH.
Qed.

Lemma dict_get_Some_keys {A} (k : string) (d : odict A) (v : A) :
  dict_get k d = Some v → k ∈ dict_keys d.
Proof.
  unfold dict_keys. induction d as [|[k0 v0] d IH]; simpl; [done|].
  destruct (String.eqb k k0) eqn:E.
  - apply String.eqb_eq in E. subst. intros _. apply list_elem_of_here.
  - intros H. apply list_elem_of_further. auto.
Qed.

Lemma dict_get_Some_elem {A} (k : string) (d : odict A) (v : A) :
  dict_get k d = Some v → (k, v) ∈ d.
Proof.
  induction d as [|[k0 v0] d IH]; simpl; [done|].
  destruct (String.eqb k k0) eqn:E.
  - apply String.eqb_eq in E. subst. intros [= ->]. apply list_elem_of_here.
  - intros H. apply list_elem_of_further. auto.
Qed.

Lemma dict_keys_get {A} (k : string) (d : odict A) :
  k ∈ dict_keys d → is_Some (dict_get k d).
Proof.
  unfold dict_keys. induction d as [|[k0 v0] d IH]; simpl.
  - intros H. by apply elem_of_nil in H.
  - destruct (String.eqb k k0) eqn:E; [eauto|].
    intros H. apply elem_of_cons in H as [->|H]; [|auto].
    by rewrite String.eqb_refl in E.
Qed.

(** ** Running monadic code *)

Lemma bind_Ok_inv {A B} (m : M A) (k : A → M B) w b w' :
  (m ≫= k) w = (Ok b, w') →
  ∃ a w1, m w = (Ok a, w1) ∧ k a w1 = (Ok b, w').
Proof.
  unfold mbind, M_bind, bind. destruct (m w) as [[a|e] w1]; [eauto|done].
Qed.

Lemma bind_run {A B} (m : M A) (k : A → M B) w a w1 :
  m w = (Ok a, w1) → (m ≫= k) w = k a w1.
Proof. unfold mbind, M_bind, bind. by intros ->. Qed.

Lemma bind_raise {A B} (m : M A) (k : A → M B) w e w1 :
  m w = (Raise e, w1) → (m ≫= k) w = (Raise e, w1).
Proof. unfold mbind, M_bind, bind. by intros ->. Qed.

Ltac unfold_m :=
  unfold mbind, M_bind, bind, mret, M_ret, ret, raise, read_heap, lift_res,
    emit, alloc, store in *.

(** One step forward through a bind whose first action is run by [tac]. *)
Tactic Notation "run_step" "by" tactic3(tac) :=
  erewrite bind_run; [|tac; reflexivity]; cbv beta iota.

Lemma truthy_run v w :
  truthy v w =
  (match is_truthy (heap w) v with
   | Some b => Ok b
   | None => Raise (TypeError "reference to no object")
   end, w).
Proof. unfold truthy. unfold_m. by destruct (is_truthy (heap w) v). Qed.

Lemma as_dict_run err v w :
  as_dict err v w =
  (match dict_of (heap w) v with Some d => Ok d | None => Raise err end, w).
Proof. unfold as_dict. unfold_m. by destruct (dict_of (heap w) v). Qed.

Lemma getitem_run v k w :
  getitem v k w =
  (match dict_of (heap w) v with
   | Some d => match dict_get k d with
               | Some x => Ok x
               | None => Raise (KeyError k)
               end
   | None => Raise (TypeError "object is not subscriptable")
   end, w).
Proof.
  unfold getitem, as_dict. unfold_m.
  destruct (dict_of (heap w) v) as [d|]; [|done].
  by destruct (dict_get k d).
Qed.

Lemma lookup_local_run {A} k (d : odict A) w :
  lookup_local k d w =
  (match dict_get k d with Some x => Ok x | None => Raise (KeyError k) end, w).
Proof. unfold lookup_local. by destruct (dict_get k d). Qed.

Lemma is_truthy_insert_fresh h l d v b :
  h !! l = None → is_truthy h v = Some b → is_truthy (<[l := d]> h) v = Some b.
Proof.
  intros Hl. destruct v as [| | | | | |l0| |]; simpl; try done.
  destruct (decide (l = l0)) as [->|Hne].
  - by rewrite Hl.
  - by rewrite lookup_insert_ne.
Qed.

Lemma fresh_heap_None (h : gmap loc pydict) : h !! fresh (dom h) = None.
Proof. apply not_elem_of_dom. apply is_fresh. Qed.

Lemma ret_Ok {A} (a b : A) w w' : ret a w = (Ok b, w') → b = a ∧ w' = w.
Proof. unfold_m. by intros [= -> ->]. Qed.

Lemma lift_res_Ok {A} (r : res A) a w w' :
  lift_res r w = (Ok a, w') → r = Ok a ∧ w' = w.
Proof. unfold_m. by intros [= -> ->]. Qed.

Lemma truthy_Ok v b w w' :
  truthy v w = (Ok b, w') → is_truthy (heap w) v = Some b ∧ w' = w.
Proof.
  rewrite truthy_run. destruct (is_truthy (heap w) v); [|done].
  by intros [= -> ->].
Qed.

Lemma as_dict_Ok err v d w w' :
  as_dict err v w = (Ok d, w') → dict_of (heap w) v = Some d ∧ w' = w.
Proof.
  rewrite as_dict_run. destruct (dict_of (heap w) v); [|done].
  by intros [= -> ->].
Qed.

Lemma getitem_Ok v k x w w' :
  getitem v k w = (Ok x, w') →
  (∃ d, dict_of (heap w) v = Some d ∧ dict_get k d = Some x) ∧ w' = w.
Proof.
  rewrite getitem_run. destruct (dict_of (heap w) v) as [d|]; [|done].
  destruct (dict_get k d) eqn:E; [|done]. intros [= -> ->]. eauto.
Qed.

Lemma lookup_local_Ok {A} k (d : odict A) x w w' :
  lookup_local k d w = (Ok x, w') → dict_get k d = Some x ∧ w' = w.
Proof.
  rewrite lookup_local_run. destruct (dict_get k d); [|done].
  by intros [= -> ->].
Qed.

Lemma emit_run e w : emit e w = (Ok tt, mkWorld (heap w) (trace w ++ [e])).
Proof. done. Qed.

Lemma alloc_run d w :
  alloc d w =
  (Ok (VRef (fresh (dom (heap w)))),
   mkWorld (<[fresh (dom (heap w)) := d]> (heap w)) (trace w)).
Proof. done. Qed.

Section Properties.

Variable backbone_call :
  objid → input_entry → input_entry → res (odict tensor * odict tensor).
Variable obj_attr : objid → string → option value.
Variable deserialize : pydict → res value.
Variable build_backbone : value → value → value → value → res value.
Variable regularizer_get_config : value → res value.

Local Abbreviation init := (__init__ backbone_call obj_attr).
Local Abbreviation constructed := (constructed backbone_call obj_attr).
Local Abbreviation entry_after := (entry_after deserialize).
Local Abbreviation from_cfg := (from_config backbone_call obj_attr deserialize).
Local Abbreviation build :=
  (build_movinet_model backbone_call obj_attr build_backbone
     regularizer_get_config).
Local Abbreviation shape_attr := (shape_attr obj_attr).
Local Abbreviation spec_shape_tail := (spec_shape_tail obj_attr).
Local Abbreviation input_placeholder := (input_placeholder obj_attr).
Local Abbreviation has_shape := (has_shape obj_attr).

(** On an input spec, [state.shape[1:]] is the rest of its shape; a spec
    without a shape cannot be sliced. *)
Lemma spec_shape_tail_spec sp :
  spec_shape_tail (VSpec sp) =
  match spec_shape sp with
  | Some s => Ok (drop 1 s)
  | None => Raise (TypeError "'NoneType' object is not subscriptable")
  end.
Proof. unfold spec_shape_tail. simpl. by destruct (spec_shape sp). Qed.

(** The placeholder of a key is the one built from the spec of that key. *)
Lemma placeholders_get specs inputs k :
  map_res input_placeholder specs = Ok inputs →
  dict_get k inputs =
  match dict_get k specs with
  | Some state =>
      match spec_shape_tail state with
      | Ok shape => Some (ITensor (Placeholder shape ("states/" ++ k)))
      | Raise _ => None
      end
  | None => None
  end.
Proof.
  revert inputs. induction specs as [|[k0 v0] specs IH]; simpl; intros inputs.
  - by intros [= <-].
  - destruct (spec_shape_tail v0) as [shape|e] eqn:Es; simpl; [|done].
    destruct (map_res input_placeholder specs) as [ys|e]; simpl; [|done].
    intros [= <-]. simpl.
    destruct (String.eqb k k0) eqn:E.
    + apply String.eqb_eq in E. subst k0. by rewrite Es.
    + by apply IH.
Qed.

Lemma placeholders_entry specs inputs k v :
  map_res input_placeholder specs = Ok inputs →
  dict_get k specs = Some v →
  ∃ shape, spec_shape_tail v = Ok shape.
Proof.
  revert inputs. induction specs as [|[k0 v0] specs IH]; simpl; [done|].
  intros inputs.
  destruct (spec_shape_tail v0) as [shape|e] eqn:Es; simpl; [|done].
  destruct (map_res input_placeholder specs) as [ys|e]; simpl; [|done].
  intros _. destruct (String.eqb k k0).
  - intros [= <-]. eauto.
  - eauto.
Qed.

Lemma placeholders_shape_specs specs :
  shape_specs specs = true →
  ∃ inputs, map_res input_placeholder specs = Ok inputs.
Proof.
  induction specs as [|[k v] specs IH]; simpl; [eauto|].
  rewrite andb_true_iff. intros [Hv Hs]. destruct (IH Hs) as [inputs ->].
  destruct v as [| | | | |sp| | |]; try done.
  simpl in *. rewrite spec_shape_tail_spec.
  destruct (spec_shape sp); [|done]. simpl. eauto.
Qed.


Lemma getattr_Ok v a x w w' :
  getattr obj_attr v a w = (Ok x, w') →
  (∃ o, v = VObj o ∧ obj_attr o a = Some x) ∧ w' = w.
Proof.
  unfold getattr. destruct v as [| | | | | | |o|]; try done.
  destruct (obj_attr o a) eqn:E; [|done]. unfold_m.
  intros [= -> ->]. eauto.
Qed.

Lemma call_backbone_Ok bb image states r w w' :
  call_backbone backbone_call bb image states w = (Ok r, w') →
  (∃ o, bb = VObj o ∧ backbone_call o image states = Ok r) ∧
  w' = mkWorld (heap w) (trace w ++ [EvBackboneCall bb image states]).
Proof.
  unfold call_backbone. destruct bb as [| | | | | | |o|]; try done.
  intros H. apply bind_Ok_inv in H as ([] & w1 & H1 & H).
  rewrite emit_run in H1. injection H1 as <-.
  apply lift_res_Ok in H as [H ->]. eauto.
Qed.

Lemma init_Ok_iff bb nc ispecs0 dr ki kr br os kw w m w' :
  init bb nc ispecs0 dr ki kr br os kw w = (Ok m, w') ↔
  constructed bb nc ispecs0 dr ki kr br os kw w m w'.
Proof.
  unfold __init__. split.
  - intros H.
    apply bind_Ok_inv in H as (given & w1 & Hg & H).
    apply truthy_Ok in Hg as [Hg ->].
    apply bind_Ok_inv in H as (ispecs & w1 & Hr & H).
    assert (resolved_specs (heap w) ispecs0 given = (ispecs, heap w1)
            ∧ trace w1 = trace w) as [Hr' Ht].
    { destruct given.
      - apply ret_Ok in Hr as [-> ->]. done.
      - rewrite alloc_run in Hr. by injection Hr as <- <-. }
    clear Hr.
    apply bind_Ok_inv in H as (specs & w2 & Hs & H).
    apply as_dict_Ok in Hs as [Hs ->].
    apply bind_Ok_inv in H as (inputs & w2 & Hi & H).
    apply lift_res_Ok in Hi as [Hi ->].
    apply bind_Ok_inv in H as (image & w2 & Him & H).
    apply lookup_local_Ok in Him as [Him ->].
    apply bind_Ok_inv in H as ([endpoints states] & w2 & Hb & H).
    apply call_backbone_Ok in Hb as [(o & -> & Hb) ->].
    apply bind_Ok_inv in H as (feat & w2 & Hh & H).
    apply lookup_local_Ok in Hh as [Hh ->].
    apply bind_Ok_inv in H as (hf & w2 & Hhf & H).
    apply getattr_Ok in Hhf as [(o1 & [= <-] & Hhf) ->].
    apply bind_Ok_inv in H as (ct & w2 & Hct & H).
    apply getattr_Ok in Hct as [(o1 & [= <-] & Hct) ->].
    apply bind_Ok_inv in H as ([] & w2 & He & H).
    rewrite emit_run in He. injection He as <-.
    apply bind_Ok_inv in H as (ws & w2 & Hws & H).
    apply truthy_Ok in Hws as [Hws ->].
    apply bind_Ok_inv in H as (ws' & w2 & Hws' & H).
    apply truthy_Ok in Hws' as [Hws' ->].
    apply ret_Ok in H as [-> ->]. simpl in *.
    rewrite Hws in Hws'. injection Hws' as <-.
    rewrite Ht, <- (assoc_L (++)). simpl.
    by eapply Constructed.
  - intros [given ispecs h1 specs inputs image o endpoints states feat hf ct
              ws Hg Hr Hs Hi Him -> Hb Hh Hhf Hct Hws].
    run_step by (rewrite truthy_run, Hg).
    erewrite bind_run with (w1 := mkWorld h1 (trace w)).
    2:{ destruct given; simpl in Hr; injection Hr as <- <-; [|done].
        by destruct w. }
    run_step by (unfold items; rewrite as_dict_run; simpl; rewrite Hs).
    run_step by (unfold lift_res; rewrite Hi).
    run_step by (rewrite lookup_local_run, Him).
    run_step by (unfold call_backbone; erewrite bind_run by apply emit_run;
                   unfold lift_res; rewrite Hb).
    run_step by (rewrite lookup_local_run, Hh).
    run_step by (unfold getattr; rewrite Hhf).
    run_step by (unfold getattr; rewrite Hct).
    run_step by (rewrite emit_run).
    run_step by (rewrite truthy_run; simpl; rewrite Hws).
    run_step by (rewrite truthy_run; simpl; rewrite Hws).
    simpl. rewrite <- (assoc_L (++)). done.
Qed.


(** ** Properties of a construction *)

(** C2: the outputs follow the [output_states] flag: with [True] they are
    the pair of the classification tensor and the states mapping that
    the backbone call returned, with [False] the classification tensor
    alone. *)
Theorem output_states_contract bb nc ispecs dr ki kr br os kw w m w' :
  init bb nc ispecs dr ki kr br os kw w = (Ok m, w') →
  ∃ o image states_in endpoints states args feat,
    bb = VObj o ∧
    EvBackboneCall bb image states_in ∈ trace w' ∧
    backbone_call o image states_in = Ok (endpoints, states) ∧
    dict_get "head" endpoints = Some feat ∧
    (os = VBool true →
     keras_outputs m = OutWithStates (ClassifierOut args feat) states) ∧
    (os = VBool false →
     keras_outputs m = OutTensor (ClassifierOut args feat)).
Proof.
  intros H. apply init_Ok_iff in H.
  destruct H as [given ispecs' h1 specs inputs image o endpoints states
                   feat hf ct ws Hg Hr Hs Hi Him -> Hb Hh Hhf Hct Hws].
  exists o, image, (dict_get_or "states" (IStates []) inputs), endpoints,
    states, (mkHeadArgs hf nc dr ki kr ct), feat.
  simpl. repeat split; try done.
  - rewrite elem_of_app. right. apply list_elem_of_here.
  - intros ->. simpl in Hws. by injection Hws as <-.
  - intros ->. simpl in Hws. by injection Hws as <-.
Qed.

(** C3: a construction that returns has called the backbone exactly once,
    on the [image] placeholder and the carried-over states (the [states]
    placeholder when [input_specs] has that key, an empty mapping
    otherwise), and has applied the classification head to the [head]
    endpoint that the call returned. *)
Theorem backbone_invoked_once bb nc ispecs dr ki kr br os kw w m w' :
  init bb nc ispecs dr ki kr br os kw w = (Ok m, w') →
  ∃ o specs inputs image states_in endpoints states args feat,
    bb = VObj o ∧
    dict_of (heap w') (_input_specs m) = Some specs ∧
    map_res input_placeholder specs = Ok inputs ∧
    dict_get "image" inputs = Some image ∧
    (dict_get "states" specs = None → states_in = IStates []) ∧
    (is_Some (dict_get "states" specs) →
     dict_get "states" inputs = Some states_in) ∧
    backbone_call o image states_in = Ok (endpoints, states) ∧
    dict_get "head" endpoints = Some feat ∧
    classification (keras_outputs m) = ClassifierOut args feat ∧
    trace w' = (trace w ++ [EvBackboneCall bb image states_in;
                            EvClassifierHead args feat])%list ∧
    length (filter (λ e, is_backbone_call e = true)
                   (drop (length (trace w)) (trace w'))) = 1.
Proof.
  intros H. apply init_Ok_iff in H.
  destruct H as [given ispecs' h1 specs inputs image o endpoints states
                   feat hf ct ws Hg Hr Hs Hi Him -> Hb Hh Hhf Hct Hws].
  exists o, specs, inputs, image,
    (dict_get_or "states" (IStates []) inputs), endpoints, states,
    (mkHeadArgs hf nc dr ki kr ct), feat.
  simpl. repeat split; try done.
  - intros Hn. unfold dict_get_or.
    by rewrite (placeholders_get _ _ "states" Hi), Hn.
  - intros [v Hv]. unfold dict_get_or.
    destruct (dict_get "states" inputs) eqn:E; [done|].
    rewrite (placeholders_get _ _ "states" Hi), Hv in E.
    destruct (placeholders_entry _ _ _ _ Hi Hv) as [shape Hsh].
    by rewrite Hsh in E.
  - by destruct ws.
  - by rewrite drop_app_length.
Qed.

(** C6: the classification tensor of a constructed model has shape
    [(num_classes,)] per input example, the head having been built with
    the [num_classes] of the constructor. *)
Theorem output_shape bb (n : Z) ispecs dr ki kr br os kw w m w' :
  init bb (VInt n) ispecs dr ki kr br os kw w = (Ok m, w') →
  ∃ args feat,
    classification (keras_outputs m) = ClassifierOut args feat ∧
    head_num_classes args = VInt n ∧
    drop 1 (tensor_shape (classification (keras_outputs m))) = [Some n].
Proof.
  intros H. apply init_Ok_iff in H.
  destruct H as [given ispecs' h1 specs inputs image o endpoints states
                   feat hf ct ws Hg Hr Hs Hi Him -> Hb Hh Hhf Hct Hws].
  exists (mkHeadArgs hf (VInt n) dr ki kr ct), feat.
  by destruct ws.
Qed.

(** C8: [checkpoint_items] is a new mapping with the single entry
    [backbone], bound to the backbone the model was constructed with,
    which is also what the [backbone] property gives. *)
Theorem checkpoint_items_backbone bb nc ispecs dr ki kr br os kw w m w' :
  init bb nc ispecs dr ki kr br os kw w = (Ok m, w') →
  backbone m = bb ∧
  ∀ w2, ∃ l,
    checkpoint_items m w2 =
      (Ok (VRef l),
       mkWorld (<[l := [("backbone", bb)]]> (heap w2)) (trace w2)) ∧
    heap w2 !! l = None.
Proof.
  intros H. apply init_Ok_iff in H.
  destruct H as [given ispecs' h1 specs inputs image o endpoints states
                   feat hf ct ws Hg Hr Hs Hi Him -> Hb Hh Hhf Hct Hws].
  split; [done|]. intros w2. exists (fresh (dom (heap w2))).
  split; [done|]. apply fresh_heap_None.
Qed.

(** ** Events only accumulate *)

Lemma grows_pure {A} (m : M A) :
  (∀ w, ∃ r, m w = (r, w)) → grows m.
Proof.
  intros Hm w r w' H. destruct (Hm w) as [r0 Hr]. rewrite Hr in H.
  injection H as _ <-. exists []. by rewrite app_nil_r.
Qed.

Lemma grows_bind {A B} (m : M A) (k : A → M B) :
  grows m → (∀ a, grows (k a)) → grows (m ≫= k).
Proof.
  intros Hm Hk w r w'. unfold mbind, M_bind, bind.
  destruct (m w) as [[a|e] w1] eqn:E.
  - intros H. destruct (Hm _ _ _ E) as [evs1 H1].
    destruct (Hk _ _ _ _ H) as [evs2 H2].
    exists (evs1 ++ evs2)%list. by rewrite H2, H1, (assoc_L (++)).
  - intros [= <- <-]. eauto.
Qed.

Lemma grows_ret {A} (a : A) : grows (ret a).
Proof. apply grows_pure. intros w. by eexists. Qed.

Lemma grows_raise {A} e : grows (@raise A e).
Proof. apply grows_pure. intros w. by eexists. Qed.

Lemma grows_lift_res {A} (r : res A) : grows (lift_res r).
Proof. apply grows_pure. intros w. by eexists. Qed.

Lemma grows_truthy v : grows (truthy v).
Proof. apply grows_pure. intros w. rewrite truthy_run. by eexists. Qed.

Lemma grows_lookup_local {A} k (d : odict A) : grows (lookup_local k d).
Proof. apply grows_pure. intros w. rewrite lookup_local_run. by eexists. Qed.

Lemma grows_getattr v a : grows (getattr obj_attr v a).
Proof.
  apply grows_pure. intros w. unfold getattr.
  destruct v; try by eexists. destruct (obj_attr o a); by eexists.
Qed.

Lemma grows_emit e : grows (emit e).
Proof. intros w r w'. rewrite emit_run. intros [= <- <-]. simpl. eauto. Qed.

Create HintDb grows.

#[local] Hint Resolve grows_ret grows_raise grows_lift_res grows_truthy
  grows_lookup_local grows_getattr grows_emit : grows.

Ltac grows_tac :=
  repeat first
    [ apply grows_bind; [solve [auto with grows]|intros ?]
    | match goal with
      | |- grows (let '(_, _) := ?p in _) => destruct p
      | |- grows (match ?p with (_, _) => _ end) => destruct p
      end ];
  auto with grows.

(** ** The [image] key *)

Lemma call_backbone_then {B} o image states (k : _ → M B) w r w' :
  (∀ a, grows (k a)) →
  (call_backbone backbone_call (VObj o) image states ≫= k) w = (r, w') →
  ∃ rest,
    trace w' =
      (trace w ++ EvBackboneCall (VObj o) image states :: rest)%list.
Proof.
  intros Hk. unfold call_backbone, mbind, M_bind, bind, emit, lift_res.
  destruct (backbone_call o image states) as [a|e].
  - intros H. destruct (Hk _ _ _ _ H) as [evs Hevs]. simpl in Hevs.
    exists evs. by rewrite Hevs, <- (assoc_L (++)).
  - intros [= <- <-]. by exists [].
Qed.

Lemma init_past_lookup bb nc ispecs dr ki kr br os kw w given ispecs' h1
      specs inputs image :
  is_truthy (heap w) ispecs = Some given →
  resolved_specs (heap w) ispecs given = (ispecs', h1) →
  dict_of h1 ispecs' = Some specs →
  map_res input_placeholder specs = Ok inputs →
  dict_get "image" inputs = Some image →
  past_image_lookup bb image w (init bb nc ispecs dr ki kr br os kw w).
Proof.
  intros Hg Hr Hs Hi Him. unfold __init__.
  run_step by (rewrite truthy_run, Hg).
  erewrite bind_run with (w1 := mkWorld h1 (trace w)).
  2:{ destruct given; simpl in Hr; injection Hr as <- <-; [|done].
      by destruct w. }
  run_step by (unfold items; rewrite as_dict_run; simpl; rewrite Hs).
  run_step by (unfold lift_res; rewrite Hi).
  run_step by (rewrite lookup_local_run, Him).
  destruct bb as [| | | | | | |o|];
    try (right; split; reflexivity).
  left. eexists.
  match goal with
  | |- context [(?m ≫= ?k) ?w0] =>
      destruct ((m ≫= k) w0) as [r w'] eqn:E
  end.
  eapply call_backbone_then in E; [exact E|].
  intros [endpoints states]. grows_tac.
Qed.

(** The first entry whose [state.shape[1:]] fails stops the building of
    the placeholders, and with it the constructor, which has done
    nothing yet. *)
Lemma placeholders_first_error pre ins n v post e :
  map_res input_placeholder pre = Ok ins →
  spec_shape_tail v = Raise e →
  map_res input_placeholder (pre ++ (n, v) :: post) = Raise e.
Proof.
  revert ins. induction pre as [|[k0 v0] pre IH]; intros ins Hpre Hv.
  - simpl. by rewrite Hv.
  - simpl in *.
    destruct (spec_shape_tail v0) as [sh|e0]; [|done]. simpl in *.
    destruct (map_res input_placeholder pre) as [ys|e1] eqn:E; [|done].
    by rewrite (IH ys).
Qed.

Lemma init_bad_entry bb nc s pre ins n v post e dr ki kr br os kw w :
  heap w !! s = Some (pre ++ (n, v) :: post)%list →
  map_res input_placeholder pre = Ok ins →
  spec_shape_tail v = Raise e →
  init bb nc (VRef s) dr ki kr br os kw w = (Raise e, w).
Proof.
  intros Hs Hpre Hv. unfold __init__.
  assert (is_truthy (heap w) (VRef s) = Some true) as Ht.
  { simpl. rewrite Hs. by destruct pre. }
  run_step by (rewrite truthy_run, Ht).
  run_step by (unfold ret).
  run_step by (unfold items; rewrite as_dict_run; simpl; rewrite Hs).
  erewrite bind_raise; [by destruct w|].
  unfold lift_res. by rewrite (placeholders_first_error _ _ _ _ _ _ Hpre Hv).
Qed.

Lemma shape_specs_entry specs k v :
  shape_specs specs = true → dict_get k specs = Some v →
  ∃ sp shape, v = VSpec sp ∧ spec_shape sp = Some shape.
Proof.
  intros Hs Hv. apply dict_get_Some_elem in Hv.
  unfold shape_specs in Hs. rewrite forallb_forall in Hs.
  apply list_elem_of_In, Hs in Hv. simpl in Hv.
  destruct v as [| | | | |sp| | |]; simpl in Hv; try done.
  destruct (spec_shape sp) as [shape|] eqn:E; [by exists sp, shape|done].
Qed.

(** C10: the constructor needs the key [image] in a non-empty
    [input_specs]. For a non-empty mapping of shape specs without that
    key it raises [KeyError('image')] where the placeholder is fetched,
    the backbone not having been invoked (no event at all is emitted);
    when [input_specs] is missing or empty, or is a mapping of shape
    specs with the key, the construction gets past that lookup. A
    mapping whose first entry that is no shape spec is a spec without a
    shape makes the constructor raise a [TypeError] before that lookup,
    where the placeholders are built, with or without the key. *)
Theorem image_key_precondition bb nc ispecs dr ki kr br os kw w :
  (∀ s specs,
      ispecs = VRef s → heap w !! s = Some specs → specs ≠ [] →
      shape_specs specs = true → dict_get "image" specs = None →
      init bb nc ispecs dr ki kr br os kw w
        = (Raise (KeyError "image"), w)) ∧
  (is_truthy (heap w) ispecs = Some false →
   past_image_lookup bb
     (ITensor (Placeholder [None; None; None; Some 3%Z] "states/image"))
     w (init bb nc ispecs dr ki kr br os kw w)) ∧
  (∀ s specs,
      ispecs = VRef s → heap w !! s = Some specs →
      shape_specs specs = true → is_Some (dict_get "image" specs) →
      ∃ shape,
        past_image_lookup bb
          (ITensor (Placeholder shape "states/image"))
          w (init bb nc ispecs dr ki kr br os kw w)) ∧
  (∀ s pre n sp post,
      ispecs = VRef s →
      heap w !! s = Some (pre ++ (n, VSpec sp) :: post)%list →
      shape_specs pre = true → spec_shape sp = None →
      init bb nc ispecs dr ki kr br os kw w
        = (Raise (TypeError "'NoneType' object is not subscriptable"), w)).
Proof.
  split; [|split; [|split]].
  4:{ intros s pre n sp post -> Hs Hpre Hsp.
      apply placeholders_shape_specs in Hpre as [ins Hpre].
      eapply init_bad_entry; [done..|].
      by rewrite spec_shape_tail_spec, Hsp. }
  - intros s specs -> Hs Hne Hsh Him.
    apply placeholders_shape_specs in Hsh as [inputs Hi].
    unfold __init__.
    run_step by (rewrite truthy_run; simpl; rewrite Hs).
    destruct specs as [|kv specs]; [done|].
    run_step by (unfold ret).
    run_step by (unfold items; rewrite as_dict_run; simpl; rewrite Hs).
    run_step by (unfold lift_res; rewrite Hi).
    erewrite bind_raise; [by destruct w|].
    rewrite lookup_local_run, (placeholders_get _ _ "image" Hi), Him.
    done.
  - intros Hg.
    eapply (init_past_lookup _ _ _ _ _ _ _ _ _ _ false); try done.
    + simpl. by rewrite lookup_insert_eq.
    + done.
    + done.
  - intros s specs -> Hs Hsh [v Hv].
    destruct (shape_specs_entry _ _ _ Hsh Hv) as (sp & shape & -> & Hshape).
    apply placeholders_shape_specs in Hsh as [inputs Hi].
    exists (drop 1 shape).
    assert (is_truthy (heap w) (VRef s) = Some true) as Hg.
    { simpl. rewrite Hs. destruct specs; [done|done]. }
    eapply (init_past_lookup _ _ _ _ _ _ _ _ _ _ true); try done.
    rewrite (placeholders_get _ _ "image" Hi), Hv.
    by rewrite spec_shape_tail_spec, Hshape.
Qed.

(** ** Deserializing the input specs *)

Lemma entry_after_insert h s cur cur1 v r :
  h !! s = Some cur →
  entry_after (<[s := cur1]> h) s v r → entry_after h s v r.
Proof.
  intros Hs. unfold entry_after.
  destruct v as [| | | | | |l| |]; simpl; try done.
  destruct (decide (s = l)) as [<-|Hne].
  - rewrite lookup_insert_eq, Hs. intros _ Hv. done.
  - by rewrite lookup_insert_ne.
Qed.

Lemma deserialize_entry_Ok c s cfgd cur n w w' :
  heap w !! c = Some cfgd →
  dict_get "input_specs" cfgd = Some (VRef s) →
  heap w !! s = Some cur →
  deserialize_entry deserialize (VRef c) n w = (Ok tt, w') →
  ∃ v, dict_get n cur = Some v ∧
    match dict_of (heap w) v with
    | None => w' = w
    | Some d =>
        ∃ v', deserialize d = Ok v' ∧
          w' = mkWorld (<[s := dict_set n v' cur]> (heap w))
                       (trace w ++ [EvDeserialize d])
    end.
Proof.
  intros Hc Hin Hs. unfold deserialize_entry. intros H.
  apply bind_Ok_inv in H as (specs & w1 & H1 & H).
  apply getitem_Ok in H1 as [(d0 & Hd0 & Hg0) ->].
  simpl in Hd0. rewrite Hc in Hd0. injection Hd0 as <-.
  rewrite Hin in Hg0. injection Hg0 as <-.
  apply bind_Ok_inv in H as (v & w1 & H1 & H).
  apply getitem_Ok in H1 as [(d0 & Hd0 & Hv) ->].
  simpl in Hd0. rewrite Hs in Hd0. injection Hd0 as <-.
  exists v. split; [done|].
  apply bind_Ok_inv in H as (isd & w1 & H1 & H).
  unfold isinstance_dict in H1.
  apply bind_Ok_inv in H1 as (h & w2 & Hh & H1).
  injection Hh as <- <-. apply ret_Ok in H1 as [-> ->].
  destruct (dict_of (heap w) v) as [d|] eqn:Hd.
  - apply bind_Ok_inv in H as (specs & w1 & H1 & H).
    apply getitem_Ok in H1 as [(d0 & Hd0 & Hg0) ->].
    simpl in Hd0. rewrite Hc in Hd0. injection Hd0 as <-.
    rewrite Hin in Hg0. injection Hg0 as <-.
    apply bind_Ok_inv in H as (v1 & w1 & H1 & H).
    apply getitem_Ok in H1 as [(d0 & Hd0 & Hv1) ->].
    simpl in Hd0. rewrite Hs in Hd0. injection Hd0 as <-.
    rewrite Hv in Hv1. injection Hv1 as <-.
    apply bind_Ok_inv in H as (d1 & w1 & H1 & H).
    apply as_dict_Ok in H1 as [Hd1 ->].
    rewrite Hd in Hd1. injection Hd1 as <-.
    apply bind_Ok_inv in H as ([] & w1 & H1 & H).
    rewrite emit_run in H1. injection H1 as <-.
    apply bind_Ok_inv in H as (v' & w1 & H1 & H).
    apply lift_res_Ok in H1 as [Hv' ->].
    apply bind_Ok_inv in H as (target & w1 & H1 & H).
    apply getitem_Ok in H1 as [(d0 & Hd0 & Hg0) ->].
    simpl in Hd0. rewrite Hc in Hd0. injection Hd0 as <-.
    rewrite Hin in Hg0. injection Hg0 as <-.
    unfold setitem in H.
    apply bind_Ok_inv in H as (d2 & w1 & H1 & H).
    apply as_dict_Ok in H1 as [Hd2 ->].
    simpl in Hd2. rewrite Hs in Hd2. injection Hd2 as <-.
    unfold store in H. simpl in H. injection H as <-.
    eauto.
  - by apply ret_Ok in H as [_ ->].
Qed.

Lemma deserialize_loop c s cfgd names :
  c ≠ s → dict_get "input_specs" cfgd = Some (VRef s) → NoDup names →
  ∀ cur w w',
    heap w !! c = Some cfgd → heap w !! s = Some cur →
    for_each names (deserialize_entry deserialize (VRef c)) w
      = (Ok tt, w') →
    ∃ cur',
      heap w' = <[s := cur']> (heap w) ∧
      dict_keys cur' = dict_keys cur ∧
      (∀ n, n ∉ names → dict_get n cur' = dict_get n cur) ∧
      (∀ n v, n ∈ names → dict_get n cur = Some v →
              entry_after (heap w) s v (dict_get n cur')).
Proof.
  intros Hcs Hin. induction names as [|n names IH]; intros Hnd cur w w' Hc Hs.
  - simpl. intros H. apply ret_Ok in H as [_ ->]. exists cur.
    split; [by rewrite insert_id|]. split; [done|]. split; [done|].
    intros n v Hn. by apply elem_of_nil in Hn.
  - simpl. intros H. apply bind_Ok_inv in H as ([] & w1 & H1 & H).
    apply NoDup_cons in Hnd as [Hn Hnd].
    destruct (deserialize_entry_Ok _ _ _ _ _ _ _ Hc Hin Hs H1)
      as (v & Hv & Hstep).
    assert (∃ cur1, heap w1 = <[s := cur1]> (heap w) ∧
              dict_keys cur1 = dict_keys cur ∧
              (∀ n0, n0 ≠ n → dict_get n0 cur1 = dict_get n0 cur) ∧
              entry_after (heap w) s v (dict_get n cur1))
      as (cur1 & Hh1 & Hk1 & Hne1 & He1).
    { unfold entry_after. destruct (dict_of (heap w) v) as [d|] eqn:Hd.
      - destruct Hstep as (v' & Hv' & ->). exists (dict_set n v' cur).
        simpl. split; [done|]. split; [by apply dict_keys_set|].
        split; [intros n0 Hn0; by apply dict_get_set_ne|].
        intros _. exists v'. by rewrite dict_get_set_eq.
      - subst w1. exists cur. by rewrite insert_id. }
    destruct (IH Hnd cur1 w1 w') as (cur' & Hh' & Hk' & Hne' & He'); try done.
    { rewrite Hh1. by rewrite lookup_insert_ne. }
    { rewrite Hh1. by rewrite lookup_insert_eq. }
    exists cur'. split; [by rewrite Hh', Hh1, insert_insert_eq|].
    split; [congruence|]. split.
    + intros n0 Hn0. apply not_elem_of_cons in Hn0 as [Hn0 Hn0'].
      rewrite Hne' by done. by apply Hne1.
    + intros n0 v0 Hn0 Hv0. apply elem_of_cons in Hn0 as [->|Hn0].
      * rewrite Hne' by done. rewrite Hv in Hv0. by injection Hv0 as <-.
      * assert (n0 ≠ n) as Hnn by (intros ->; done).
        eapply entry_after_insert; [exact Hs|]. rewrite <- Hh1.
        apply He'; [done|]. rewrite Hne1 by done. done.
Qed.

Lemma deserialize_input_specs_Ok c s cfgd specs w w' :
  c ≠ s → heap w !! c = Some cfgd →
  dict_get "input_specs" cfgd = Some (VRef s) →
  heap w !! s = Some specs → NoDup (dict_keys specs) →
  deserialize_input_specs deserialize (VRef c) w = (Ok tt, w') →
  ∃ specs',
    heap w' = <[s := specs']> (heap w) ∧
    dict_keys specs' = dict_keys specs ∧
    ∀ n v, dict_get n specs = Some v →
           entry_after (heap w) s v (dict_get n specs').
Proof.
  intros Hcs Hc Hin Hs Hnd. unfold deserialize_input_specs. intros H.
  apply bind_Ok_inv in H as (v & w1 & H1 & H).
  apply getitem_Ok in H1 as [(d0 & Hd0 & Hg0) ->].
  simpl in Hd0. rewrite Hc in Hd0. injection Hd0 as <-.
  rewrite Hin in Hg0. injection Hg0 as <-.
  apply bind_Ok_inv in H as (given & w1 & H1 & H).
  apply truthy_Ok in H1 as [Hg ->]. simpl in Hg. rewrite Hs in Hg.
  injection Hg as <-. destruct specs as [|kv specs].
  - apply ret_Ok in H as [_ ->]. exists [].
    split; [by rewrite insert_id|]. split; [done|]. by intros n v.
  - apply bind_Ok_inv in H as (names & w1 & H1 & H).
    unfold iter_keys in H1.
    apply bind_Ok_inv in H1 as (d & w2 & Hd & H1).
    apply as_dict_Ok in Hd as [Hd ->]. simpl in Hd. rewrite Hs in Hd.
    injection Hd as <-. apply ret_Ok in H1 as [-> ->].
    destruct (deserialize_loop c s cfgd _ Hcs Hin Hnd _ _ _ Hc Hs H)
      as (specs' & Hh & Hk & _ & He).
    exists specs'. split; [done|]. split; [done|].
    intros n v Hv. apply He; [|done]. by eapply dict_get_Some_keys.
Qed.

Lemma call_cls_Ok c s cfgd specs w m w' :
  heap w !! c = Some cfgd →
  dict_get "input_specs" cfgd = Some (VRef s) →
  heap w !! s = Some specs → specs ≠ [] →
  call_cls backbone_call obj_attr (VRef c) w = (Ok m, w') →
  heap w' = heap w ∧ _input_specs m = VRef s.
Proof.
  intros Hc Hin Hs Hne. unfold call_cls. intros H.
  apply bind_Ok_inv in H as (kw & w1 & H1 & H).
  apply as_dict_Ok in H1 as [Hkw ->]. simpl in Hkw. rewrite Hc in Hkw.
  injection Hkw as <-.
  apply bind_Ok_inv in H as (bb & w1 & H1 & H).
  assert (w1 = w) as ->.
  { unfold required in H1. destruct (dict_get "backbone" cfgd); [|done].
    by apply ret_Ok in H1 as [_ ->]. }
  apply bind_Ok_inv in H as (nc & w1 & H2 & H).
  assert (w1 = w) as ->.
  { unfold required in H2. destruct (dict_get "num_classes" cfgd); [|done].
    by apply ret_Ok in H2 as [_ ->]. }
  unfold dict_get_or at 1 in H. rewrite Hin in H.
  apply init_Ok_iff in H.
  destruct H as [given ispecs' h1 specs0 inputs image o endpoints states
                   feat hf ct ws Hg Hr Hs0 Hi Him -> Hb Hh Hhf Hct Hws].
  simpl in Hg. rewrite Hs in Hg. destruct specs as [|kv specs]; [done|].
  injection Hg as <-. simpl in Hr. injection Hr as <- <-. done.
Qed.

(** ** The configuration round trip *)

Lemma deserialize_loop_noop c s cfgd specs names w :
  heap w !! c = Some cfgd →
  dict_get "input_specs" cfgd = Some (VRef s) →
  heap w !! s = Some specs →
  (∀ n, n ∈ names →
        ∃ v, dict_get n specs = Some v ∧ dict_of (heap w) v = None) →
  for_each names (deserialize_entry deserialize (VRef c)) w = (Ok tt, w).
Proof.
  intros Hc Hin Hs. induction names as [|n names IH]; intros Hall; [done|].
  simpl. destruct (Hall n) as (v & Hv & Hd); [apply list_elem_of_here|].
  erewrite bind_run; [apply IH|].
  - intros n0 Hn0. apply Hall. by apply list_elem_of_further.
  - unfold deserialize_entry.
    run_step by (rewrite getitem_run; simpl; rewrite Hc, Hin).
    run_step by (rewrite getitem_run; simpl; rewrite Hs, Hv).
    run_step by (unfold isinstance_dict, read_heap;
                 erewrite bind_run by reflexivity; rewrite Hd).
    done.
Qed.

(** C1: the config of a constructed model rebuilds an equivalent model:
    [from_config] returns on it, and the config of the model it returns
    has the same value under each of the eight keys (for [input_specs]
    the same mapping object). The rebuilt model also has the inputs and
    outputs of the first. *)
Theorem config_roundtrip bb nc ispecs dr ki kr br os kw w x w1 :
  init bb nc ispecs dr ki kr br os kw w = (Ok x, w1) →
  ∃ c w2 y w3 c' w4 d,
    get_config x w1 = (Ok c, w2) ∧
    from_cfg c w2 = (Ok y, w3) ∧
    get_config y w3 = (Ok c', w4) ∧
    dict_of (heap w4) c = Some d ∧
    dict_of (heap w4) c' = Some d ∧
    dict_keys d = init_params ∧
    keras_inputs y = keras_inputs x ∧
    keras_outputs y = keras_outputs x.
Proof.
  intros H. apply init_Ok_iff in H.
  destruct H as [given ispecs' h1 specs inputs image o endpoints states
                   feat hf ct ws Hg Hr Hs Hi Him -> Hb Hh Hhf Hct Hws].
  destruct ispecs' as [| | | | | |s| |]; try done. simpl in Hs.
  assert (specs ≠ []) as Hne.
  { intros ->. simpl in Hi. injection Hi as <-. done. }
  set (x := mkMovinetClassifier _ _ _ _ _ _ _ _ _ _ kw).
  set (w1 := mkWorld h1 _).
  set (lc := fresh (dom h1)).
  assert (h1 !! lc = None) as Hlc by apply fresh_heap_None.
  assert (s ≠ lc) as Hslc by (intros ->; congruence).
  destruct (get_config x w1) as [rc w2] eqn:Hget.
  unfold get_config in Hget. rewrite alloc_run in Hget.
  injection Hget as <- <-. simpl. fold lc.
  set (cfgd := [("backbone", _); _; _; _; _; _; _; _]).
  set (w2 := mkWorld (<[lc := cfgd]> h1) _).
  assert (heap w2 = <[lc := cfgd]> h1) as Hh2 by done.
  clearbody w2.
  assert (heap w2 !! lc = Some cfgd) as Hc
    by (rewrite Hh2; apply lookup_insert_eq).
  assert (heap w2 !! s = Some specs) as Hs2
    by (rewrite Hh2; by rewrite lookup_insert_ne).
  assert (deserialize_input_specs deserialize (VRef lc) w2 = (Ok tt, w2))
    as Hdes.
  { unfold deserialize_input_specs.
    run_step by (rewrite getitem_run; simpl dict_of; rewrite Hc).
    run_step by (rewrite truthy_run; simpl is_truthy; rewrite Hs2).
    destruct specs as [|kv specs]; [done|].
    run_step by (unfold iter_keys; erewrite bind_run;
                 [|rewrite as_dict_run; simpl dict_of; rewrite Hs2;
                   reflexivity]).
    eapply deserialize_loop_noop; [exact Hc|done|exact Hs2|].
    intros n Hn. apply dict_keys_get in Hn as [v Hv]. exists v.
    split; [done|].
    destruct (placeholders_entry _ _ _ _ Hi Hv) as [shape Hshape].
    by destruct v. }
  set (y := mkMovinetClassifier (VObj o) nc (VRef s) dr ki kr br os
              (keras_inputs x) (keras_outputs x) []).
  set (w3 := mkWorld (heap w2)
               (trace w2 ++
                [EvBackboneCall (VObj o) image
                   (dict_get_or "states" (IStates []) inputs);
                 EvClassifierHead (mkHeadArgs hf nc dr ki kr ct) feat])).
  assert (from_cfg (VRef lc) w2 = (Ok y, w3)) as Hfrom.
  { unfold from_config. run_step by (rewrite Hdes).
    unfold call_cls.
    run_step by (rewrite as_dict_run; simpl dict_of; rewrite Hc).
    run_step by (unfold required, cfgd; simpl).
    run_step by (unfold required, cfgd; simpl).
    apply init_Ok_iff. unfold cfgd, dict_get_or. simpl dict_get.
    simpl filter. unfold y, w3, x. simpl keras_inputs. simpl keras_outputs.
    eapply Constructed with (given := true); try done.
    - simpl. rewrite Hs2. by destruct specs.
    - rewrite Hh2. by apply is_truthy_insert_fresh. }
  exists (VRef lc), w2, y, w3.
  destruct (get_config y w3) as [rc' w4] eqn:Hget'.
  unfold get_config in Hget'. rewrite alloc_run in Hget'.
  injection Hget' as <- <-.
  eexists _, _, cfgd. repeat split; try done.
  - simpl. rewrite lookup_insert_ne; [done|].
    intros Heq. pose proof (fresh_heap_None (heap w2)) as Hf.
    rewrite Heq, Hc in Hf. done.
  - simpl. by rewrite lookup_insert_eq.
Qed.

(** ** The builder and its registration *)

(** C4: a model returned by [build_movinet_model] is the one the
    constructor makes of the backbone that the backbone factory built
    from [input_specs], the backbone and norm-activation configs and the
    regularizer; of [num_classes]; of the regularizer as kernel
    regularizer; of the new mapping [{'image': input_specs}]; and of the
    dropout rate of the config. *)
Theorem build_movinet_model_spec input_specs model_config nc l2 w m w' :
  build input_specs model_config nc l2 w = (Ok m, w') →
  ∃ bb d w1,
    build_backbone input_specs (cfg.backbone model_config)
      (cfg.norm_activation model_config) l2 = Ok bb ∧
    heap w !! d = None ∧
    heap w1 = <[d := [("image", input_specs)]]> (heap w) ∧
    init bb nc (VRef d) (cfg.dropout_rate model_config) (VStr "HeNormal")
      l2 VNone (VBool false) [] w1 = (Ok m, w') ∧
    _backbone m = bb ∧ _num_classes m = nc ∧
    _kernel_regularizer m = l2 ∧ _input_specs m = VRef d ∧
    heap w' !! d = Some [("image", input_specs)] ∧
    _dropout_rate m = cfg.dropout_rate model_config.
Proof.
  unfold build_movinet_model. intros H.
  apply bind_Ok_inv in H as ([] & w1 & Ha & H).
  rewrite emit_run in Ha. injection Ha as <-.
  apply bind_Ok_inv in H as ([] & w2 & Hb & H).
  assert (heap w2 = heap w) as Hw2.
  { destruct l2 as [| | | | |sp| |o|]; try done;
      [by apply ret_Ok in Hb as [_ ->]| |];
      (apply bind_Ok_inv in Hb as (c & w3 & Hc & Hb);
       apply lift_res_Ok in Hc as [_ ->]; rewrite emit_run in Hb;
       by injection Hb as <-). }
  clear Hb.
  apply bind_Ok_inv in H as (dv & w3 & Hc & H).
  rewrite alloc_run in Hc. injection Hc as <- <-.
  apply bind_Ok_inv in H as ([] & w3 & Hd & H).
  rewrite emit_run in Hd. injection Hd as <-.
  apply bind_Ok_inv in H as (bb & w3 & He & H).
  apply lift_res_Ok in He as [Hbb ->].
  rewrite Hw2 in *. simpl in H.
  exists bb, (fresh (dom (heap w))). eexists.
  split; [done|]. split; [apply fresh_heap_None|].
  split; [|split; [exact H|]]; [done|].
  apply init_Ok_iff in H.
  destruct H as [given ispecs' h1 specs inputs image o endpoints states
                   feat hf ct ws Hg Hr Hs Hi Him -> Hcall Hh Hhf Hct Hws].
  simpl in Hg. rewrite lookup_insert_eq in Hg. injection Hg as <-.
  simpl in Hr. injection Hr as <- <-. simpl.
  repeat split; try done. by rewrite lookup_insert_eq.
Qed.

(** C5: importing the module registers [build_movinet_model] under the
    key ['movinet'], and under that key only: a lookup of ['movinet']
    yields the builder, every other key is as it was. *)
Theorem builder_registered (registry : gmap string builder) :
  import_module backbone_call obj_attr build_backbone
    regularizer_get_config registry !! "movinet" = Some build ∧
  ∀ k, k ≠ "movinet" →
       import_module backbone_call obj_attr build_backbone
         regularizer_get_config registry !! k = registry !! k.
Proof.
  unfold import_module, register_model_builder. split.
  - apply lookup_insert_eq.
  - intros k Hk. by apply lookup_insert_ne.
Qed.


(** * Further properties *)

Local Abbreviation deserializable := (deserializable deserialize).
Local Abbreviation deserialized_entry := (deserialized_entry deserialize).

(** ** Running monadic code, whatever the outcome *)

Lemma bind_inv {A B} (m : M A) (k : A → M B) w r w' :
  (m ≫= k) w = (r, w') →
  (∃ e, m w = (Raise e, w') ∧ r = Raise e) ∨
  (∃ a w1, m w = (Ok a, w1) ∧ k a w1 = (r, w')).
Proof.
  unfold mbind, M_bind, bind. destruct (m w) as [[a|e] w1].
  - intros H. right. eauto.
  - intros [= <- <-]. left. eauto.
Qed.

Lemma keeps_heap_pure {A} (m : M A) :
  (∀ w, ∃ r, m w = (r, w)) → keeps_heap m.
Proof.
  intros Hm w r w' H. destruct (Hm w) as [r0 Hr]. rewrite Hr in H.
  by injection H as _ <-.
Qed.

Lemma keeps_heap_bind {A B} (m : M A) (k : A → M B) :
  keeps_heap m → (∀ a, keeps_heap (k a)) → keeps_heap (m ≫= k).
Proof.
  intros Hm Hk w r w' H.
  apply bind_inv in H as [(e & H & _)|(a & w1 & H1 & H)].
  - by apply Hm in H.
  - apply Hm in H1. apply Hk in H. congruence.
Qed.

Lemma keeps_heap_ret {A} (a : A) : keeps_heap (ret a).
Proof. apply keeps_heap_pure. intros w. by eexists. Qed.

Lemma keeps_heap_raise {A} e : keeps_heap (@raise A e).
Proof. apply keeps_heap_pure. intros w. by eexists. Qed.

Lemma keeps_heap_lift_res {A} (r : res A) : keeps_heap (lift_res r).
Proof. apply keeps_heap_pure. intros w. by eexists. Qed.

Lemma keeps_heap_truthy v : keeps_heap (truthy v).
Proof. apply keeps_heap_pure. intros w. rewrite truthy_run. by eexists. Qed.

Lemma keeps_heap_as_dict err v : keeps_heap (as_dict err v).
Proof. apply keeps_heap_pure. intros w. rewrite as_dict_run. by eexists. Qed.

Lemma keeps_heap_getitem v k : keeps_heap (getitem v k).
Proof. apply keeps_heap_pure. intros w. rewrite getitem_run. by eexists. Qed.

Lemma keeps_heap_lookup_local {A} k (d : odict A) :
  keeps_heap (lookup_local k d).
Proof.
  apply keeps_heap_pure. intros w. rewrite lookup_local_run. by eexists.
Qed.

Lemma keeps_heap_getattr v a : keeps_heap (getattr obj_attr v a).
Proof.
  apply keeps_heap_pure. intros w. unfold getattr.
  destruct v; try by eexists. destruct (obj_attr o a); by eexists.
Qed.

Lemma keeps_heap_emit e : keeps_heap (emit e).
Proof. intros w r w'. rewrite emit_run. by intros [= <- <-]. Qed.

Lemma keeps_heap_call_backbone bb image states :
  keeps_heap (call_backbone backbone_call bb image states).
Proof.
  unfold call_backbone. destruct bb; try apply keeps_heap_raise.
  apply keeps_heap_bind; [apply keeps_heap_emit|].
  intros _. apply keeps_heap_lift_res.
Qed.

Create HintDb keeps_heap.

#[local] Hint Resolve keeps_heap_ret keeps_heap_raise keeps_heap_lift_res
  keeps_heap_truthy keeps_heap_as_dict keeps_heap_getitem
  keeps_heap_lookup_local keeps_heap_getattr keeps_heap_emit
  keeps_heap_call_backbone : keeps_heap.

Ltac keeps_heap_tac :=
  repeat first
    [ apply keeps_heap_bind; [solve [auto with keeps_heap]|intros ?]
    | match goal with
      | |- keeps_heap (let '(_, _) := ?p in _) => destruct p
      | |- keeps_heap (match ?p with (_, _) => _ end) => destruct p
      end ];
  auto with keeps_heap.

(** ** The constructor and the store *)

Lemma init_heap bb nc ispecs dr ki kr br os kw w r w' :
  init bb nc ispecs dr ki kr br os kw w = (r, w') →
  (∀ l d, heap w !! l = Some d → heap w' !! l = Some d) ∧
  (is_truthy (heap w) ispecs ≠ Some false → heap w' = heap w) ∧
  (is_truthy (heap w) ispecs = Some false →
   heap w' = <[fresh (dom (heap w)) :=
                 [("image", VSpec default_image_spec)]]> (heap w)).
Proof.
  unfold __init__. intros H.
  apply bind_inv in H as [(e & H & _)|(given & w1 & Hg & H)].
  { rewrite truthy_run in H. injection H as Hr <-.
    repeat split; try done. intros Hf. by rewrite Hf in Hr. }
  rewrite truthy_run in Hg.
  destruct (is_truthy (heap w) ispecs) as [g|] eqn:Eg; [|done].
  injection Hg as <- <-.
  apply bind_inv in H as [(e & H & _)|(ispecs' & w1 & Hr & H)].
  { destruct g; [by injection H|by rewrite alloc_run in H]. }
  assert (heap w' = heap w1) as ->.
  { revert H. generalize w1 r w'.
    change (keeps_heap
      (specs ← items ispecs';
       inputs ← lift_res (map_res input_placeholder specs);
       image ← lookup_local "image" inputs;
       '(endpoints, states) ← call_backbone backbone_call bb image
                                (dict_get_or "states" (IStates []) inputs);
       x ← lookup_local "head" endpoints;
       hf ← getattr obj_attr bb "_head_filters";
       ct ← getattr obj_attr bb "_conv_type";
       emit (EvClassifierHead (mkHeadArgs hf nc dr ki kr ct) x) ;;
       with_states ← truthy os;
       with_states' ← truthy os;
       ret (mkMovinetClassifier bb nc ispecs' dr ki kr br os
              (if with_states : bool
               then dict_set "states"
                      (IStates (state_placeholders states)) inputs
               else inputs)
              (if with_states' : bool
               then OutWithStates
                      (ClassifierOut (mkHeadArgs hf nc dr ki kr ct) x) states
               else OutTensor
                      (ClassifierOut (mkHeadArgs hf nc dr ki kr ct) x))
              kw))).
    unfold items. keeps_heap_tac. }
  destruct g.
  - apply ret_Ok in Hr as [-> ->]. repeat split; done.
  - rewrite alloc_run in Hr. injection Hr as <- <-. simpl.
    repeat split; try done.
    intros l d Hl. rewrite lookup_insert_ne; [done|].
    intros <-. by rewrite fresh_heap_None in Hl.
Qed.

(** X1: the constructor never changes an object of the store, whether it
    returns or raises. Given a mapping (or any true value) as
    [input_specs] it leaves the store as it is; given [None] or an empty
    mapping it adds one object, the default [{'image': InputSpec(...)}],
    and nothing else. *)
Theorem init_store_frame bb nc ispecs dr ki kr br os kw w r w' :
  init bb nc ispecs dr ki kr br os kw w = (r, w') →
  (∀ l d, heap w !! l = Some d → heap w' !! l = Some d) ∧
  (is_truthy (heap w) ispecs ≠ Some false → heap w' = heap w) ∧
  (is_truthy (heap w) ispecs = Some false →
   heap w' = <[fresh (dom (heap w)) :=
                 [("image", VSpec default_image_spec)]]> (heap w)).
Proof. apply init_heap. Qed.


(** ** The constructor and its collaborators *)

Lemma getattr_run v a w :
  getattr obj_attr v a w =
  (match v with
   | VObj o => match obj_attr o a with
               | Some x => Ok x
               | None => Raise (AttributeError a)
               end
   | _ => Raise (AttributeError a)
   end, w).
Proof. unfold getattr. destruct v; try done. by destruct (obj_attr o a). Qed.

Lemma call_backbone_run bb image states w :
  call_backbone backbone_call bb image states w =
  match bb with
  | VObj o =>
      (backbone_call o image states,
       mkWorld (heap w) (trace w ++ [EvBackboneCall bb image states]))
  | _ => (Raise (TypeError "object is not callable"), w)
  end.
Proof.
  unfold call_backbone. by destruct bb.
Qed.

Lemma items_run v w :
  items v w =
  (match dict_of (heap w) v with
   | Some d => Ok d
   | None => Raise (AttributeError "items")
   end, w).
Proof. apply as_dict_run. Qed.

(** X2: whatever its outcome, the constructor calls the backbone at most
    once and builds the classification head at most once, after that
    call: the calls it makes are none (and it raises), or the backbone
    call alone (and it raises), or the backbone call followed by the
    head. *)
Theorem init_events bb nc ispecs dr ki kr br os kw w r w' :
  __init__ backbone_call obj_attr bb nc ispecs dr ki kr br os kw w
    = (r, w') →
  (∃ e, r = Raise e ∧ trace w' = trace w) ∨
  (∃ e image states,
      r = Raise e ∧
      trace w' = (trace w ++ [EvBackboneCall bb image states])%list) ∨
  (∃ image states args x,
      trace w' = (trace w ++ [EvBackboneCall bb image states;
                              EvClassifierHead args x])%list).
Proof.
  unfold __init__. intros H.
  apply bind_inv in H as [(e & H & ->)|(given & w1 & Hg & H)].
  { rewrite truthy_run in H. injection H as _ <-. left. eauto. }
  rewrite truthy_run in Hg. injection Hg as _ <-.
  apply bind_inv in H as [(e & H & ->)|(ispecs' & w1 & Hr & H)].
  { destruct given; [by injection H|by rewrite alloc_run in H]. }
  assert (trace w1 = trace w) as Ht.
  { destruct given; [by injection Hr as _ <-|].
    rewrite alloc_run in Hr. by injection Hr as _ <-. }
  clear Hr. rewrite <- Ht. clear Ht w.
  apply bind_inv in H as [(e & H & ->)|(specs & w2 & Hs & H)].
  { rewrite items_run in H. injection H as _ <-. left. eauto. }
  rewrite items_run in Hs. injection Hs as _ <-.
  apply bind_inv in H as [(e & H & ->)|(inputs & w2 & Hi & H)].
  { injection H as _ <-. left. eauto. }
  injection Hi as _ <-.
  apply bind_inv in H as [(e & H & ->)|(image & w2 & Him & H)].
  { rewrite lookup_local_run in H. injection H as _ <-. left. eauto. }
  rewrite lookup_local_run in Him. injection Him as _ <-.
  apply bind_inv in H as [(e & H & ->)|([endpoints states] & w2 & Hb & H)].
  { rewrite call_backbone_run in H. destruct bb as [| | | | | | |o|].
    all: try (injection H as _ <-; left; by eauto).
    injection H as _ <-. right. left. simpl. eauto. }
  rewrite call_backbone_run in Hb.
  destruct bb as [| | | | | | |o|]; try done. injection Hb as _ <-.
  apply bind_inv in H as [(e & H & ->)|(x & w2 & Hh & H)].
  { rewrite lookup_local_run in H. injection H as _ <-. right. left.
    simpl. eauto. }
  rewrite lookup_local_run in Hh. injection Hh as _ <-.
  apply bind_inv in H as [(e & H & ->)|(hf & w2 & Hhf & H)].
  { rewrite getattr_run in H. injection H as _ <-. right. left.
    simpl. eauto. }
  rewrite getattr_run in Hhf. injection Hhf as _ <-.
  apply bind_inv in H as [(e & H & ->)|(ct & w2 & Hct & H)].
  { rewrite getattr_run in H. injection H as _ <-. right. left.
    simpl. eauto. }
  rewrite getattr_run in Hct. injection Hct as _ <-.
  right. right.
  apply bind_inv in H as [(e & H & ->)|([] & w2 & He & H)]; [done|].
  rewrite emit_run in He. injection He as <-.
  exists image, (dict_get_or "states" (IStates []) inputs),
    (mkHeadArgs hf nc dr ki kr ct), x.
  apply bind_inv in H as [(e & H & ->)|(ws & w2 & Hw & H)].
  { rewrite truthy_run in H. injection H as _ <-. simpl.
    by rewrite <- (assoc_L (++)). }
  rewrite truthy_run in Hw. injection Hw as _ <-.
  apply bind_inv in H as [(e & H & ->)|(ws' & w2 & Hw & H)].
  { rewrite truthy_run in H. injection H as _ <-. simpl.
    by rewrite <- (assoc_L (++)). }
  rewrite truthy_run in Hw. injection Hw as _ <-.
  injection H as _ <-. simpl. by rewrite <- (assoc_L (++)).
Qed.


(** ** The constructor and the input specs *)

(** X4: the entries of a given [input_specs] are turned into
    placeholders in their order, before anything else is done with
    them, and the first one whose [state.shape[1:]] fails stops the
    constructor: with a [TypeError] when it is a spec without a shape,
    with an [AttributeError] when it has no [shape] at all (a number, a
    str, a dict, an object that lacks the attribute), and with the error
    of the slice when it is an object whose [shape] cannot be sliced.
    This holds with or without the key [image]; no collaborator has been
    called and the store is as it was. *)
Theorem bad_spec_entry bb nc s pre ins n v post dr ki kr br os kw w :
  heap w !! s = Some (pre ++ (n, v) :: post)%list →
  map_res input_placeholder pre = Ok ins →
  (∀ sp, v = VSpec sp → spec_shape sp = None →
     init bb nc (VRef s) dr ki kr br os kw w
       = (Raise (TypeError "'NoneType' object is not subscriptable"), w)) ∧
  (has_shape v = false →
     init bb nc (VRef s) dr ki kr br os kw w
       = (Raise (AttributeError "shape"), w)) ∧
  (∀ o x e, v = VObj o → obj_attr o "shape" = Some x →
     slice_tail x = Raise e →
     init bb nc (VRef s) dr ki kr br os kw w = (Raise e, w)).
Proof.
  intros Hs Hpre. split; [|split].
  - intros sp -> Hsp. eapply init_bad_entry; [done..|].
    by rewrite spec_shape_tail_spec, Hsp.
  - intros Hv. eapply init_bad_entry; [done..|].
    unfold has_shape in Hv. unfold spec_shape_tail.
    destruct v as [| | | | |sp| |o|]; try done.
    simpl in *. by destruct (obj_attr o "shape").
  - intros o x e -> Hx He. eapply init_bad_entry; [done..|].
    unfold spec_shape_tail. simpl. by rewrite Hx.
Qed.

Lemma placeholders_keys specs inputs :
  map_res input_placeholder specs = Ok inputs →
  dict_keys inputs = dict_keys specs.
Proof.
  revert inputs. induction specs as [|[k v] specs IH]; simpl; intros inputs.
  - by intros [= <-].
  - destruct (spec_shape_tail v) as [shape|e]; simpl; [|done].
    destruct (map_res input_placeholder specs) as [ys|e]; simpl; [|done].
    intros [= <-]. simpl. by rewrite (IH ys).
Qed.

Lemma state_placeholders_keys (states : odict tensor) :
  dict_keys (state_placeholders states) = dict_keys states.
Proof.
  unfold dict_keys, state_placeholders. rewrite map_map.
  apply map_ext. by intros [k v].
Qed.

Lemma state_placeholders_get (states : odict tensor) k :
  dict_get k (state_placeholders states) =
  (λ v, Placeholder (drop 1 (tensor_shape v)) k) <$> dict_get k states.
Proof.
  induction states as [|[k0 v0] states IH]; simpl; [done|].
  destruct (String.eqb k k0) eqn:E; [|done].
  apply String.eqb_eq in E. by subst.
Qed.

(** What has a [shape] that can be sliced: an input spec with a shape,
    or a framework object with a [shape] attribute that can be. *)
Lemma spec_shape_tail_Ok v tail :
  spec_shape_tail v = Ok tail →
  (∃ sp shape, v = VSpec sp ∧ spec_shape sp = Some shape ∧
               tail = drop 1 shape) ∨
  (∃ o x, v = VObj o ∧ obj_attr o "shape" = Some x ∧
          slice_tail x = Ok tail).
Proof.
  unfold spec_shape_tail.
  destruct v as [| | | | |sp| |o|]; try done; simpl.
  - destruct (spec_shape sp) as [shape|] eqn:E; [|done].
    intros [= <-]. left. by exists sp, shape.
  - destruct (obj_attr o "shape") as [x|] eqn:E; [|done].
    intros Hx. right. by exists o, x.
Qed.

(** X5: the inputs of a constructed model mirror its [input_specs]. Every
    entry of [input_specs] is a spec with a shape, or an object with a
    [shape] that can be sliced, and the model has under the same name a
    placeholder called [states/<name>] whose shape is that shape without
    its first dimension; without [output_states] the inputs are these
    placeholders and no others, in the order of the specs. With
    [output_states] only the name [states] differs. *)
Theorem model_inputs bb nc ispecs dr ki kr br os kw w m w' :
  init bb nc ispecs dr ki kr br os kw w = (Ok m, w') →
  ∃ specs ws,
    dict_of (heap w') (_input_specs m) = Some specs ∧
    is_truthy (heap w') os = Some ws ∧
    (ws = false → dict_keys (keras_inputs m) = dict_keys specs) ∧
    (∀ n, ws = false ∨ n ≠ "states" →
          dict_get n specs = None → dict_get n (keras_inputs m) = None) ∧
    (∀ n v, dict_get n specs = Some v →
       ∃ tail,
         ((∃ sp shape, v = VSpec sp ∧ spec_shape sp = Some shape ∧
                       tail = drop 1 shape) ∨
          (∃ o x, v = VObj o ∧ obj_attr o "shape" = Some x ∧
                  slice_tail x = Ok tail)) ∧
         (ws = false ∨ n ≠ "states" →
          dict_get n (keras_inputs m) = Some (named_placeholder n tail))).
Proof.
  intros H. apply init_Ok_iff in H.
  destruct H as [given ispecs' h1 specs inputs image o endpoints states
                   feat hf ct ws Hg Hr Hs Hi Him -> Hb Hh Hhf Hct Hws].
  exists specs, ws. simpl.
  assert (∀ n, ws = false ∨ n ≠ "states" →
            dict_get n (if ws
                        then dict_set "states"
                               (IStates (state_placeholders states)) inputs
                        else inputs) = dict_get n inputs) as Hsame.
  { intros n [->|Hn]; [done|]. destruct ws; [|done].
    by rewrite dict_get_set_ne. }
  split; [done|]. split; [done|]. split; [|split].
  - intros ->. by apply placeholders_keys.
  - intros n Hn Hnone. rewrite (Hsame n Hn).
    by rewrite (placeholders_get _ _ n Hi), Hnone.
  - intros n v Hv.
    destruct (placeholders_entry _ _ _ _ Hi Hv) as [tail Htail].
    exists tail. split; [by apply spec_shape_tail_Ok|].
    intros Hn. rewrite (Hsame n Hn).
    by rewrite (placeholders_get _ _ n Hi), Hv, Htail.
Qed.

(** X6: with [output_states] the states a model puts out can be fed back
    to it. Its inputs have under [states] one placeholder for each state
    that the backbone returned, under the same key and in the same order,
    called by that key, with the shape of the state without its first
    dimension; so a state whose first dimension is the unknown batch size
    has the very shape of its placeholder. *)
Theorem states_feed_back bb nc ispecs dr ki kr br os kw w m w' :
  init bb nc ispecs dr ki kr br os kw w = (Ok m, w') →
  is_truthy (heap w') os = Some true →
  ∃ x states ins,
    keras_outputs m = OutWithStates x states ∧
    dict_get "states" (keras_inputs m) = Some (IStates ins) ∧
    dict_keys ins = dict_keys states ∧
    ∀ k v, dict_get k states = Some v →
      dict_get k ins = Some (Placeholder (drop 1 (tensor_shape v)) k) ∧
      ∀ rest, tensor_shape v = None :: rest →
              tensor_shape (Placeholder (drop 1 (tensor_shape v)) k)
                = tensor_shape v.
Proof.
  intros H Hos. apply init_Ok_iff in H.
  destruct H as [given ispecs' h1 specs inputs image o endpoints states
                   feat hf ct ws Hg Hr Hs Hi Him -> Hb Hh Hhf Hct Hws].
  simpl in Hos. rewrite Hws in Hos. injection Hos as ->. simpl.
  eexists _, states, (state_placeholders states).
  split; [done|]. split; [by rewrite dict_get_set_eq|].
  split; [apply state_placeholders_keys|].
  intros k v Hv. split.
  - by rewrite state_placeholders_get, Hv.
  - intros rest Hrest. simpl. by rewrite Hrest.
Qed.

(** ** The loop of [from_config], forwards *)

Lemma dict_get_app_skip {A} (k : string) (d1 d2 : odict A) :
  k ∉ dict_keys d1 → dict_get k (d1 ++ d2) = dict_get k d2.
Proof.
  unfold dict_keys. induction d1 as [|[k0 v0] d1 IH]; simpl; [done|].
  intros Hk. apply not_elem_of_cons in Hk as [Hne Hk].
  destruct (String.eqb k k0) eqn:E; [|auto].
  apply String.eqb_eq in E. congruence.
Qed.

Lemma dict_set_app_skip {A} (k : string) (v : A) (d1 d2 : odict A) :
  k ∉ dict_keys d1 → dict_set k v (d1 ++ d2) = (d1 ++ dict_set k v d2)%list.
Proof.
  unfold dict_keys. induction d1 as [|[k0 v0] d1 IH]; simpl; [done|].
  intros Hk. apply not_elem_of_cons in Hk as [Hne Hk].
  destruct (String.eqb k k0) eqn:E.
  - apply String.eqb_eq in E. congruence.
  - by rewrite IH.
Qed.

Lemma for_each_app {A} (xs ys : list A) (body : A → M unit) w :
  for_each (xs ++ ys) body w =
  (for_each xs body ;; for_each ys body) w.
Proof.
  revert w. induction xs as [|x xs IH]; intros w; simpl; [done|].
  unfold mbind, M_bind, bind in *.
  destruct (body x w) as [[[]|e] w1]; [|done]. apply IH.
Qed.

(** One round of the loop on a name that the mapping has. *)
Lemma deserialize_entry_run c s cfgd cur n v w :
  heap w !! c = Some cfgd →
  dict_get "input_specs" cfgd = Some (VRef s) →
  heap w !! s = Some cur → dict_get n cur = Some v →
  deserialize_entry deserialize (VRef c) n w =
  match dict_of (heap w) v with
  | None => (Ok tt, w)
  | Some d =>
      match deserialize d with
      | Ok v' =>
          (Ok tt, mkWorld (<[s := dict_set n v' cur]> (heap w))
                          (trace w ++ [EvDeserialize d]))
      | Raise e => (Raise e, mkWorld (heap w) (trace w ++ [EvDeserialize d]))
      end
  end.
Proof.
  intros Hc Hin Hs Hv. unfold deserialize_entry.
  run_step by (rewrite getitem_run; simpl; rewrite Hc, Hin).
  run_step by (rewrite getitem_run; simpl; rewrite Hs, Hv).
  run_step by (unfold isinstance_dict, read_heap;
               erewrite bind_run by reflexivity; unfold ret).
  destruct (dict_of (heap w) v) as [d|] eqn:Hd; [|done].
  run_step by (rewrite getitem_run; simpl; rewrite Hc, Hin).
  run_step by (rewrite getitem_run; simpl; rewrite Hs, Hv).
  run_step by (rewrite as_dict_run, Hd).
  run_step by (rewrite emit_run).
  destruct (deserialize d) as [v'|e] eqn:Hdes.
  - run_step by (unfold lift_res).
    run_step by (rewrite getitem_run; simpl; rewrite Hc, Hin).
    unfold setitem.
    run_step by (rewrite as_dict_run; simpl; rewrite Hs).
    done.
  - by erewrite bind_raise.
Qed.

Lemma deserializable_cons h s kv specs :
  deserializable h s (kv :: specs) → deserializable h s specs.
Proof.
  intros H n v d Hin Hd.
  apply (H n v d); [by apply list_elem_of_further|done].
Qed.

Lemma deserializable_insert h s cur specs :
  is_Some (h !! s) →
  deserializable h s specs → deserializable (<[s := cur]> h) s specs.
Proof.
  intros [cur0 Hs] H n v d Hin Hd.
  destruct v as [| | | | | |l| |]; try done. simpl in Hd.
  destruct (decide (s = l)) as [<-|Hne].
  - destruct (H n (VRef s) cur0 Hin Hs) as [Hself _]. done.
  - rewrite lookup_insert_ne in Hd by done. by apply (H n (VRef l) d).
Qed.

Lemma deserialized_insert h s cur specs :
  is_Some (h !! s) → deserializable h s specs →
  map (deserialized_entry (<[s := cur]> h)) specs
    = map (deserialized_entry h) specs ∧
  deserialize_events (<[s := cur]> h) specs = deserialize_events h specs.
Proof.
  intros [cur0 Hs] H.
  assert (∀ kv, kv ∈ specs →
            dict_of (<[s := cur]> h) kv.2 = dict_of h kv.2) as Hsame.
  { intros [n v] Hin. simpl.
    destruct v as [| | | | | |l| |]; try done. simpl.
    destruct (decide (s = l)) as [<-|Hne]; [|by rewrite lookup_insert_ne].
    destruct (H n (VRef s) cur0 Hin Hs) as [Hself _]. done. }
  clear H. split.
  - apply map_ext_in. intros kv Hin. unfold deserialized_entry.
    rewrite Hsame; [done|]. by apply list_elem_of_In.
  - unfold deserialize_events.
    induction specs as [|kv specs IH]; [done|]. simpl.
    rewrite (Hsame kv) by apply list_elem_of_here.
    rewrite IH; [done|].
    intros kv' Hin. apply Hsame. by apply list_elem_of_further.
Qed.

Lemma deserialize_loop_run c s cfgd :
  c ≠ s → dict_get "input_specs" cfgd = Some (VRef s) →
  ∀ todo done rest w,
    heap w !! c = Some cfgd →
    heap w !! s = Some (done ++ todo ++ rest)%list →
    NoDup (dict_keys (done ++ todo ++ rest)%list) →
    deserializable (heap w) s todo →
    for_each (dict_keys todo) (deserialize_entry deserialize (VRef c)) w =
    (Ok tt,
     mkWorld (<[s := (done ++ map (deserialized_entry (heap w)) todo
                      ++ rest)%list]> (heap w))
             (trace w ++ deserialize_events (heap w) todo)).
Proof.
  intros Hcs Hin. induction todo as [|[n v] todo IH];
    intros done rest w Hc Hs Hnd Hok.
  - simpl. unfold ret. rewrite insert_id by done.
    unfold deserialize_events. simpl. rewrite app_nil_r. by destruct w.
  - simpl in *.
    assert (n ∉ dict_keys done) as Hn.
    { unfold dict_keys in *. rewrite map_app in Hnd. simpl in Hnd.
      apply NoDup_app in Hnd as (_ & Hnd & _).
      intros Hin'. apply (Hnd n Hin'). apply list_elem_of_here. }
    assert (dict_get n (done ++ (n, v) :: todo ++ rest)%list = Some v)
      as Hv.
    { rewrite dict_get_app_skip by done. simpl. by rewrite String.eqb_refl. }
    assert (∀ v', dict_set n v' (done ++ (n, v) :: todo ++ rest)%list
                  = ((done ++ [(n, v')]) ++ todo ++ rest)%list) as Hset.
    { intros v'. rewrite dict_set_app_skip by done. simpl.
      rewrite String.eqb_refl. by rewrite <- (assoc_L (++)). }
    pose proof (deserialize_entry_run c s cfgd _ n v w Hc Hin Hs Hv)
      as Hstep.
    unfold deserialized_entry at 1. unfold deserialize_events. simpl.
    destruct (dict_of (heap w) v) as [d|] eqn:Hd.
    + destruct (Hok n v d) as [Hself [v' Hv']];
        [apply list_elem_of_here|done|].
      rewrite Hv' in Hstep. rewrite Hv'. simpl. rewrite Hset in Hstep.
      erewrite bind_run; [|exact Hstep].
      set (w1 := mkWorld _ _).
      assert (is_Some (heap w !! s)) as Hsome by eauto.
      destruct (deserialized_insert (heap w) s
                  ((done ++ [(n, v')]) ++ todo ++ rest)%list todo Hsome)
        as [Hmap Hev].
      { by eapply deserializable_cons. }
      rewrite (IH (done ++ [(n, v')])%list rest w1).
      * simpl. rewrite Hmap. fold (deserialize_events (heap w) todo).
        fold (deserialize_events
                (<[s := ((done ++ [(n, v')]) ++ todo ++ rest)%list]> (heap w))
                todo).
        rewrite Hev, insert_insert_eq.
        by rewrite <- !(assoc_L (++)).
      * simpl. by rewrite lookup_insert_ne.
      * simpl. by rewrite lookup_insert_eq.
      * replace (dict_keys ((done ++ [(n, v')]) ++ todo ++ rest)%list)
          with (dict_keys (done ++ (n, v) :: todo ++ rest)%list); [done|].
        unfold dict_keys. rewrite <- (assoc_L (++)). simpl.
        by rewrite !map_app.
      * simpl. apply deserializable_insert; [done|].
        by eapply deserializable_cons.
    + erewrite bind_run; [|exact Hstep].
      rewrite (IH (done ++ [(n, v)])%list rest w).
      * rewrite <- !(assoc_L (++)). done.
      * done.
      * by rewrite <- (assoc_L (++)).
      * by rewrite <- (assoc_L (++)).
      * by eapply deserializable_cons.
Qed.

(** ** [from_config], forwards *)

Lemma deserialize_input_specs_run c s cfgd specs w :
  config_at (heap w) c s cfgd specs → deserializable (heap w) s specs →
  deserialize_input_specs deserialize (VRef c) w =
  (Ok tt,
   mkWorld (<[s := map (deserialized_entry (heap w)) specs]> (heap w))
           (trace w ++ deserialize_events (heap w) specs)).
Proof.
  intros (Hc & Hin & Hs & Hcs & Hnd) Hok. unfold deserialize_input_specs.
  run_step by (rewrite getitem_run; simpl; rewrite Hc, Hin).
  run_step by (rewrite truthy_run; simpl; rewrite Hs).
  destruct specs as [|kv specs].
  - unfold ret, deserialize_events. simpl.
    rewrite insert_id by done. rewrite app_nil_r. by destruct w.
  - run_step by (unfold iter_keys; erewrite bind_run;
                 [|rewrite as_dict_run; simpl dict_of; rewrite Hs;
                   reflexivity]).
    rewrite (deserialize_loop_run c s cfgd Hcs Hin (kv :: specs) [] [] w);
      try done.
    + simpl. by rewrite !app_nil_r.
    + by rewrite app_nil_r.
    + by rewrite app_nil_r.
Qed.

(** X7: when the deserializer accepts every entry of a config's
    [input_specs] that is a plain dict, [from_config] calls it once for
    each such entry, in the order of the mapping, and never for another
    entry; it then calls the constructor on the config, in whose
    [input_specs] exactly these entries hold what the deserializer
    returned. *)
Theorem from_config_deserialization c s cfgd specs w :
  config_at (heap w) c s cfgd specs → deserializable (heap w) s specs →
  from_cfg (VRef c) w =
  call_cls backbone_call obj_attr (VRef c)
    (mkWorld (<[s := map (deserialized_entry (heap w)) specs]> (heap w))
             (trace w ++ deserialize_events (heap w) specs)).
Proof.
  intros Hcfg Hok. unfold from_config.
  by rewrite (bind_run _ _ _ _ _
                (deserialize_input_specs_run c s cfgd specs w Hcfg Hok)).
Qed.

(** X8: a spec that cannot be deserialized stops [from_config] where it
    stands. When the deserializer raises on an entry, after having
    accepted the dicts before it, [from_config] raises the same error and
    the constructor is not called; the entries before it stay replaced in
    the caller's config, those from it on are as they were. *)
Theorem from_config_deserialize_error c s cfgd pre n l d post e w :
  config_at (heap w) c s cfgd (pre ++ (n, VRef l) :: post)%list →
  deserializable (heap w) s pre →
  l ≠ s → heap w !! l = Some d → deserialize d = Raise e →
  from_cfg (VRef c) w =
  (Raise e,
   mkWorld (<[s := (map (deserialized_entry (heap w)) pre
                    ++ (n, VRef l) :: post)%list]> (heap w))
           (trace w ++ deserialize_events (heap w) pre
            ++ [EvDeserialize d])).
Proof.
  intros (Hc & Hin & Hs & Hcs & Hnd) Hok Hls Hl Hd.
  unfold from_config, deserialize_input_specs.
  erewrite bind_raise; [done|].
  run_step by (rewrite getitem_run; simpl; rewrite Hc, Hin).
  assert (is_truthy (heap w) (VRef s) = Some true) as Ht.
  { simpl. rewrite Hs. by destruct pre. }
  run_step by (rewrite truthy_run, Ht).
  run_step by (unfold iter_keys; erewrite bind_run;
               [|rewrite as_dict_run; simpl dict_of; rewrite Hs;
                 reflexivity]).
  unfold dict_keys at 1. rewrite map_app. simpl.
  fold (dict_keys pre). rewrite for_each_app.
  erewrite bind_run;
    [|apply (deserialize_loop_run c s cfgd Hcs Hin pre []
               ((n, VRef l) :: post) w); done].
  simpl. set (w1 := mkWorld _ _).
  assert (n ∉ dict_keys pre) as Hn.
  { unfold dict_keys in *. rewrite map_app in Hnd. simpl in Hnd.
    apply NoDup_app in Hnd as (_ & Hnd & _).
    intros Hin'. apply (Hnd n Hin'). apply list_elem_of_here. }
  erewrite bind_raise; [reflexivity|].
  erewrite (deserialize_entry_run c s cfgd _ n (VRef l) w1).
  - simpl. rewrite lookup_insert_ne by done. rewrite Hl, Hd.
    unfold w1. simpl. by rewrite <- (assoc_L (++)).
  - unfold w1. simpl. by rewrite lookup_insert_ne.
  - done.
  - unfold w1. simpl. by rewrite lookup_insert_eq.
  - rewrite dict_get_app_skip.
    + simpl. by rewrite String.eqb_refl.
    + unfold dict_keys in *. rewrite map_map. simpl.
      replace (map (λ x, (deserialized_entry (heap w) x).1) pre)
        with (map fst pre); [done|].
      apply map_ext. intros [k v]. unfold deserialized_entry. simpl.
      destruct (dict_of (heap w) v); [|done].
      by destruct (deserialize l0).
Qed.

Lemma call_cls_inv config cfgd w m w' :
  dict_of (heap w) config = Some cfgd →
  call_cls backbone_call obj_attr config w = (Ok m, w') →
  ∃ bb nc,
    dict_get "backbone" cfgd = Some bb ∧
    dict_get "num_classes" cfgd = Some nc ∧
    init bb nc
      (dict_get_or "input_specs" VNone cfgd)
      (dict_get_or "dropout_rate" (VFloat (S754_zero false)) cfgd)
      (dict_get_or "kernel_initializer" (VStr "HeNormal") cfgd)
      (dict_get_or "kernel_regularizer" VNone cfgd)
      (dict_get_or "bias_regularizer" VNone cfgd)
      (dict_get_or "output_states" (VBool false) cfgd)
      (filter (λ kv, negb (existsb (String.eqb kv.1) init_params)) cfgd) w
    = (Ok m, w').
Proof.
  intros Hc. unfold call_cls. intros H.
  apply bind_Ok_inv in H as (kw & w1 & H1 & H).
  apply as_dict_Ok in H1 as [Hkw ->]. rewrite Hc in Hkw.
  injection Hkw as <-.
  apply bind_Ok_inv in H as (bb & w1 & H1 & H).
  unfold required in H1.
  destruct (dict_get "backbone" cfgd) as [bb'|]; [|done].
  apply ret_Ok in H1 as [-> ->].
  apply bind_Ok_inv in H as (nc & w1 & H2 & H).
  unfold required in H2.
  destruct (dict_get "num_classes" cfgd) as [nc'|]; [|done].
  apply ret_Ok in H2 as [-> ->]. eauto.
Qed.

(** X9: [from_config] needs the key [input_specs], though not a value
    under it. On a config without the key it raises
    [KeyError('input_specs')] and does nothing else. On a config that has
    [None] or an empty mapping there it calls no deserializer and goes
    straight to the constructor; the model it returns holds a new
    mapping, the default [{'image': InputSpec(...)}], and the store is as
    before but for that mapping. *)
Theorem from_config_input_specs_key c cfgd w :
  heap w !! c = Some cfgd →
  (dict_get "input_specs" cfgd = None →
   from_cfg (VRef c) w = (Raise (KeyError "input_specs"), w)) ∧
  (∀ v, dict_get "input_specs" cfgd = Some v →
        is_truthy (heap w) v = Some false →
        from_cfg (VRef c) w = call_cls backbone_call obj_attr (VRef c) w ∧
        ∀ m w', from_cfg (VRef c) w = (Ok m, w') →
          ∃ l, heap w !! l = None ∧
               _input_specs m = VRef l ∧
               heap w' = <[l := [("image", VSpec default_image_spec)]]>
                           (heap w)).
Proof.
  intros Hc. split.
  - intros Hin. unfold from_config, deserialize_input_specs.
    erewrite bind_raise; [done|]. erewrite bind_raise; [done|].
    rewrite getitem_run. simpl. by rewrite Hc, Hin.
  - intros v Hin Hv.
    assert (from_cfg (VRef c) w = call_cls backbone_call obj_attr (VRef c) w)
      as Heq.
    { unfold from_config, deserialize_input_specs.
      erewrite bind_run; [reflexivity|].
      run_step by (rewrite getitem_run; simpl; rewrite Hc, Hin).
      run_step by (rewrite truthy_run, Hv).
      done. }
    split; [done|]. intros m w' H. rewrite Heq in H.
    apply (call_cls_inv _ cfgd) in H as (bb & nc & _ & _ & H); [|done].
    unfold dict_get_or at 1 in H. rewrite Hin in H.
    pose proof H as H'.
    apply init_heap in H as (_ & _ & Hnew).
    exists (fresh (dom (heap w))). split; [apply fresh_heap_None|].
    split; [|by apply Hnew]. clear Hnew.
    apply init_Ok_iff in H'.
    destruct H' as [given ispecs' h1 specs inputs image o endpoints states
                     feat hf ct ws Hg Hr Hs Hi Him -> Hb Hh Hhf Hct Hws].
    rewrite Hv in Hg. injection Hg as <-. simpl in Hr.
    by injection Hr as <- <-.
Qed.

(** X10: [from_config] looks for the arguments of the constructor only
    after it has deserialized the specs. On a config without [backbone]
    or without [num_classes] it raises a [TypeError], and the dicts of
    its [input_specs] have by then been replaced in the caller's
    config. *)
Theorem from_config_missing_argument c s cfgd specs w :
  config_at (heap w) c s cfgd specs → deserializable (heap w) s specs →
  dict_get "backbone" cfgd = None ∨ dict_get "num_classes" cfgd = None →
  from_cfg (VRef c) w =
  (Raise (TypeError "missing required positional argument"),
   mkWorld (<[s := map (deserialized_entry (heap w)) specs]> (heap w))
           (trace w ++ deserialize_events (heap w) specs)).
Proof.
  intros Hcfg Hok Hmiss. unfold from_config.
  rewrite (bind_run _ _ _ _ _
             (deserialize_input_specs_run c s cfgd specs w Hcfg Hok)).
  destruct Hcfg as (Hc & Hin & Hs & Hcs & Hnd).
  unfold call_cls.
  run_step by (rewrite as_dict_run; simpl; rewrite lookup_insert_ne by done;
               rewrite Hc).
  unfold required.
  destruct (dict_get "backbone" cfgd) as [bb|] eqn:Ebb.
  - destruct Hmiss as [?|Hnc]; [done|]. rewrite Hnc.
    run_step by (unfold ret). by erewrite bind_raise.
  - by erewrite bind_raise.
Qed.

(** ** [from_config] and [get_config] *)

Lemma deserialized_keys h specs :
  dict_keys (map (deserialized_entry h) specs) = dict_keys specs.
Proof.
  unfold dict_keys. rewrite map_map. apply map_ext. intros [k v].
  unfold deserialized_entry. simpl.
  destruct (dict_of h v) as [d|]; [|done]. by destruct (deserialize d).
Qed.

(** The events of a construction do not depend on those before it. *)
Lemma init_trace_irrelevant bb nc ispecs dr ki kr br os kw w m w' t :
  init bb nc ispecs dr ki kr br os kw w = (Ok m, w') →
  ∃ image states args x,
    _backbone m = bb ∧
    trace w' = (trace w ++ [EvBackboneCall bb image states;
                            EvClassifierHead args x])%list ∧
    init bb nc ispecs dr ki kr br os kw (mkWorld (heap w) t)
      = (Ok m, mkWorld (heap w')
                       (t ++ [EvBackboneCall bb image states;
                              EvClassifierHead args x])).
Proof.
  intros H. apply init_Ok_iff in H.
  destruct H as [given ispecs' h1 specs inputs image o endpoints states
                   feat hf ct ws Hg Hr Hs Hi Him -> Hb Hh Hhf Hct Hws].
  eexists _, _, _, _. split; [reflexivity|]. split; [reflexivity|].
  apply init_Ok_iff.
  by eapply (Constructed _ _ _ _ _ _ _ _ _ _ _ (mkWorld (heap w) t)).
Qed.

(** X11: a second [from_config] on the same config finds nothing left to
    deserialize. For a config whose [input_specs] is a non-empty mapping,
    an object of its own, and a deserializer that accepts its dicts and
    returns objects other than dicts: after a call that returned, the
    call on the config as the first one left it calls no deserializer,
    changes nothing in the store, calls the backbone and builds the head
    once more, and returns a model equal to the first in every
    attribute, input and output. *)
Theorem from_config_again c s cfgd specs w m w' :
  config_at (heap w) c s cfgd specs → specs ≠ [] →
  deserializable (heap w) s specs →
  (∀ d v', deserialize d = Ok v' → ∀ l, v' ≠ VRef l) →
  from_cfg (VRef c) w = (Ok m, w') →
  ∃ image states args x,
    from_cfg (VRef c) w' =
    (Ok m, mkWorld (heap w')
                   (trace w' ++ [EvBackboneCall (_backbone m) image states;
                                 EvClassifierHead args x])).
Proof.
  intros Hcfg Hne Hok Hobj H.
  unfold from_config in H.
  rewrite (bind_run _ _ _ _ _
             (deserialize_input_specs_run c s cfgd specs w Hcfg Hok)) in H.
  destruct Hcfg as (Hc & Hin & Hs & Hcs & Hnd).
  set (specs1 := map (deserialized_entry (heap w)) specs) in *.
  set (w1 := mkWorld _ _) in H.
  assert (heap w1 !! c = Some cfgd) as Hc1
    by (simpl; by rewrite lookup_insert_ne).
  assert (heap w1 !! s = Some specs1) as Hs1
    by (simpl; by rewrite lookup_insert_eq).
  assert (specs1 ≠ []) as Hne1.
  { unfold specs1. by destruct specs. }
  destruct (call_cls_Ok c s cfgd specs1 w1 m w' Hc1 Hin Hs1 Hne1 H)
    as [Hh' _].
  assert (config_at (heap w') c s cfgd specs1) as Hcfg'.
  { rewrite Hh'. repeat split; try done.
    unfold specs1. by rewrite deserialized_keys. }
  assert (∀ n v, (n, v) ∈ specs1 → dict_of (heap w') v = None) as Hnodict.
  { intros n v Hv. unfold specs1 in Hv.
    apply list_elem_of_fmap in Hv as ([n0 v0] & Heq & Hv0).
    unfold deserialized_entry in Heq. simpl in Heq.
    rewrite Hh'. simpl.
    destruct (dict_of (heap w) v0) as [d|] eqn:Hd.
    - destruct (Hok n0 v0 d Hv0 Hd) as [_ [v' Hv']].
      rewrite Hv' in Heq. injection Heq as -> ->.
      destruct v' as [| | | | | |l| |]; try done.
      by destruct (Hobj d (VRef l) Hv' l).
    - injection Heq as -> ->.
      destruct v0 as [| | | | | |l| |]; try done. simpl in *.
      rewrite lookup_insert_ne; [done|]. intros <-. congruence. }
  assert (deserializable (heap w') s specs1) as Hok'.
  { intros n v d Hv Hd. by rewrite (Hnodict n v Hv) in Hd. }
  assert (map (deserialized_entry (heap w')) specs1 = specs1) as Hmap.
  { rewrite <- (map_id specs1) at 2. apply map_ext_in.
    intros [n v] Hv. unfold deserialized_entry. simpl.
    by rewrite (Hnodict n v) by by apply list_elem_of_In. }
  assert (deserialize_events (heap w') specs1 = []) as Hev.
  { unfold deserialize_events. clear -Hnodict.
    induction specs1 as [|[n v] specs1 IH]; [done|]. simpl.
    rewrite (Hnodict n v) by apply list_elem_of_here. simpl.
    apply IH. intros n0 v0 Hv0. apply (Hnodict n0 v0).
    by apply list_elem_of_further. }
  unfold from_config.
  rewrite (bind_run _ _ _ _ _
             (deserialize_input_specs_run c s cfgd specs1 w' Hcfg' Hok')).
  rewrite Hmap, Hev, app_nil_r.
  rewrite insert_id by (rewrite Hh'; exact Hs1).
  apply (call_cls_inv _ cfgd) in H as (bb & nc & Hbb & Hnc & H); [|done].
  destruct (init_trace_irrelevant _ _ _ _ _ _ _ _ _ _ _ _ (trace w') H)
    as (image & states & args & x & Hbbm & _ & Hrun).
  exists image, states, args, x. rewrite Hbbm.
  unfold call_cls.
  run_step by (rewrite as_dict_run; simpl; rewrite Hh'; simpl;
               rewrite lookup_insert_ne by done; rewrite Hc).
  run_step by (unfold required; rewrite Hbb; unfold ret).
  run_step by (unfold required; rewrite Hnc; unfold ret).
  rewrite <- Hh' in Hrun. simpl.
  change (<[s:=specs1]> (heap w)) with (heap w1). rewrite <- Hh'.
  exact Hrun.
Qed.

(** X12: the config of a model that [from_config] returned is the config
    it was made from, completed. It is a new dict with the eight keys of
    the constructor, in their order. For a config whose [input_specs] is
    a non-empty mapping, an object of its own, it has under each key
    what the caller's config has there (for [input_specs] the same
    mapping, deserialized in place) or, for a key that the config lacks,
    the default of the constructor. For a config whose [input_specs] is
    [None] or empty the same holds of the other seven keys, and under
    [input_specs] it has the new default mapping that the constructor
    made, not what the caller's config has. The other entries of the
    caller's config went to the base constructor as keyword arguments
    and are not in it. *)
Theorem get_config_after_from_config c cfgd w m w' :
  from_cfg (VRef c) w = (Ok m, w') →
  (∀ s specs,
     config_at (heap w) c s cfgd specs → specs ≠ [] →
     ∃ c' d',
       get_config m w'
         = (Ok (VRef c'), mkWorld (<[c' := d']> (heap w')) (trace w')) ∧
       heap w' !! c' = None ∧
       dict_keys d' = init_params ∧
       (∀ k, k ∈ init_params →
             dict_get k d' = Some (dict_get_or k (init_default k) cfgd)) ∧
       keras_kwargs m
         = filter (λ kv, negb (existsb (String.eqb kv.1) init_params)) cfgd) ∧
  (∀ v,
     heap w !! c = Some cfgd → dict_get "input_specs" cfgd = Some v →
     is_truthy (heap w) v = Some false →
     ∃ c' d' l,
       get_config m w'
         = (Ok (VRef c'), mkWorld (<[c' := d']> (heap w')) (trace w')) ∧
       heap w' !! c' = None ∧
       dict_keys d' = init_params ∧
       (∀ k, k ∈ init_params → k ≠ "input_specs" →
             dict_get k d' = Some (dict_get_or k (init_default k) cfgd)) ∧
       dict_get "input_specs" d' = Some (VRef l) ∧
       heap w !! l = None ∧
       heap w' !! l = Some [("image", VSpec default_image_spec)] ∧
       keras_kwargs m
         = filter (λ kv, negb (existsb (String.eqb kv.1) init_params)) cfgd).
Proof.
  intros H. split.
  - intros s specs (Hc & Hin & Hs & Hcs & Hnd) Hne. unfold from_config in H.
    apply bind_Ok_inv in H as ([] & w1 & H1 & H).
    destruct (deserialize_input_specs_Ok _ _ _ _ _ _ Hcs Hc Hin Hs Hnd H1)
      as (specs' & Hh & Hk & _).
    assert (heap w1 !! c = Some cfgd) as Hc1
      by (rewrite Hh; by rewrite lookup_insert_ne).
    assert (heap w1 !! s = Some specs') as Hs1
      by (rewrite Hh; by rewrite lookup_insert_eq).
    assert (specs' ≠ []) as Hne'.
    { intros ->. destruct specs; [done|discriminate]. }
    apply (call_cls_inv _ cfgd) in H as (bb & nc & Hbb & Hnc & H); [|done].
    unfold dict_get_or at 1 in H. rewrite Hin in H.
    apply init_Ok_iff in H.
    destruct H as [given ispecs' h1 specs0 inputs image o endpoints states
                     feat hf ct ws Hg Hr Hs0 Hi Him -> Hb Hh0 Hhf Hct Hws].
    simpl in Hg. rewrite Hs1 in Hg. destruct specs' as [|kv specs']; [done|].
    injection Hg as <-. simpl in Hr. injection Hr as <- <-.
    unfold get_config. rewrite alloc_run. simpl.
    eexists _, _. split; [reflexivity|]. split; [apply fresh_heap_None|].
    split; [done|]. split; [|done].
    intros k Hk'. unfold init_params in Hk'.
    repeat (apply elem_of_cons in Hk' as [->|Hk']);
      [..|by apply elem_of_nil in Hk'].
    all: simpl; unfold dict_get_or; by rewrite ?Hbb, ?Hnc, ?Hin.
  - intros v Hc Hin Hv.
    assert (from_cfg (VRef c) w = call_cls backbone_call obj_attr (VRef c) w)
      as Heq.
    { unfold from_config, deserialize_input_specs.
      erewrite bind_run; [reflexivity|].
      run_step by (rewrite getitem_run; simpl; rewrite Hc, Hin).
      run_step by (rewrite truthy_run, Hv).
      done. }
    rewrite Heq in H.
    apply (call_cls_inv _ cfgd) in H as (bb & nc & Hbb & Hnc & H); [|done].
    unfold dict_get_or at 1 in H. rewrite Hin in H.
    apply init_Ok_iff in H.
    destruct H as [given ispecs' h1 specs inputs image o endpoints states
                     feat hf ct ws Hg Hr Hs Hi Him -> Hb Hh Hhf Hct Hws].
    rewrite Hv in Hg. injection Hg as <-. simpl in Hr.
    injection Hr as <- <-.
    unfold get_config. rewrite alloc_run. simpl.
    eexists _, _, (fresh (dom (heap w))).
    split; [reflexivity|]. split; [apply fresh_heap_None|].
    split; [done|]. split; [|split; [done|]].
    + intros k Hk' Hki. unfold init_params in Hk'.
      repeat (apply elem_of_cons in Hk' as [->|Hk']);
        [..|by apply elem_of_nil in Hk'].
      all: try done.
      all: simpl; unfold dict_get_or; by rewrite ?Hbb, ?Hnc.
    + split; [apply fresh_heap_None|]. split; [|done].
      by rewrite lookup_insert_eq.
Qed.

(** ** [from_config] and the store, whatever the outcome *)

Lemma deserialize_loop_any c s cfgd :
  c ≠ s → dict_get "input_specs" cfgd = Some (VRef s) →
  ∀ names cur w r w',
    heap w !! c = Some cfgd → heap w !! s = Some cur →
    for_each names (deserialize_entry deserialize (VRef c)) w = (r, w') →
    ∃ cur', heap w' = <[s := cur']> (heap w) ∧
            dict_keys cur' = dict_keys cur.
Proof.
  intros Hcs Hin. induction names as [|n names IH]; intros cur w r w' Hc Hs.
  - simpl. intros [= <- <-]. exists cur. by rewrite insert_id.
  - simpl. intros H.
    assert (∀ r1 w1,
      deserialize_entry deserialize (VRef c) n w = (r1, w1) →
      heap w1 = heap w ∨
      ∃ v', is_Some (dict_get n cur) ∧
            heap w1 = <[s := dict_set n v' cur]> (heap w)) as Hstep.
    { intros r1 w1. destruct (dict_get n cur) as [v|] eqn:Hv.
      - rewrite (deserialize_entry_run c s cfgd cur n v w Hc Hin Hs Hv).
        destruct (dict_of (heap w) v) as [d|]; [|intros [= <- <-]; by left].
        destruct (deserialize d) as [v'|e]; intros [= <- <-]; [|by left].
        right. exists v'. by eauto.
      - unfold deserialize_entry.
        run_step by (rewrite getitem_run; simpl; rewrite Hc, Hin).
        erewrite bind_raise;
          [|rewrite getitem_run; simpl; rewrite Hs, Hv; reflexivity].
        intros [= <- <-]. by left. }
    apply bind_inv in H as [(e & H & ->)|([] & w1 & H1 & H)].
    + destruct (Hstep _ _ H) as [Hh|(v' & Hsome & Hh)].
      * exists cur. by rewrite Hh, insert_id.
      * exists (dict_set n v' cur). split; [done|]. by apply dict_keys_set.
    + destruct (Hstep _ _ H1) as [Hh|(v' & Hsome & Hh)].
      * destruct (IH cur w1 r w') as (cur' & Hh' & Hk'); try done;
          try (by rewrite Hh).
        exists cur'. by rewrite Hh', Hh.
      * destruct (IH (dict_set n v' cur) w1 r w') as (cur' & Hh' & Hk');
          try done.
        { rewrite Hh. by rewrite lookup_insert_ne. }
        { rewrite Hh. by rewrite lookup_insert_eq. }
        exists cur'. split; [by rewrite Hh', Hh, insert_insert_eq|].
        rewrite Hk'. by apply dict_keys_set.
Qed.

Lemma call_cls_preserves config w r w' :
  call_cls backbone_call obj_attr config w = (r, w') →
  ∀ l d, heap w !! l = Some d → heap w' !! l = Some d.
Proof.
  unfold call_cls. intros H.
  apply bind_inv in H as [(e & H & _)|(kw & w1 & H1 & H)].
  { rewrite as_dict_run in H. by injection H as _ <-. }
  rewrite as_dict_run in H1. injection H1 as _ <-.
  apply bind_inv in H as [(e & H & _)|(bb & w1 & H1 & H)].
  { unfold required in H. destruct (dict_get "backbone" kw); [done|].
    by injection H as _ <-. }
  assert (w1 = w) as ->.
  { unfold required in H1. destruct (dict_get "backbone" kw); [|done].
    by injection H1 as _ <-. }
  apply bind_inv in H as [(e & H & _)|(nc & w1 & H2 & H)].
  { unfold required in H. destruct (dict_get "num_classes" kw); [done|].
    by injection H as _ <-. }
  assert (w1 = w) as ->.
  { unfold required in H2. destruct (dict_get "num_classes" kw); [|done].
    by injection H2 as _ <-. }
  by apply init_heap in H as (Hpres & _).
Qed.

(** X13: whether it returns or raises, [from_config] changes one object
    of the store at most, the [input_specs] mapping of the config, and
    this keeps its keys in their order: the config object itself and
    every other object are as they were. *)
Theorem from_config_frame c s cfgd specs w r w' :
  config_at (heap w) c s cfgd specs →
  from_cfg (VRef c) w = (r, w') →
  heap w' !! c = Some cfgd ∧
  (∀ l d, l ≠ s → heap w !! l = Some d → heap w' !! l = Some d) ∧
  ∃ specs', heap w' !! s = Some specs' ∧ dict_keys specs' = dict_keys specs.
Proof.
  intros (Hc & Hin & Hs & Hcs & Hnd) H.
  assert (∀ r1 w1,
    deserialize_input_specs deserialize (VRef c) w = (r1, w1) →
    ∃ specs', heap w1 = <[s := specs']> (heap w) ∧
              dict_keys specs' = dict_keys specs) as Hdes.
  { intros r1 w1. unfold deserialize_input_specs.
    run_step by (rewrite getitem_run; simpl; rewrite Hc, Hin).
    run_step by (rewrite truthy_run; simpl; rewrite Hs).
    destruct specs as [|kv specs].
    - intros [= <- <-]. exists []. by rewrite insert_id.
    - run_step by (unfold iter_keys; erewrite bind_run;
                   [|rewrite as_dict_run; simpl dict_of; rewrite Hs;
                     reflexivity]).
      by apply (deserialize_loop_any c s cfgd Hcs Hin). }
  assert (∀ w1 specs', heap w1 = <[s := specs']> (heap w) →
            dict_keys specs' = dict_keys specs →
            (∀ l d, heap w1 !! l = Some d → heap w' !! l = Some d) →
            heap w' !! c = Some cfgd ∧
            (∀ l d, l ≠ s → heap w !! l = Some d → heap w' !! l = Some d) ∧
            ∃ specs', heap w' !! s = Some specs' ∧
                      dict_keys specs' = dict_keys specs) as Hfin.
  { intros w1 specs' Hh Hk Hpres. split; [|split].
    - apply Hpres. rewrite Hh. by rewrite lookup_insert_ne.
    - intros l d Hl Hd. apply Hpres. rewrite Hh.
      by rewrite lookup_insert_ne.
    - exists specs'. split; [|done]. apply Hpres. rewrite Hh.
      by rewrite lookup_insert_eq. }
  unfold from_config in H.
  apply bind_inv in H as [(e & H & _)|([] & w1 & H1 & H)].
  - destruct (Hdes _ _ H) as (specs' & Hh & Hk). by eapply Hfin.
  - destruct (Hdes _ _ H1) as (specs' & Hh & Hk).
    eapply Hfin; [done..|]. by eapply call_cls_preserves.
Qed.

(** ** [from_config] and the caller's config *)

Lemma deserialized_get h specs n :
  dict_get n (map (deserialized_entry h) specs) =
  (λ v, (deserialized_entry h (n, v)).2) <$> dict_get n specs.
Proof.
  induction specs as [|[k v] specs IH]; simpl; [done|].
  assert ((deserialized_entry h (k, v)).1 = k) as Hk.
  { unfold deserialized_entry. simpl.
    destruct (dict_of h v) as [d|]; [|done]. by destruct (deserialize d). }
  destruct (deserialized_entry h (k, v)) as [k' v'] eqn:E. simpl in Hk.
  subst k'. destruct (String.eqb n k) eqn:En; [|done].
  apply String.eqb_eq in En. subst k. simpl. by rewrite E.
Qed.

(** What the loop leaves under each name when the deserializer accepts
    every dict. *)
Lemma deserialized_entries h s specs :
  deserializable h s specs →
  (∀ n v d, dict_get n specs = Some v → dict_of h v = Some d →
            ∃ v', deserialize d = Ok v' ∧
                  dict_get n (map (deserialized_entry h) specs) = Some v') ∧
  (∀ n v, dict_get n specs = Some v → dict_of h v = None →
          dict_get n (map (deserialized_entry h) specs) = Some v).
Proof.
  intros Hdes. split.
  - intros n v d Hv Hd.
    destruct (Hdes n v d (dict_get_Some_elem _ _ _ Hv) Hd) as [_ [v' Hv']].
    exists v'. split; [done|]. rewrite deserialized_get, Hv. simpl.
    unfold deserialized_entry. simpl. by rewrite Hd, Hv'.
  - intros n v Hv Hd. rewrite deserialized_get, Hv. simpl.
    unfold deserialized_entry. simpl. by rewrite Hd.
Qed.

(** The call of the constructor on a config with a non-empty
    [input_specs] leaves the store as it is, whatever its outcome, and
    a model it returns holds that very mapping. *)
Lemma call_cls_heap c s cfgd specs w r w' :
  heap w !! c = Some cfgd →
  dict_get "input_specs" cfgd = Some (VRef s) →
  heap w !! s = Some specs → specs ≠ [] →
  call_cls backbone_call obj_attr (VRef c) w = (r, w') →
  heap w' = heap w ∧ ∀ m, r = Ok m → _input_specs m = VRef s.
Proof.
  intros Hc Hin Hs Hne H. split.
  - revert H. unfold call_cls. intros H.
    apply bind_inv in H as [(e & H & _)|(kw & w1 & H1 & H)].
    { rewrite as_dict_run in H. by injection H as _ <-. }
    rewrite as_dict_run in H1. simpl in H1. rewrite Hc in H1.
    injection H1 as <- <-.
    apply bind_inv in H as [(e & H & _)|(bb & w1 & H1 & H)].
    { unfold required in H. destruct (dict_get "backbone" cfgd); [done|].
      by injection H as _ <-. }
    assert (w1 = w) as ->.
    { unfold required in H1. destruct (dict_get "backbone" cfgd); [|done].
      by injection H1 as _ <-. }
    apply bind_inv in H as [(e & H & _)|(nc & w1 & H2 & H)].
    { unfold required in H. destruct (dict_get "num_classes" cfgd); [done|].
      by injection H as _ <-. }
    assert (w1 = w) as ->.
    { unfold required in H2.
      destruct (dict_get "num_classes" cfgd); [|done].
      by injection H2 as _ <-. }
    unfold dict_get_or at 1 in H. rewrite Hin in H.
    apply init_heap in H as (_ & Hsame & _). apply Hsame.
    simpl. rewrite Hs. by destruct specs.
  - intros m ->.
    by destruct (call_cls_Ok c s cfgd specs w m w' Hc Hin Hs Hne H).
Qed.

(** C7: in a config whose [input_specs] is a non-empty mapping,
    [from_config] deserializes before it calls the constructor. When the
    layer deserializer accepts the plain dicts of the mapping, the loop
    runs to its end whatever the constructor does afterwards: it calls
    the deserializer on each plain dict, in the order of the mapping,
    puts what it returns in the place of the dict, leaves every other
    entry (the spec objects) as it is, and only then is the constructor
    called, on the config in the store so changed. And whenever
    [from_config] returns, the dicts have been replaced and the spec
    objects kept. *)
Theorem from_config_deserializes c s cfgd specs w :
  config_at (heap w) c s cfgd specs → specs ≠ [] →
  (deserializable (heap w) s specs →
   ∃ w1 specs',
     deserialize_input_specs deserialize (VRef c) w = (Ok tt, w1) ∧
     from_cfg (VRef c) w = call_cls backbone_call obj_attr (VRef c) w1 ∧
     heap w1 = <[s := specs']> (heap w) ∧
     trace w1 = (trace w ++ deserialize_events (heap w) specs)%list ∧
     dict_keys specs' = dict_keys specs ∧
     (∀ n v d, dict_get n specs = Some v → dict_of (heap w) v = Some d →
               ∃ v', deserialize d = Ok v' ∧ dict_get n specs' = Some v') ∧
     (∀ n v, dict_get n specs = Some v → dict_of (heap w) v = None →
             dict_get n specs' = Some v)) ∧
  (∀ m w',
     from_cfg (VRef c) w = (Ok m, w') →
     ∃ w1 specs',
       deserialize_input_specs deserialize (VRef c) w = (Ok tt, w1) ∧
       call_cls backbone_call obj_attr (VRef c) w1 = (Ok m, w') ∧
       heap w1 = <[s := specs']> (heap w) ∧
       dict_keys specs' = dict_keys specs ∧
       (∀ n v d, dict_get n specs = Some v → dict_of (heap w) v = Some d →
                 v ≠ VRef s →
                 ∃ v', deserialize d = Ok v' ∧ dict_get n specs' = Some v') ∧
       (∀ n sp, dict_get n specs = Some (VSpec sp) →
                dict_get n specs' = Some (VSpec sp))).
Proof.
  intros Hcfg Hne. split.
  - intros Hdes.
    pose proof (deserialize_input_specs_run c s cfgd specs w Hcfg Hdes)
      as Hrun.
    destruct (deserialized_entries _ _ _ Hdes) as [Hd Hk].
    eexists _, (map (deserialized_entry (heap w)) specs).
    split; [exact Hrun|]. split.
    { unfold from_config. by erewrite bind_run. }
    split; [done|]. split; [done|].
    split; [apply deserialized_keys|]. by split.
  - intros m w' H. destruct Hcfg as (Hc & Hin & Hs & Hcs & Hnd).
    unfold from_config in H.
    apply bind_Ok_inv in H as ([] & w1 & H1 & H).
    destruct (deserialize_input_specs_Ok _ _ _ _ _ _ Hcs Hc Hin Hs Hnd H1)
      as (specs' & Hh & Hk & He).
    exists w1, specs'. repeat split; try done.
    + intros n v d Hv Hd Hvs. specialize (He n v Hv).
      unfold entry_after in He. rewrite Hd in He. auto.
    + intros n sp Hv. by apply (He n (VSpec sp) Hv).
Qed.

(** C9: [from_config] changes the caller's config in place. When the
    layer deserializer accepts the plain dicts of a non-empty
    [input_specs], then after the call, whether it returned a model or
    the constructor raised, the one object of the store that differs is
    the [input_specs] mapping of the config: under each name that held a
    plain dict it holds the deserialized object, and the other names
    hold what they held. The config mapping itself has its entries as
    before, [input_specs] being the same object, which a returned model
    holds too: nothing was copied. And whenever [from_config] returns,
    the store differs in this way. *)
Theorem from_config_in_place c s cfgd specs w r w' :
  config_at (heap w) c s cfgd specs → specs ≠ [] →
  from_cfg (VRef c) w = (r, w') →
  (deserializable (heap w) s specs →
   ∃ specs',
     heap w' = <[s := specs']> (heap w) ∧
     heap w' !! c = Some cfgd ∧
     (∀ m, r = Ok m → _input_specs m = VRef s) ∧
     dict_keys specs' = dict_keys specs ∧
     (∀ n v d, dict_get n specs = Some v → dict_of (heap w) v = Some d →
               ∃ v', deserialize d = Ok v' ∧ dict_get n specs' = Some v') ∧
     (∀ n v, dict_get n specs = Some v → dict_of (heap w) v = None →
             dict_get n specs' = Some v)) ∧
  (∀ m, r = Ok m →
   ∃ specs',
     heap w' = <[s := specs']> (heap w) ∧
     heap w' !! c = Some cfgd ∧
     _input_specs m = VRef s ∧
     dict_keys specs' = dict_keys specs ∧
     (∀ n v d, dict_get n specs = Some v → dict_of (heap w) v = Some d →
               v ≠ VRef s →
               ∃ v', deserialize d = Ok v' ∧ dict_get n specs' = Some v') ∧
     (∀ n v, dict_get n specs = Some v → dict_of (heap w) v = None →
             dict_get n specs' = Some v)).
Proof.
  intros Hcfg Hne H. split.
  - intros Hdes.
    pose proof (deserialize_input_specs_run c s cfgd specs w Hcfg Hdes)
      as Hrun.
    destruct (deserialized_entries _ _ _ Hdes) as [Hd Hk].
    destruct Hcfg as (Hc & Hin & Hs & Hcs & Hnd).
    unfold from_config in H. erewrite bind_run in H; [|exact Hrun].
    set (specs' := map (deserialized_entry (heap w)) specs) in *.
    assert (specs' ≠ []) as Hne'.
    { unfold specs'. by destruct specs. }
    pose proof (λ H1 H2, call_cls_heap c s cfgd specs' _ r w'
                           H1 Hin H2 Hne' H) as Hcall.
    destruct Hcall as [Hh Hm];
      [simpl; by rewrite lookup_insert_ne
      |simpl; by rewrite lookup_insert_eq|].
    exists specs'. rewrite Hh. simpl.
    split; [done|]. split; [by rewrite lookup_insert_ne|].
    split; [done|]. split; [apply deserialized_keys|]. by split.
  - intros m ->. destruct Hcfg as (Hc & Hin & Hs & Hcs & Hnd).
    unfold from_config in H.
    apply bind_Ok_inv in H as ([] & w1 & H1 & H).
    destruct (deserialize_input_specs_Ok _ _ _ _ _ _ Hcs Hc Hin Hs Hnd H1)
      as (specs' & Hh & Hk & He).
    assert (specs' ≠ []) as Hne'.
    { intros ->. destruct specs; [done|discriminate]. }
    destruct (call_cls_Ok c s cfgd specs' w1 m w') as [Hh' Hm]; try done.
    { rewrite Hh. by rewrite lookup_insert_ne. }
    { rewrite Hh. by rewrite lookup_insert_eq. }
    exists specs'. rewrite Hh', Hh. repeat split; try done.
    + by rewrite lookup_insert_ne.
    + intros n v d Hv Hd Hvs. specialize (He n v Hv).
      unfold entry_after in He. rewrite Hd in He. auto.
    + intros n v Hv Hd. specialize (He n v Hv).
      unfold entry_after in He. by rewrite Hd in He.
Qed.

(** ** The builder, step by step *)

Local Abbreviation regularizer_log :=
  (regularizer_log regularizer_get_config).

Lemma build_run input_specs model_config nc l2 w :
  build input_specs model_config nc l2 w =
  let logged :=
    (trace w ++
     [EvLogInfo "Building movinet model with num classes: %s" nc])%list in
  match regularizer_log l2 with
  | Raise e => (Raise e, mkWorld (heap w) logged)
  | Ok evs =>
      let d := fresh (dom (heap w)) in
      let w1 :=
        mkWorld (<[d := [("image", input_specs)]]> (heap w))
                (logged ++ evs ++
                 [EvBuildBackbone input_specs (cfg.backbone model_config)
                    (cfg.norm_activation model_config) l2])%list in
      match build_backbone input_specs (cfg.backbone model_config)
              (cfg.norm_activation model_config) l2 with
      | Raise e => (Raise e, w1)
      | Ok bb =>
          init bb nc (VRef d) (cfg.dropout_rate model_config)
            (VStr "HeNormal") l2 VNone (VBool false) [] w1
      end
  end.
Proof.
  unfold build_movinet_model. run_step by (rewrite emit_run).
  set (w0 := mkWorld _ _). simpl.
  assert (∀ evs (k : M MovinetClassifier) ,
    regularizer_log l2 = Ok evs →
    (match l2 with
     | VNone => ret tt
     | VObj _ | VSpec _ =>
         c ← lift_res (regularizer_get_config l2);
         emit (EvLogInfo "Building movinet model with regularizer: %s" c)
     | _ => raise (AttributeError "get_config")
     end ;; k) w0 = k (mkWorld (heap w0) (trace w0 ++ evs))) as Hok.
  { intros evs k Hlog. unfold regularizer_log in Hlog.
    destruct l2 as [| | | | |sp| |o|]; try done.
    - injection Hlog as <-. run_step by (unfold ret).
      rewrite app_nil_r. by destruct w0.
    - destruct (regularizer_get_config (VSpec sp)) as [c|e] eqn:Ec; [|done].
      simpl in Hlog. injection Hlog as <-.
      erewrite bind_run; [reflexivity|].
      run_step by (unfold lift_res). apply emit_run.
    - destruct (regularizer_get_config (VObj o)) as [c|e] eqn:Ec; [|done].
      simpl in Hlog. injection Hlog as <-.
      erewrite bind_run; [reflexivity|].
      run_step by (unfold lift_res). apply emit_run. }
  assert (∀ e (k : M MovinetClassifier),
    regularizer_log l2 = Raise e →
    (match l2 with
     | VNone => ret tt
     | VObj _ | VSpec _ =>
         c ← lift_res (regularizer_get_config l2);
         emit (EvLogInfo "Building movinet model with regularizer: %s" c)
     | _ => raise (AttributeError "get_config")
     end ;; k) w0 = (Raise e, w0)) as Hraise.
  { intros e k Hlog. unfold regularizer_log in Hlog.
    destruct l2 as [| | | | |sp| |o|]; try done.
    all: try (injection Hlog as <-; by erewrite bind_raise).
    - destruct (regularizer_get_config (VSpec sp)) as [c|e'] eqn:Ec;
        [done|].
      simpl in Hlog. injection Hlog as <-.
      erewrite bind_raise; [reflexivity|].
      by erewrite bind_raise.
    - destruct (regularizer_get_config (VObj o)) as [c|e'] eqn:Ec;
        [done|].
      simpl in Hlog. injection Hlog as <-.
      erewrite bind_raise; [reflexivity|].
      by erewrite bind_raise. }
  destruct (regularizer_log l2) as [evs|e] eqn:Hlog.
  - rewrite (Hok evs _ eq_refl).
    run_step by (rewrite alloc_run).
    run_step by (rewrite emit_run).
    simpl. rewrite <- !(assoc_L (++)).
    destruct (build_backbone _ _ _ _) as [bb|e] eqn:Ebb.
    + run_step by (unfold lift_res). done.
    + by erewrite bind_raise.
  - by rewrite (Hraise e _ eq_refl).
Qed.

(** X14: errors on the way to the model stop the builder where they
    occur. A regularizer that is a plain value (a number, a bool, a str,
    a dict, a tuple) has no [get_config] and makes it raise an
    [AttributeError] when it has only logged the number of classes; a
    regularizer whose [get_config] raises makes it raise that error at
    the same point; and when the backbone factory raises, the builder
    raises the same error, no backbone has been called, and the store
    has one more object, the mapping [{'image': input_specs}] that it had
    made ready. *)
Theorem build_errors input_specs model_config nc l2 w :
  let logged :=
    (trace w ++
     [EvLogInfo "Building movinet model with num classes: %s" nc])%list in
  (is_plain l2 = true →
   build input_specs model_config nc l2 w
     = (Raise (AttributeError "get_config"), mkWorld (heap w) logged)) ∧
  (∀ e, is_plain l2 = false → l2 ≠ VNone →
        regularizer_get_config l2 = Raise e →
        build input_specs model_config nc l2 w
          = (Raise e, mkWorld (heap w) logged)) ∧
  (∀ evs e,
      regularizer_log l2 = Ok evs →
      build_backbone input_specs (cfg.backbone model_config)
        (cfg.norm_activation model_config) l2 = Raise e →
      build input_specs model_config nc l2 w
        = (Raise e,
           mkWorld (<[fresh (dom (heap w)) := [("image", input_specs)]]>
                      (heap w))
                   (logged ++ evs ++
                    [EvBuildBackbone input_specs (cfg.backbone model_config)
                       (cfg.norm_activation model_config) l2]))).
Proof.
  intros logged. split; [|split].
  - intros Hp. rewrite build_run. simpl.
    by destruct l2 as [| | | | |sp| |o|].
  - intros e Hp Hn He. rewrite build_run. simpl.
    destruct l2 as [| | | | |sp| |o|]; try done; simpl; by rewrite He.
  - intros evs e Hlog Hbb. rewrite build_run. simpl. by rewrite Hlog, Hbb.
Qed.

Lemma build_Ok_inv input_specs model_config nc l2 w m w' :
  build input_specs model_config nc l2 w = (Ok m, w') →
  ∃ evs bb tail hf ct feat,
    regularizer_log l2 = Ok evs ∧
    build_backbone input_specs (cfg.backbone model_config)
      (cfg.norm_activation model_config) l2 = Ok bb ∧
    spec_shape_tail input_specs = Ok tail ∧
    let args := mkHeadArgs hf nc (cfg.dropout_rate model_config)
                  (VStr "HeNormal") l2 ct in
    m = mkMovinetClassifier bb nc (VRef (fresh (dom (heap w))))
          (cfg.dropout_rate model_config) (VStr "HeNormal") l2 VNone
          (VBool false) [("image", named_placeholder "image" tail)]
          (OutTensor (ClassifierOut args feat)) [] ∧
    trace w' =
      (trace w ++
       [EvLogInfo "Building movinet model with num classes: %s" nc] ++
       evs ++
       [EvBuildBackbone input_specs (cfg.backbone model_config)
          (cfg.norm_activation model_config) l2;
        EvBackboneCall bb (named_placeholder "image" tail) (IStates []);
        EvClassifierHead args feat])%list.
Proof.
  rewrite build_run. simpl.
  destruct (regularizer_log l2) as [evs|e]; [|done].
  destruct (build_backbone _ _ _ _) as [bb|e]; [|done].
  intros H. apply init_Ok_iff in H.
  destruct H as [given ispecs' h1 specs inputs image o endpoints states
                   feat hf ct ws Hg Hr Hs Hi Him -> Hb Hh Hhf Hct Hws].
  simpl in Hg. rewrite lookup_insert_eq in Hg. injection Hg as <-.
  simpl in Hr. injection Hr as <- <-.
  simpl in Hs. rewrite lookup_insert_eq in Hs. injection Hs as <-.
  simpl in Hws. injection Hws as <-.
  simpl in Hi.
  destruct (spec_shape_tail input_specs) as [tail|e] eqn:Et; [|done].
  simpl in Hi. injection Hi as <-. simpl in Him. injection Him as <-.
  exists evs, (VObj o), tail, hf, ct, feat.
  split; [done|]. split; [done|]. split; [done|].
  split; [done|]. simpl. by rewrite <- !(assoc_L (++)).
Qed.

(** X15: a model that the builder returns takes the image and nothing
    else, and puts out the classification tensor and nothing else. Its
    [input_specs] is a spec with a shape (or an object with a [shape]
    that can be sliced); its one input, [image], is the placeholder of
    that shape without the first dimension; it does not expose states,
    and it has the defaults of the constructor for the kernel
    initializer and the bias regularizer. *)
Theorem build_movinet_model_shape input_specs model_config nc l2 w m w' :
  build input_specs model_config nc l2 w = (Ok m, w') →
  ∃ tail args feat,
    ((∃ sp shape, input_specs = VSpec sp ∧ spec_shape sp = Some shape ∧
                  tail = drop 1 shape) ∨
     (∃ o x, input_specs = VObj o ∧ obj_attr o "shape" = Some x ∧
             slice_tail x = Ok tail)) ∧
    keras_inputs m = [("image", named_placeholder "image" tail)] ∧
    keras_outputs m = OutTensor (ClassifierOut args feat) ∧
    head_num_classes args = nc ∧
    head_kernel_regularizer args = l2 ∧
    head_dropout_rate args = cfg.dropout_rate model_config ∧
    _output_states m = VBool false ∧
    _kernel_initializer m = VStr "HeNormal" ∧
    _bias_regularizer m = VNone ∧
    keras_kwargs m = [].
Proof.
  intros H. apply build_Ok_inv in H
    as (evs & bb & tail & hf & ct & feat & _ & _ & Ht & -> & _).
  eexists tail, _, feat. split; [by apply spec_shape_tail_Ok|done].
Qed.

(** X16: the calls of a builder that returns, in their order: the log of
    the number of classes; the log of the regularizer's config when there
    is a regularizer; the backbone factory, once; the backbone it gave,
    once, on the image placeholder and an empty mapping of states; the
    classification head. *)
Theorem build_movinet_model_calls input_specs model_config nc l2 w m w' :
  build input_specs model_config nc l2 w = (Ok m, w') →
  ∃ evs tail args feat,
    regularizer_log l2 = Ok evs ∧
    ((∃ sp shape, input_specs = VSpec sp ∧ spec_shape sp = Some shape ∧
                  tail = drop 1 shape) ∨
     (∃ o x, input_specs = VObj o ∧ obj_attr o "shape" = Some x ∧
             slice_tail x = Ok tail)) ∧
    build_backbone input_specs (cfg.backbone model_config)
      (cfg.norm_activation model_config) l2 = Ok (_backbone m) ∧
    trace w' =
      (trace w ++
       [EvLogInfo "Building movinet model with num classes: %s" nc] ++
       evs ++
       [EvBuildBackbone input_specs (cfg.backbone model_config)
          (cfg.norm_activation model_config) l2;
        EvBackboneCall (_backbone m) (named_placeholder "image" tail)
          (IStates []);
        EvClassifierHead args feat])%list.
Proof.
  intros H. apply build_Ok_inv in H
    as (evs & bb & tail & hf & ct & feat & Hlog & Hbb & Ht & -> & Htr).
  eexists evs, tail, _, feat.
  split; [done|]. split; [by apply spec_shape_tail_Ok|]. by split.
Qed.

End Properties.

(** * The properties at work on the concrete setting *)

Lemma config_roundtrip_witness :
  ∃ x w1,
    Demo.construct VNone (VBool true) Demo.empty_world = (Ok x, w1) ∧
    ∃ c w2 y w3 c' w4 d,
      get_config x w1 = (Ok c, w2) ∧
      from_config Demo.backbone_call Demo.obj_attr Demo.deserialize c w2
        = (Ok y, w3) ∧
      get_config y w3 = (Ok c', w4) ∧
      dict_of (heap w4) c = Some d ∧
      dict_of (heap w4) c' = Some d ∧
      dict_keys d = init_params ∧
      keras_inputs y = keras_inputs x ∧
      keras_outputs y = keras_outputs x.
Proof.
  eexists _, _. split; [vm_compute; reflexivity|].
  eapply (config_roundtrip Demo.backbone_call Demo.obj_attr Demo.deserialize
           (VObj Demo.the_backbone) (VInt 600) VNone
           (VFloat (S754_zero false)) (VStr "HeNormal") VNone VNone
           (VBool true) [] Demo.empty_world).
  vm_compute. reflexivity.
Defined.

Lemma output_states_contract_witness :
  ∃ m w',
    Demo.construct VNone (VBool true) Demo.empty_world = (Ok m, w') ∧
    ∃ o image states_in endpoints states args feat,
      VObj Demo.the_backbone = VObj o ∧
      EvBackboneCall (VObj Demo.the_backbone) image states_in ∈ trace w' ∧
      Demo.backbone_call o image states_in = Ok (endpoints, states) ∧
      dict_get "head" endpoints = Some feat ∧
      (VBool true = VBool true →
       keras_outputs m = OutWithStates (ClassifierOut args feat) states) ∧
      (VBool true = VBool false →
       keras_outputs m = OutTensor (ClassifierOut args feat)).
Proof.
  eexists _, _. split; [vm_compute; reflexivity|].
  eapply (output_states_contract Demo.backbone_call Demo.obj_attr
           (VObj Demo.the_backbone) (VInt 600) VNone
           (VFloat (S754_zero false)) (VStr "HeNormal") VNone VNone
           (VBool true) [] Demo.empty_world).
  vm_compute. reflexivity.
Defined.

Lemma backbone_invoked_once_witness :
  ∃ m w',
    Demo.construct (VRef 1%positive) (VBool false) Demo.image_world
      = (Ok m, w') ∧
    ∃ o specs inputs image states_in endpoints states args feat,
      VObj Demo.the_backbone = VObj o ∧
      dict_of (heap w') (_input_specs m) = Some specs ∧
      map_res (input_placeholder Demo.obj_attr) specs = Ok inputs ∧
      dict_get "image" inputs = Some image ∧
      (dict_get "states" specs = None → states_in = IStates []) ∧
      (is_Some (dict_get "states" specs) →
       dict_get "states" inputs = Some states_in) ∧
      Demo.backbone_call o image states_in = Ok (endpoints, states) ∧
      dict_get "head" endpoints = Some feat ∧
      classification (keras_outputs m) = ClassifierOut args feat ∧
      trace w' = (trace Demo.image_world ++
                  [EvBackboneCall (VObj Demo.the_backbone) image states_in;
                   EvClassifierHead args feat])%list ∧
      length (filter (λ e, is_backbone_call e = true)
                     (drop (length (trace Demo.image_world)) (trace w'))) = 1.
Proof.
  eexists _, _. split; [vm_compute; reflexivity|].
  eapply (backbone_invoked_once Demo.backbone_call Demo.obj_attr
           (VObj Demo.the_backbone) (VInt 600) (VRef 1%positive)
           (VFloat (S754_zero false)) (VStr "HeNormal") VNone VNone
           (VBool false) [] Demo.image_world).
  vm_compute. reflexivity.
Defined.

Lemma output_shape_witness :
  ∃ m w',
    Demo.construct VNone (VBool false) Demo.empty_world = (Ok m, w') ∧
    ∃ args feat,
      classification (keras_outputs m) = ClassifierOut args feat ∧
      head_num_classes args = VInt 600 ∧
      drop 1 (tensor_shape (classification (keras_outputs m)))
        = [Some 600%Z].
Proof.
  eexists _, _. split; [vm_compute; reflexivity|].
  eapply (output_shape Demo.backbone_call Demo.obj_attr
           (VObj Demo.the_backbone) 600 VNone
           (VFloat (S754_zero false)) (VStr "HeNormal") VNone VNone
           (VBool false) [] Demo.empty_world).
  vm_compute. reflexivity.
Defined.

Lemma checkpoint_items_backbone_witness :
  ∃ m w',
    Demo.construct VNone (VBool false) Demo.empty_world = (Ok m, w') ∧
    backbone m = VObj Demo.the_backbone ∧
    ∀ w2, ∃ l,
      checkpoint_items m w2 =
        (Ok (VRef l),
         mkWorld (<[l := [("backbone", VObj Demo.the_backbone)]]> (heap w2))
                 (trace w2)) ∧
      heap w2 !! l = None.
Proof.
  eexists _, _. split; [vm_compute; reflexivity|].
  eapply (checkpoint_items_backbone Demo.backbone_call Demo.obj_attr
           (VObj Demo.the_backbone) (VInt 600) VNone
           (VFloat (S754_zero false)) (VStr "HeNormal") VNone VNone
           (VBool false) [] Demo.empty_world).
  vm_compute. reflexivity.
Defined.

Lemma image_key_precondition_witness :
  Demo.construct (VRef 1%positive) (VBool false) Demo.clip_world
    = (Raise (KeyError "image"), Demo.clip_world) ∧
  past_image_lookup (VObj Demo.the_backbone)
    (ITensor (Placeholder [None; None; None; Some 3%Z] "states/image"))
    Demo.empty_world
    (Demo.construct VNone (VBool false) Demo.empty_world) ∧
  (∃ shape,
    past_image_lookup (VObj Demo.the_backbone)
      (ITensor (Placeholder shape "states/image")) Demo.image_world
      (Demo.construct (VRef 1%positive) (VBool false) Demo.image_world)) ∧
  Demo.construct (VRef 1%positive) (VBool false) Demo.mixed_world
    = (Raise (TypeError "'NoneType' object is not subscriptable"),
       Demo.mixed_world).
Proof.
  split; [|split; [|split]].
  - apply (proj1 (image_key_precondition Demo.backbone_call Demo.obj_attr
                    (VObj Demo.the_backbone) (VInt 600) (VRef 1%positive)
                    (VFloat (S754_zero false)) (VStr "HeNormal") VNone VNone
                    (VBool false) [] Demo.clip_world)
             1%positive [("clip", VSpec Demo.clip_spec)]).
    + reflexivity.
    + vm_compute. reflexivity.
    + discriminate.
    + reflexivity.
    + reflexivity.
  - apply (proj1 (proj2
             (image_key_precondition Demo.backbone_call Demo.obj_attr
                (VObj Demo.the_backbone) (VInt 600) VNone
                (VFloat (S754_zero false)) (VStr "HeNormal") VNone VNone
                (VBool false) [] Demo.empty_world))).
    reflexivity.
  - apply (proj1 (proj2 (proj2
             (image_key_precondition Demo.backbone_call Demo.obj_attr
                (VObj Demo.the_backbone) (VInt 600) (VRef 1%positive)
                (VFloat (S754_zero false)) (VStr "HeNormal") VNone VNone
                (VBool false) [] Demo.image_world)))
             1%positive
             [("image", VSpec Demo.clip_spec);
              ("states", VSpec Demo.state_spec)]).
    + reflexivity.
    + vm_compute. reflexivity.
    + reflexivity.
    + vm_compute. eexists. reflexivity.
  - apply (proj2 (proj2 (proj2
             (image_key_precondition Demo.backbone_call Demo.obj_attr
                (VObj Demo.the_backbone) (VInt 600) (VRef 1%positive)
                (VFloat (S754_zero false)) (VStr "HeNormal") VNone VNone
                (VBool false) [] Demo.mixed_world)))
             1%positive [("image", VSpec Demo.clip_spec)] "clip"
             Demo.rank_spec []).
    + reflexivity.
    + vm_compute. reflexivity.
    + reflexivity.
    + reflexivity.
Defined.

(** C10 as first stated, for every non-empty mapping without the key
    [image], fails on [{'clip': InputSpec(ndim=5)}]: the constructor raises
    a [TypeError] where the placeholders are built, from [state.shape[1:]]
    on a spec without a shape, and not a [KeyError]. *)
Lemma image_key_counterexample :
  heap Demo.rank_world !! 1%positive
    = Some [("clip", VSpec Demo.rank_spec)] ∧
  dict_get "image" [("clip", VSpec Demo.rank_spec)] = None ∧
  Demo.construct (VRef 1%positive) (VBool false) Demo.rank_world
    = (Raise (TypeError "'NoneType' object is not subscriptable"),
       Demo.rank_world) ∧
  (Demo.construct (VRef 1%positive) (VBool false) Demo.rank_world).1
    ≠ Raise (KeyError "image").
Proof.
  split; [vm_compute; reflexivity|]. split; [reflexivity|].
  split; [vm_compute; reflexivity|]. vm_compute. discriminate.
Qed.

(** The config of the partly saved setting, and its deserializer. *)
Lemma partly_saved_config_at :
  config_at (heap Demo.partly_saved_world) 1%positive 2%positive
    [("backbone", VObj Demo.the_backbone); ("num_classes", VInt 600);
     ("input_specs", VRef 2%positive)]
    [("image", VSpec Demo.clip_spec); ("clip", VRef 3%positive)].
Proof.
  unfold config_at. split; [vm_compute; reflexivity|].
  split; [reflexivity|]. split; [vm_compute; reflexivity|].
  split; [discriminate|]. vm_compute.
  apply NoDup_cons. split; [|apply NoDup_singleton].
  intros Hin. apply list_elem_of_singleton in Hin. discriminate.
Defined.

Lemma partly_saved_deserializable (h : gmap loc pydict) :
  h !! 3%positive = Some [("class_name", VStr "InputSpec")] →
  deserializable Demo.deserialize h 2%positive
    [("image", VSpec Demo.clip_spec); ("clip", VRef 3%positive)].
Proof.
  intros H3 n v d Hin Hd. apply elem_of_cons in Hin as [Hin|Hin].
  - injection Hin as -> ->. discriminate.
  - apply list_elem_of_singleton in Hin. injection Hin as -> ->.
    simpl in Hd. rewrite H3 in Hd. injection Hd as <-.
    split; [discriminate|]. eexists. reflexivity.
Defined.

Lemma from_config_deserializes_witness :
  (∃ w1 specs',
     deserialize_input_specs Demo.deserialize (VRef 1%positive)
       Demo.partly_saved_world = (Ok tt, w1) ∧
     from_config Demo.backbone_call Demo.obj_attr Demo.deserialize
       (VRef 1%positive) Demo.partly_saved_world
       = call_cls Demo.backbone_call Demo.obj_attr (VRef 1%positive) w1 ∧
     heap w1 = <[2%positive := specs']> (heap Demo.partly_saved_world) ∧
     trace w1 =
       (trace Demo.partly_saved_world ++
        deserialize_events (heap Demo.partly_saved_world)
          [("image", VSpec Demo.clip_spec); ("clip", VRef 3%positive)])%list ∧
     dict_keys specs'
       = dict_keys [("image", VSpec Demo.clip_spec);
                    ("clip", VRef 3%positive)] ∧
     (∀ n v d,
         dict_get n [("image", VSpec Demo.clip_spec);
                     ("clip", VRef 3%positive)] = Some v →
         dict_of (heap Demo.partly_saved_world) v = Some d →
         ∃ v', Demo.deserialize d = Ok v' ∧ dict_get n specs' = Some v') ∧
     (∀ n v,
         dict_get n [("image", VSpec Demo.clip_spec);
                     ("clip", VRef 3%positive)] = Some v →
         dict_of (heap Demo.partly_saved_world) v = None →
         dict_get n specs' = Some v)) ∧
  ∃ m w',
    from_config Demo.backbone_call Demo.obj_attr Demo.deserialize
      (VRef 1%positive) Demo.partly_saved_world = (Ok m, w') ∧
    ∃ w1 specs',
      deserialize_input_specs Demo.deserialize (VRef 1%positive)
        Demo.partly_saved_world = (Ok tt, w1) ∧
      call_cls Demo.backbone_call Demo.obj_attr (VRef 1%positive) w1
        = (Ok m, w') ∧
      heap w1 = <[2%positive := specs']> (heap Demo.partly_saved_world) ∧
      dict_keys specs'
        = dict_keys [("image", VSpec Demo.clip_spec);
                     ("clip", VRef 3%positive)] ∧
      (∀ n v d,
          dict_get n [("image", VSpec Demo.clip_spec);
                      ("clip", VRef 3%positive)] = Some v →
          dict_of (heap Demo.partly_saved_world) v = Some d →
          v ≠ VRef 2%positive →
          ∃ v', Demo.deserialize d = Ok v' ∧ dict_get n specs' = Some v') ∧
      (∀ n sp,
          dict_get n [("image", VSpec Demo.clip_spec);
                      ("clip", VRef 3%positive)] = Some (VSpec sp) →
          dict_get n specs' = Some (VSpec sp)).
Proof.
  pose proof (from_config_deserializes Demo.backbone_call Demo.obj_attr
                Demo.deserialize 1%positive 2%positive _ _
                Demo.partly_saved_world partly_saved_config_at
                ltac:(discriminate)) as [H1 H2].
  split.
  - apply H1. apply partly_saved_deserializable. vm_compute. reflexivity.
  - eexists _, _. split; [vm_compute; reflexivity|].
    apply H2. vm_compute. reflexivity.
Defined.

(** In the second setting the constructor raises, for want of its
    arguments, and the caller's mapping has been changed all the same. *)
Lemma from_config_in_place_witness :
  (∃ r w',
     from_config Demo.backbone_call Demo.obj_attr Demo.deserialize
       (VRef 1%positive) Demo.partly_saved_specs_world = (r, w') ∧
     r = Raise (TypeError "missing required positional argument") ∧
     ∃ specs',
       heap w' = <[2%positive := specs']>
                   (heap Demo.partly_saved_specs_world) ∧
       heap w' !! 1%positive = Some [("input_specs", VRef 2%positive)] ∧
       (∀ m, r = Ok m → _input_specs m = VRef 2%positive) ∧
       dict_keys specs'
         = dict_keys [("image", VSpec Demo.clip_spec);
                      ("clip", VRef 3%positive)] ∧
       (∀ n v d,
           dict_get n [("image", VSpec Demo.clip_spec);
                       ("clip", VRef 3%positive)] = Some v →
           dict_of (heap Demo.partly_saved_specs_world) v = Some d →
           ∃ v', Demo.deserialize d = Ok v' ∧ dict_get n specs' = Some v') ∧
       (∀ n v,
           dict_get n [("image", VSpec Demo.clip_spec);
                       ("clip", VRef 3%positive)] = Some v →
           dict_of (heap Demo.partly_saved_specs_world) v = None →
           dict_get n specs' = Some v)) ∧
  ∃ m w',
    from_config Demo.backbone_call Demo.obj_attr Demo.deserialize
      (VRef 1%positive) Demo.partly_saved_world = (Ok m, w') ∧
    ∃ specs',
      heap w' = <[2%positive := specs']> (heap Demo.partly_saved_world) ∧
      heap w' !! 1%positive =
        Some [("backbone", VObj Demo.the_backbone); ("num_classes", VInt 600);
              ("input_specs", VRef 2%positive)] ∧
      _input_specs m = VRef 2%positive ∧
      dict_keys specs'
        = dict_keys [("image", VSpec Demo.clip_spec);
                     ("clip", VRef 3%positive)] ∧
      (∀ n v d,
          dict_get n [("image", VSpec Demo.clip_spec);
                      ("clip", VRef 3%positive)] = Some v →
          dict_of (heap Demo.partly_saved_world) v = Some d →
          v ≠ VRef 2%positive →
          ∃ v', Demo.deserialize d = Ok v' ∧ dict_get n specs' = Some v') ∧
      (∀ n v,
          dict_get n [("image", VSpec Demo.clip_spec);
                      ("clip", VRef 3%positive)] = Some v →
          dict_of (heap Demo.partly_saved_world) v = None →
          dict_get n specs' = Some v).
Proof.
  split.
  - eexists _, _. split; [vm_compute; reflexivity|]. split; [reflexivity|].
    eapply (proj1 (from_config_in_place Demo.backbone_call Demo.obj_attr
                     Demo.deserialize 1%positive 2%positive
                     [("input_specs", VRef 2%positive)]
                     [("image", VSpec Demo.clip_spec);
                      ("clip", VRef 3%positive)]
                     Demo.partly_saved_specs_world _ _ _ _ _)).
    apply partly_saved_deserializable. vm_compute. reflexivity.
    Unshelve.
    + unfold config_at. split; [vm_compute; reflexivity|].
      split; [reflexivity|]. split; [vm_compute; reflexivity|].
      split; [discriminate|]. vm_compute.
      apply NoDup_cons. split; [|apply NoDup_singleton].
      intros Hin. apply list_elem_of_singleton in Hin. discriminate.
    + discriminate.
    + vm_compute. reflexivity.
  - eexists _, _. split; [vm_compute; reflexivity|].
    eapply (proj2 (from_config_in_place Demo.backbone_call Demo.obj_attr
                     Demo.deserialize 1%positive 2%positive _ _
                     Demo.partly_saved_world _ _
                     partly_saved_config_at ltac:(discriminate)
                     ltac:(vm_compute; reflexivity))).
    reflexivity.
Defined.

Lemma build_movinet_model_spec_witness :
  ∃ m w',
    build_movinet_model Demo.backbone_call Demo.obj_attr Demo.build_backbone
      Demo.regularizer_get_config (VSpec Demo.clip_spec) Demo.model_config
      (VInt 600) (VObj 7%positive) Demo.empty_world = (Ok m, w') ∧
    ∃ bb d w1,
      Demo.build_backbone (VSpec Demo.clip_spec)
        (cfg.backbone Demo.model_config)
        (cfg.norm_activation Demo.model_config) (VObj 7%positive) = Ok bb ∧
      heap Demo.empty_world !! d = None ∧
      heap w1 = <[d := [("image", VSpec Demo.clip_spec)]]>
                  (heap Demo.empty_world) ∧
      __init__ Demo.backbone_call Demo.obj_attr bb (VInt 600) (VRef d)
        (cfg.dropout_rate Demo.model_config) (VStr "HeNormal")
        (VObj 7%positive) VNone (VBool false) [] w1 = (Ok m, w') ∧
      _backbone m = bb ∧ _num_classes m = VInt 600 ∧
      _kernel_regularizer m = VObj 7%positive ∧ _input_specs m = VRef d ∧
      heap w' !! d = Some [("image", VSpec Demo.clip_spec)] ∧
      _dropout_rate m = cfg.dropout_rate Demo.model_config.
Proof.
  eexists _, _. split; [vm_compute; reflexivity|].
  eapply (build_movinet_model_spec Demo.backbone_call Demo.obj_attr
           Demo.build_backbone Demo.regularizer_get_config
           (VSpec Demo.clip_spec) Demo.model_config (VInt 600)
           (VObj 7%positive) Demo.empty_world).
  vm_compute. reflexivity.
Defined.

Lemma builder_registered_witness :
  import_module Demo.backbone_call Demo.obj_attr Demo.build_backbone
    Demo.regularizer_get_config ∅ !! "movinet"
    = Some (build_movinet_model Demo.backbone_call Demo.obj_attr
              Demo.build_backbone Demo.regularizer_get_config) ∧
  import_module Demo.backbone_call Demo.obj_attr Demo.build_backbone
    Demo.regularizer_get_config ∅ !! "resnet" = None.
Proof.
  destruct (builder_registered Demo.backbone_call Demo.obj_attr
              Demo.build_backbone Demo.regularizer_get_config ∅)
    as [Hm Hk].
  split; [exact Hm|]. rewrite (Hk "resnet"); [reflexivity|discriminate].
Defined.

(** * The further properties at work on the concrete settings *)

Lemma init_store_frame_witness :
  ∃ r w',
    Demo.construct VNone (VBool false) Demo.empty_world = (r, w') ∧
    (∀ l d, heap Demo.empty_world !! l = Some d → heap w' !! l = Some d) ∧
    (is_truthy (heap Demo.empty_world) VNone ≠ Some false →
     heap w' = heap Demo.empty_world) ∧
    (is_truthy (heap Demo.empty_world) VNone = Some false →
     heap w' = <[fresh (dom (heap Demo.empty_world)) :=
                   [("image", VSpec default_image_spec)]]>
                 (heap Demo.empty_world)).
Proof.
  eexists _, _. split; [vm_compute; reflexivity|].
  eapply (init_store_frame Demo.backbone_call Demo.obj_attr
            (VObj Demo.the_backbone) (VInt 600) VNone
            (VFloat (S754_zero false)) (VStr "HeNormal") VNone VNone
            (VBool false) [] Demo.empty_world).
  vm_compute. reflexivity.
Defined.

Lemma init_events_witness :
  ∃ r w',
    Faulty.construct 2%positive = (r, w') ∧
    ((∃ e, r = Raise e ∧ trace w' = trace Demo.image_world) ∨
     (∃ e image states,
         r = Raise e ∧
         trace w' = (trace Demo.image_world ++
                     [EvBackboneCall (VObj 2%positive) image states])%list) ∨
     (∃ image states args x,
         trace w' = (trace Demo.image_world ++
                     [EvBackboneCall (VObj 2%positive) image states;
                      EvClassifierHead args x])%list)).
Proof.
  eexists _, _. split; [vm_compute; reflexivity|].
  eapply (init_events Faulty.backbone_call Faulty.obj_attr
            (VObj 2%positive) (VInt 600) (VRef 1%positive)
            (VFloat (S754_zero false)) (VStr "HeNormal") VNone VNone
            (VBool false) [] Demo.image_world).
  vm_compute. reflexivity.
Defined.


Lemma bad_spec_entry_witness :
  Demo.construct (VRef 1%positive) (VBool false) Demo.mixed_world
    = (Raise (TypeError "'NoneType' object is not subscriptable"),
       Demo.mixed_world) ∧
  Demo.construct (VRef 1%positive) (VBool false) Demo.plain_world
    = (Raise (AttributeError "shape"), Demo.plain_world) ∧
  Demo.construct (VRef 1%positive) (VBool false) Demo.unshaped_world
    = (Raise (TypeError "'NoneType' object is not subscriptable"),
       Demo.unshaped_world).
Proof.
  pose proof (λ v w H,
    bad_spec_entry Demo.backbone_call Demo.obj_attr
      (VObj Demo.the_backbone) (VInt 600) 1%positive
      [("image", VSpec Demo.clip_spec)] _ "clip" v []
      (VFloat (S754_zero false)) (VStr "HeNormal") VNone VNone
      (VBool false) [] w H ltac:(vm_compute; reflexivity)) as H.
  split; [|split].
  - eapply (proj1 (H (VSpec Demo.rank_spec) Demo.mixed_world
                     ltac:(vm_compute; reflexivity))); reflexivity.
  - eapply (proj1 (proj2 (H (VStr "video") Demo.plain_world
                            ltac:(vm_compute; reflexivity)))).
    reflexivity.
  - eapply (proj2 (proj2 (H (VObj Demo.the_unshaped) Demo.unshaped_world
                            ltac:(vm_compute; reflexivity))));
      reflexivity.
Defined.

Lemma model_inputs_witness :
  ∃ m w',
    Demo.construct (VRef 1%positive) (VBool false) Demo.duck_world
      = (Ok m, w') ∧
    ∃ specs ws,
      dict_of (heap w') (_input_specs m) = Some specs ∧
      is_truthy (heap w') (VBool false) = Some ws ∧
      (ws = false → dict_keys (keras_inputs m) = dict_keys specs) ∧
      (∀ n, ws = false ∨ n ≠ "states" →
            dict_get n specs = None → dict_get n (keras_inputs m) = None) ∧
      (∀ n v, dict_get n specs = Some v →
         ∃ tail,
           ((∃ sp shape, v = VSpec sp ∧ spec_shape sp = Some shape ∧
                         tail = drop 1 shape) ∨
            (∃ o x, v = VObj o ∧ Demo.obj_attr o "shape" = Some x ∧
                    slice_tail x = Ok tail)) ∧
           (ws = false ∨ n ≠ "states" →
            dict_get n (keras_inputs m)
              = Some (named_placeholder n tail))).
Proof.
  eexists _, _. split; [vm_compute; reflexivity|].
  eapply (model_inputs Demo.backbone_call Demo.obj_attr
            (VObj Demo.the_backbone) (VInt 600) (VRef 1%positive)
            (VFloat (S754_zero false)) (VStr "HeNormal") VNone VNone
            (VBool false) [] Demo.duck_world).
  vm_compute. reflexivity.
Defined.

Lemma states_feed_back_witness :
  ∃ m w',
    Demo.construct VNone (VBool true) Demo.empty_world = (Ok m, w') ∧
    ∃ x states ins,
      keras_outputs m = OutWithStates x states ∧
      dict_get "states" (keras_inputs m) = Some (IStates ins) ∧
      dict_keys ins = dict_keys states ∧
      ∀ k v, dict_get k states = Some v →
        dict_get k ins = Some (Placeholder (drop 1 (tensor_shape v)) k) ∧
        ∀ rest, tensor_shape v = None :: rest →
                tensor_shape (Placeholder (drop 1 (tensor_shape v)) k)
                  = tensor_shape v.
Proof.
  eexists _, _. split; [vm_compute; reflexivity|].
  eapply (states_feed_back Demo.backbone_call Demo.obj_attr
            (VObj Demo.the_backbone) (VInt 600) VNone
            (VFloat (S754_zero false)) (VStr "HeNormal") VNone VNone
            (VBool true) [] Demo.empty_world).
  - vm_compute. reflexivity.
  - reflexivity.
Defined.

(** The deserializer of the concrete setting accepts the serialized spec
    of the saved config, and returns no dict. *)
Lemma saved_config_at :
  config_at (heap Demo.saved_world) 1%positive 2%positive
    [("backbone", VObj Demo.the_backbone); ("num_classes", VInt 600);
     ("input_specs", VRef 2%positive); ("output_states", VBool true)]
    [("image", VRef 3%positive)].
Proof.
  unfold config_at. split; [vm_compute; reflexivity|].
  split; [reflexivity|]. split; [vm_compute; reflexivity|].
  split; [discriminate|apply NoDup_singleton].
Defined.

Lemma saved_deserializable :
  deserializable Demo.deserialize (heap Demo.saved_world) 2%positive
    [("image", VRef 3%positive)].
Proof.
  intros n v d Hin Hd. apply list_elem_of_singleton in Hin.
  injection Hin as -> ->. vm_compute in Hd. injection Hd as <-.
  split; [discriminate|]. eexists. reflexivity.
Defined.

Lemma from_config_deserialization_witness :
  from_config Demo.backbone_call Demo.obj_attr Demo.deserialize
    (VRef 1%positive) Demo.saved_world =
  call_cls Demo.backbone_call Demo.obj_attr (VRef 1%positive)
    (mkWorld
       (<[2%positive :=
            map (deserialized_entry Demo.deserialize (heap Demo.saved_world))
                [("image", VRef 3%positive)]]> (heap Demo.saved_world))
       (trace Demo.saved_world ++
        deserialize_events (heap Demo.saved_world)
          [("image", VRef 3%positive)])).
Proof.
  eapply (from_config_deserialization Demo.backbone_call Demo.obj_attr
            Demo.deserialize 1%positive 2%positive).
  - exact saved_config_at.
  - exact saved_deserializable.
Defined.

Lemma from_config_deserialize_error_witness :
  from_config Demo.backbone_call Demo.obj_attr Demo.deserialize
    (VRef 1%positive) Demo.broken_world =
  (Raise (External 2%positive),
   mkWorld
     (<[2%positive :=
          (map (deserialized_entry Demo.deserialize (heap Demo.broken_world))
               [("image", VRef 3%positive)]
           ++ [("clip", VRef 4%positive)])%list]> (heap Demo.broken_world))
     (trace Demo.broken_world ++
      deserialize_events (heap Demo.broken_world)
        [("image", VRef 3%positive)]
      ++ [EvDeserialize [("class_name", VStr "Dense")]])).
Proof.
  eapply (from_config_deserialize_error Demo.backbone_call Demo.obj_attr
            Demo.deserialize 1%positive 2%positive
            [("backbone", VObj Demo.the_backbone); ("num_classes", VInt 600);
             ("input_specs", VRef 2%positive)]
            [("image", VRef 3%positive)] "clip" 4%positive
            [("class_name", VStr "Dense")] [] (External 2%positive)
            Demo.broken_world).
  - unfold config_at. split; [vm_compute; reflexivity|].
    split; [reflexivity|]. split; [vm_compute; reflexivity|].
    split; [discriminate|]. vm_compute.
    apply NoDup_cons. split; [|apply NoDup_singleton].
    intros Hin. apply list_elem_of_singleton in Hin. discriminate.
  - intros n v d Hin Hd. apply list_elem_of_singleton in Hin.
    injection Hin as -> ->. vm_compute in Hd. injection Hd as <-.
    split; [discriminate|]. eexists. reflexivity.
  - discriminate.
  - vm_compute. reflexivity.
  - reflexivity.
Defined.

Lemma from_config_input_specs_key_witness :
  from_config Demo.backbone_call Demo.obj_attr Demo.deserialize
    (VRef 1%positive) Demo.bare_world
    = (Raise (KeyError "input_specs"), Demo.bare_world) ∧
  from_config Demo.backbone_call Demo.obj_attr Demo.deserialize
    (VRef 1%positive) Demo.none_world
    = call_cls Demo.backbone_call Demo.obj_attr (VRef 1%positive)
        Demo.none_world.
Proof.
  split.
  - eapply (proj1 (from_config_input_specs_key Demo.backbone_call
                     Demo.obj_attr Demo.deserialize 1%positive _
                     Demo.bare_world ltac:(vm_compute; reflexivity))).
    reflexivity.
  - eapply (proj1 (proj2 (from_config_input_specs_key Demo.backbone_call
                     Demo.obj_attr Demo.deserialize 1%positive _
                     Demo.none_world ltac:(vm_compute; reflexivity))
                   VNone _ _)).
    Unshelve. all: reflexivity.
Defined.

Lemma from_config_missing_argument_witness :
  from_config Demo.backbone_call Demo.obj_attr Demo.deserialize
    (VRef 1%positive) Demo.specs_only_world =
  (Raise (TypeError "missing required positional argument"),
   mkWorld
     (<[2%positive :=
          map (deserialized_entry Demo.deserialize
                 (heap Demo.specs_only_world))
              [("image", VRef 3%positive)]]> (heap Demo.specs_only_world))
     (trace Demo.specs_only_world ++
      deserialize_events (heap Demo.specs_only_world)
        [("image", VRef 3%positive)])).
Proof.
  eapply (from_config_missing_argument Demo.backbone_call Demo.obj_attr
            Demo.deserialize 1%positive 2%positive
            [("input_specs", VRef 2%positive)]).
  - unfold config_at. split; [vm_compute; reflexivity|].
    split; [reflexivity|]. split; [vm_compute; reflexivity|].
    split; [discriminate|apply NoDup_singleton].
  - intros n v d Hin Hd. apply list_elem_of_singleton in Hin.
    injection Hin as -> ->. vm_compute in Hd. injection Hd as <-.
    split; [discriminate|]. eexists. reflexivity.
  - left. reflexivity.
Defined.

Lemma from_config_again_witness :
  ∃ m w',
    from_config Demo.backbone_call Demo.obj_attr Demo.deserialize
      (VRef 1%positive) Demo.saved_world = (Ok m, w') ∧
    ∃ image states args x,
      from_config Demo.backbone_call Demo.obj_attr Demo.deserialize
        (VRef 1%positive) w' =
      (Ok m, mkWorld (heap w')
               (trace w' ++ [EvBackboneCall (_backbone m) image states;
                             EvClassifierHead args x])).
Proof.
  eexists _, _. split; [vm_compute; reflexivity|].
  eapply (from_config_again Demo.backbone_call Demo.obj_attr
            Demo.deserialize 1%positive 2%positive _
            [("image", VRef 3%positive)] Demo.saved_world).
  - exact saved_config_at.
  - discriminate.
  - exact saved_deserializable.
  - intros d v' Hd l. unfold Demo.deserialize in Hd.
    destruct (dict_get "class_name" d) as [[| | | |s0| | | |]|];
      try discriminate.
    destruct (String.eqb_spec s0 "InputSpec") as [->|Hne].
    + injection Hd as <-. discriminate.
    + exfalso. revert Hd. clear -Hne.
      repeat (match goal with
              | |- context [match ?x with _ => _ end] => destruct x
              end; try discriminate).
      by destruct Hne.
  - vm_compute. reflexivity.
Defined.

Lemma get_config_after_from_config_witness :
  (∃ m w',
     from_config Demo.backbone_call Demo.obj_attr Demo.deserialize
       (VRef 1%positive) Demo.saved_world = (Ok m, w') ∧
     ∃ c' d',
       get_config m w'
         = (Ok (VRef c'), mkWorld (<[c' := d']> (heap w')) (trace w')) ∧
       heap w' !! c' = None ∧
       dict_keys d' = init_params ∧
       (∀ k, k ∈ init_params →
             dict_get k d' =
             Some (dict_get_or k (init_default k)
                     [("backbone", VObj Demo.the_backbone);
                      ("num_classes", VInt 600);
                      ("input_specs", VRef 2%positive);
                      ("output_states", VBool true)])) ∧
       keras_kwargs m
         = filter (λ kv, negb (existsb (String.eqb kv.1) init_params))
             [("backbone", VObj Demo.the_backbone);
              ("num_classes", VInt 600);
              ("input_specs", VRef 2%positive);
              ("output_states", VBool true)]) ∧
  ∃ m w',
    from_config Demo.backbone_call Demo.obj_attr Demo.deserialize
      (VRef 1%positive) Demo.none_world = (Ok m, w') ∧
    ∃ c' d' l,
      get_config m w'
        = (Ok (VRef c'), mkWorld (<[c' := d']> (heap w')) (trace w')) ∧
      heap w' !! c' = None ∧
      dict_keys d' = init_params ∧
      (∀ k, k ∈ init_params → k ≠ "input_specs" →
            dict_get k d' =
            Some (dict_get_or k (init_default k)
                    [("backbone", VObj Demo.the_backbone);
                     ("num_classes", VInt 600);
                     ("input_specs", VNone)])) ∧
      dict_get "input_specs" d' = Some (VRef l) ∧
      heap Demo.none_world !! l = None ∧
      heap w' !! l = Some [("image", VSpec default_image_spec)] ∧
      keras_kwargs m
        = filter (λ kv, negb (existsb (String.eqb kv.1) init_params))
            [("backbone", VObj Demo.the_backbone);
             ("num_classes", VInt 600);
             ("input_specs", VNone)].
Proof.
  split.
  - eexists _, _. split; [vm_compute; reflexivity|].
    eapply (proj1 (get_config_after_from_config Demo.backbone_call
                     Demo.obj_attr Demo.deserialize 1%positive _
                     Demo.saved_world _ _ ltac:(vm_compute; reflexivity))
              2%positive [("image", VRef 3%positive)]).
    + exact saved_config_at.
    + discriminate.
  - eexists _, _. split; [vm_compute; reflexivity|].
    eapply (proj2 (get_config_after_from_config Demo.backbone_call
                     Demo.obj_attr Demo.deserialize 1%positive _
                     Demo.none_world _ _ ltac:(vm_compute; reflexivity))
              VNone).
    + vm_compute. reflexivity.
    + reflexivity.
    + reflexivity.
Defined.

Lemma from_config_frame_witness :
  ∃ r w',
    from_config Demo.backbone_call Demo.obj_attr Demo.deserialize
      (VRef 1%positive) Demo.broken_world = (r, w') ∧
    heap w' !! 1%positive
      = Some [("backbone", VObj Demo.the_backbone);
              ("num_classes", VInt 600);
              ("input_specs", VRef 2%positive)] ∧
    (∀ l d, l ≠ 2%positive → heap Demo.broken_world !! l = Some d →
            heap w' !! l = Some d) ∧
    ∃ specs',
      heap w' !! 2%positive = Some specs' ∧
      dict_keys specs'
        = dict_keys [("image", VRef 3%positive); ("clip", VRef 4%positive)].
Proof.
  eexists _, _. split; [vm_compute; reflexivity|].
  eapply (from_config_frame Demo.backbone_call Demo.obj_attr
            Demo.deserialize 1%positive 2%positive _ _ Demo.broken_world).
  - unfold config_at. split; [vm_compute; reflexivity|].
    split; [reflexivity|]. split; [vm_compute; reflexivity|].
    split; [discriminate|]. vm_compute.
    apply NoDup_cons. split; [|apply NoDup_singleton].
    intros Hin. apply list_elem_of_singleton in Hin. discriminate.
  - vm_compute. reflexivity.
Defined.

Lemma build_errors_witness :
  build_movinet_model Demo.backbone_call Demo.obj_attr Faulty.build_backbone
    Faulty.regularizer_get_config (VSpec Demo.clip_spec) Demo.model_config
    (VInt 600) (VFloat (S754_zero false)) Demo.empty_world
    = (Raise (AttributeError "get_config"),
       mkWorld (heap Demo.empty_world)
         (trace Demo.empty_world ++
          [EvLogInfo "Building movinet model with num classes: %s"
             (VInt 600)])) ∧
  build_movinet_model Demo.backbone_call Demo.obj_attr Faulty.build_backbone
    Faulty.regularizer_get_config (VSpec Demo.clip_spec) Demo.model_config
    (VInt 600) (VObj 7%positive) Demo.empty_world
    = (Raise (External 8%positive),
       mkWorld (heap Demo.empty_world)
         (trace Demo.empty_world ++
          [EvLogInfo "Building movinet model with num classes: %s"
             (VInt 600)])) ∧
  build_movinet_model Demo.backbone_call Demo.obj_attr Faulty.build_backbone
    Faulty.regularizer_get_config (VSpec Demo.clip_spec) Demo.model_config
    (VInt 600) VNone Demo.empty_world
    = (Raise (External 9%positive),
       mkWorld (<[fresh (dom (heap Demo.empty_world)) :=
                    [("image", VSpec Demo.clip_spec)]]>
                  (heap Demo.empty_world))
         ((trace Demo.empty_world ++
           [EvLogInfo "Building movinet model with num classes: %s"
              (VInt 600)]) ++ [] ++
          [EvBuildBackbone (VSpec Demo.clip_spec)
             (cfg.backbone Demo.model_config)
             (cfg.norm_activation Demo.model_config) VNone])).
Proof.
  pose proof (λ l2,
    build_errors Demo.backbone_call Demo.obj_attr Faulty.build_backbone
      Faulty.regularizer_get_config (VSpec Demo.clip_spec)
      Demo.model_config (VInt 600) l2 Demo.empty_world) as H.
  cbv zeta in H. split; [|split].
  - apply (proj1 (H (VFloat (S754_zero false)))). reflexivity.
  - apply (proj1 (proj2 (H (VObj 7%positive))));
      [reflexivity|discriminate|reflexivity].
  - apply (proj2 (proj2 (H VNone))); reflexivity.
Defined.

Lemma build_movinet_model_shape_witness :
  ∃ m w',
    build_movinet_model Demo.backbone_call Demo.obj_attr Demo.build_backbone
      Demo.regularizer_get_config (VSpec Demo.clip_spec) Demo.model_config
      (VInt 600) (VObj 7%positive) Demo.empty_world = (Ok m, w') ∧
    ∃ tail args feat,
      ((∃ sp shape, VSpec Demo.clip_spec = VSpec sp ∧
                    spec_shape sp = Some shape ∧ tail = drop 1 shape) ∨
       (∃ o x, VSpec Demo.clip_spec = VObj o ∧
               Demo.obj_attr o "shape" = Some x ∧
               slice_tail x = Ok tail)) ∧
      keras_inputs m = [("image", named_placeholder "image" tail)] ∧
      keras_outputs m = OutTensor (ClassifierOut args feat) ∧
      head_num_classes args = VInt 600 ∧
      head_kernel_regularizer args = VObj 7%positive ∧
      head_dropout_rate args = cfg.dropout_rate Demo.model_config ∧
      _output_states m = VBool false ∧
      _kernel_initializer m = VStr "HeNormal" ∧
      _bias_regularizer m = VNone ∧
      keras_kwargs m = [].
Proof.
  eexists _, _. split; [vm_compute; reflexivity|].
  eapply (build_movinet_model_shape Demo.backbone_call Demo.obj_attr
            Demo.build_backbone Demo.regularizer_get_config
            (VSpec Demo.clip_spec) Demo.model_config (VInt 600)
            (VObj 7%positive) Demo.empty_world).
  vm_compute. reflexivity.
Defined.

Lemma build_movinet_model_calls_witness :
  ∃ m w',
    build_movinet_model Demo.backbone_call Demo.obj_attr Demo.build_backbone
      Demo.regularizer_get_config (VSpec Demo.clip_spec) Demo.model_config
      (VInt 600) (VObj 7%positive) Demo.empty_world = (Ok m, w') ∧
    ∃ evs tail args feat,
      regularizer_log Demo.regularizer_get_config (VObj 7%positive)
        = Ok evs ∧
      ((∃ sp shape, VSpec Demo.clip_spec = VSpec sp ∧
                    spec_shape sp = Some shape ∧ tail = drop 1 shape) ∨
       (∃ o x, VSpec Demo.clip_spec = VObj o ∧
               Demo.obj_attr o "shape" = Some x ∧
               slice_tail x = Ok tail)) ∧
      Demo.build_backbone (VSpec Demo.clip_spec)
        (cfg.backbone Demo.model_config)
        (cfg.norm_activation Demo.model_config) (VObj 7%positive)
        = Ok (_backbone m) ∧
      trace w' =
        (trace Demo.empty_world ++
         [EvLogInfo "Building movinet model with num classes: %s"
            (VInt 600)] ++
         evs ++
         [EvBuildBackbone (VSpec Demo.clip_spec)
            (cfg.backbone Demo.model_config)
            (cfg.norm_activation Demo.model_config) (VObj 7%positive);
          EvBackboneCall (_backbone m) (named_placeholder "image" tail)
            (IStates []);
          EvClassifierHead args feat])%list.
Proof.
  eexists _, _. split; [vm_compute; reflexivity|].
  eapply (build_movinet_model_calls Demo.backbone_call Demo.obj_attr
            Demo.build_backbone Demo.regularizer_get_config
            (VSpec Demo.clip_spec) Demo.model_config (VInt 600)
            (VObj 7%positive) Demo.empty_world).
  vm_compute. reflexivity.
Defined.
